(** * LeseAssistent: session registry, identity allocator, result caches
      and real-time handlers of [src/app.py], embedded in Rocq.

    The Python module keeps three process-wide stores: the dictionary
    [sessions] (session code -> session record) and two [OrderedDict]
    caches.  Every function below is the pure counterpart of the Python
    function of the same name: the store it reads is an argument, the store
    it leaves behind is part of the result, the clock readings
    ([datetime.now()]) and the random draws ([random]) it performs are
    arguments, and what it sends ([emit], [socketio.emit], [jsonify]) is
    returned as a list of outputs.  Timestamps are microseconds in [Z].
    The reply of a provider to a request is an argument too, and so are
    the insertion stamps that give the iteration order of [sessions].
    A handler is taken to run from its first to its last line without
    another one in between: the locks ([sessions_lock], [cache_lock],
    [translation_cache_lock]) are not modelled.  The one place where two
    handlers are interleaved is the join, whose two critical sections are
    [get_anonymous_name] and [store_student]. *)

From Stdlib Require Import ZArith Lia Ascii String.
From stdpp Require Import gmap strings list fin_maps pretty sorting.

Open Scope string_scope.
Open Scope list_scope.
Open Scope Z_scope.

(** ** JSON values carried by requests, responses and broadcasts *)

#[local] Set Warnings "-register-all".

Inductive json :=
| JNull
| JBool (b : bool)
| JNum (n : Z)
| JStr (s : string)
| JTime (t : Z)                      (* a timestamp rendered with isoformat() *)
| JList (items : list json)
| JObj (fields : list (string * json)).

(** Python truthiness of a string: [bool(s)]. *)
Definition truthy (s : string) : bool := negb (String.eqb s "").

(** ** Data model *)

(** The dictionary [keys] built by the two session-creating handlers.  The
    HTTP route builds it without ['stt_provider']. *)
Record credentials := Credentials {
  elevenlabs : string;
  ai : string;
  ai_provider : string;
  voice_id : string;
  stt_provider : option string
}.

(** The record [add_student_to_session] stores per student; it always has
    the key ['animal_index']. *)
Record student := Student {
  joined : Z;
  name : string;
  animal_index : nat;
  animal_emoji : string;
  animal_name : string;
  anonymous_id : string
}.

Record translation_request := TranslationRequest {
  language : string;
  language_name : string;
  status : string;
  tr_anonymous_id : string;
  requested_at : Z;
  translated_text : option string
}.

Record student_level := StudentLevel {
  level : string;
  lv_anonymous_id : option string;
  timestamp : Z
}.

Record session := Session {
  keys : credentials;
  teacher_sid : option string;
  created : Z;
  expires : Z;
  students : gmap string student;
  text : string;
  pin : string;
  tasks : json;
  tasks_available : bool;
  translation_requests : gmap string translation_request;
  simplification_enabled : bool;
  student_levels : gmap string student_level;
  settings : option json              (* the key 'settings' exists once set *)
}.

(** The dictionary [sessions]. *)
Abbreviation registry := (gmap string session).

(** ** Configuration *)

Definition SESSION_CODE_LENGTH : nat := 6.
Definition SESSION_TIMEOUT_HOURS : Z := 3.
Definition CLEANUP_INTERVAL_SECONDS : Z := 300.

(** [timedelta(hours=h)] in microseconds. *)
Definition timedelta_hours (h : Z) : Z := h * 3600 * 1000000.

Definition ANONYMOUS_ANIMALS : list (string * string) :=
  [ ("🦊", "Fuchs"); ("🐻", "Bär"); ("🦁", "Löwe"); ("🐯", "Tiger");
    ("🦋", "Schmetterling"); ("🐢", "Schildkröte"); ("🦉", "Eule"); ("🐬", "Delfin");
    ("🦅", "Adler"); ("🐺", "Wolf"); ("🦌", "Hirsch"); ("🐘", "Elefant");
    ("🦒", "Giraffe"); ("🐼", "Panda"); ("🦜", "Papagei"); ("🐨", "Koala");
    ("🦩", "Flamingo"); ("🐸", "Frosch"); ("🦔", "Igel"); ("🐿️", "Eichhörnchen");
    ("🦭", "Robbe"); ("🐧", "Pinguin"); ("🦚", "Pfau"); ("🐝", "Biene");
    ("🦎", "Eidechse"); ("🐙", "Oktopus"); ("🦀", "Krabbe"); ("🐌", "Schnecke") ].

(** ** Identity allocator *)

(** The set [used_indices] collected by the first loop of
    [get_anonymous_name]. *)
Definition used_indices (s : session) : gset nat :=
  list_to_set ((λ kv, animal_index kv.2) <$> map_to_list (students s)).

(** [for i in range(len(ANONYMOUS_ANIMALS)): if i not in used_indices]. *)
Definition first_free (used : gset nat) : option nat :=
  fst <$> list_find (λ i, i ∉ used) (seq 0 (length ANONYMOUS_ANIMALS)).

(** [random.randint(0, n - 1)] on the raw draw [rnd]. *)
Definition randint_below (n rnd : nat) : nat := (rnd mod n)%nat.

(** [str(n)] for a natural number. *)
Definition str_nat (n : nat) : string := pretty n.

Definition get_anonymous_name (rnd : nat) (session_code student_sid : string)
    (sessions : registry) : nat * (string * string) :=
  match sessions !! session_code with
  | Some s =>
      match first_free (used_indices s) with
      | Some i => (i, ANONYMOUS_ANIMALS !!! i)
      | None =>
          let idx := randint_below (length ANONYMOUS_ANIMALS) rnd in
          let '(emoji, nm) := ANONYMOUS_ANIMALS !!! idx in
          (idx, (emoji, nm +:+ " " +:+ str_nat (size (students s) + 1)))
      end
  | None => (0%nat, ANONYMOUS_ANIMALS !!! 0%nat)
  end.

(** ** Session registry *)

Definition chars : string := "ABCDEFGHJKLMNPQRSTUVWXYZ23456789".

(** [random.choices(population, k=k)]: [k] independent draws, draw [i]
    taken from position [i] of the stream [rnd]. *)
Definition choices (population : list ascii) (k : nat) (rnd : nat → nat) : list ascii :=
  (λ i, nth (rnd i mod length population)%nat population Ascii.zero) <$> seq 0 k.

(** One candidate code: [''.join(random.choices(chars, k=SESSION_CODE_LENGTH))]. *)
Definition draw_code (rnd : nat → nat) : string :=
  string_of_list_ascii (choices (list_ascii_of_string chars) SESSION_CODE_LENGTH rnd).

(** The stream left after one candidate has been drawn. *)
Definition advance (rnd : nat → nat) : nat → nat :=
  λ i, rnd (SESSION_CODE_LENGTH + i)%nat.

(** The [while True] loop of [generate_session_code]; [fuel] bounds the
    number of candidates tried, [None] means the bound was reached. *)
Fixpoint generate_session_code (fuel : nat) (rnd : nat → nat) (sessions : registry)
    : option string :=
  match fuel with
  | O => None
  | S fuel' =>
      let code := draw_code rnd in
      if decide (sessions !! code = None) then Some code
      else generate_session_code fuel' (advance rnd) sessions
  end.

(** The record [create_session] stores.  [datetime.now()] is read twice:
    [now_created] for ['created'], [now_expires] for ['expires']. *)
Definition new_session (tsid : option string) (k : credentials) (p : string)
    (now_created now_expires : Z) : session :=
  {| keys := k;
     teacher_sid := tsid;
     created := now_created;
     expires := now_expires + timedelta_hours SESSION_TIMEOUT_HOURS;
     students := ∅;
     text := "";
     pin := p;
     tasks := JList [];
     tasks_available := false;
     translation_requests := ∅;
     simplification_enabled := false;
     student_levels := ∅;
     settings := None |}.

Definition create_session (fuel : nat) (rnd : nat → nat) (tsid : option string)
    (k : credentials) (p : string) (now_created now_expires : Z)
    (sessions : registry) : option (string * registry) :=
  code ← generate_session_code fuel rnd sessions;
  Some (code, <[code := new_session tsid k p now_created now_expires]> sessions).

Definition get_session (code : string) (now : Z) (sessions : registry)
    : option session * registry :=
  match sessions !! code with
  | Some s =>
      if bool_decide (now < expires s) then (Some s, sessions)
      else (None, delete code sessions)
  | None => (None, sessions)
  end.

Definition get_session_keys (code : string) (now : Z) (sessions : registry)
    : option credentials * registry :=
  let '(s, sessions') := get_session code now sessions in
  (keys <$> s, sessions').

Definition end_session (code : string) (sessions : registry) : bool * registry :=
  match sessions !! code with
  | Some _ => (true, delete code sessions)
  | None => (false, sessions)
  end.

(** In-place update of the participant map of a session
    ([session['students'][sid] = ...], [del session['students'][sid]]). *)
Definition with_students (f : gmap string student → gmap string student)
    (s : session) : session :=
  {| keys := keys s; teacher_sid := teacher_sid s;
     created := created s; expires := expires s;
     students := f (students s);
     text := text s; pin := pin s; tasks := tasks s;
     tasks_available := tasks_available s;
     translation_requests := translation_requests s;
     simplification_enabled := simplification_enabled s;
     student_levels := student_levels s;
     settings := settings s |}.

Definition add_student_to_session (rnd : nat) (code student_sid student_name : string)
    (now : Z) (sessions : registry) : option student * registry :=
  let '(index, (emoji, nm)) := get_anonymous_name rnd code student_sid sessions in
  match sessions !! code with
  | Some s =>
      let sd := {| joined := now; name := student_name; animal_index := index;
                   animal_emoji := emoji; animal_name := nm;
                   anonymous_id := emoji +:+ " " +:+ nm |} in
      (Some sd, <[code := with_students <[student_sid := sd]> s]> sessions)
  | None => (None, sessions)
  end.

(** The second critical section of [add_student_to_session] on its own: it
    stores the record for the identity [allocated] by [get_anonymous_name],
    which runs in a critical section of its own before it. *)
Definition store_student (allocated : nat * (string * string))
    (code student_sid student_name : string) (now : Z) (sessions : registry)
    : option student * registry :=
  let '(index, (emoji, nm)) := allocated in
  match sessions !! code with
  | Some s =>
      let sd := {| joined := now; name := student_name; animal_index := index;
                   animal_emoji := emoji; animal_name := nm;
                   anonymous_id := emoji +:+ " " +:+ nm |} in
      (Some sd, <[code := with_students <[student_sid := sd]> s]> sessions)
  | None => (None, sessions)
  end.

Definition remove_student_from_session (code student_sid : string)
    (sessions : registry) : bool * registry :=
  match sessions !! code with
  | Some s =>
      match students s !! student_sid with
      | Some _ => (true, <[code := with_students (delete student_sid) s]> sessions)
      | None => (false, sessions)
      end
  | None => (false, sessions)
  end.

Definition get_student_count (code : string) (now : Z) (sessions : registry)
    : nat * registry :=
  let '(s, sessions') := get_session code now sessions in
  (from_option (λ s, size (students s)) 0%nat s, sessions').

(** ** Iteration over the registry *)

(** A Python dictionary iterates in the order in which its keys were
    inserted, which the finite map does not record.  Where the code iterates
    over [sessions], that order is the argument [stamp]: [stamp code] is the
    time at which [code] was inserted, and the keys come by ascending
    stamp. *)
Definition earlier (stamp : string → nat) (c1 c2 : string) : Prop :=
  (stamp c1 ≤ stamp c2)%nat.

#[global] Instance earlier_dec stamp : RelDecision (earlier stamp) :=
  λ c1 c2, decide (stamp c1 ≤ stamp c2)%nat.

Definition sessions_keys (stamp : string → nat) (sessions : registry) : list string :=
  merge_sort (earlier stamp) (map_to_list sessions).*1.

(** [sessions.items()] *)
Definition sessions_items (stamp : string → nat) (sessions : registry)
    : list (string * session) :=
  omap (λ code, (λ s, (code, s)) <$> sessions !! code) (sessions_keys stamp sessions).

(** ** Periodic sweep *)

(** The codes collected by the list comprehension of
    [cleanup_expired_sessions]; the sweep holds the lock, the clock is taken
    at one instant [now]. *)
Definition expired_codes (stamp : string → nat) (now : Z) (sessions : registry)
    : list string :=
  (filter (λ kv, expires kv.2 ≤ now) (sessions_items stamp sessions)).*1.

(** The [for code in expired] loop.  [log] is the call
    [app.logger.info(...)]: [None] when it returns, [Some e] when it raises
    [e], which leaves the loop with the entries deleted so far. *)
Fixpoint sweep (log : string → option string) (expired : list string)
    (sessions : registry) : registry * option string :=
  match expired with
  | [] => (sessions, None)
  | code :: rest =>
      let sessions' := delete code sessions in
      match log ("Session " +:+ code +:+ " expired and cleaned up") with
      | Some e => (sessions', Some e)
      | None => sweep log rest sessions'
      end
  end.

Definition cleanup_expired_sessions (log : string → option string)
    (stamp : string → nat) (now : Z) (sessions : registry) : registry * option string :=
  sweep log (expired_codes stamp now sessions) sessions.

(** [session_cleanup_thread]: [while True: sleep; cleanup_expired_sessions()]
    with no handler around the call.  One [interval] is one sleep: what the
    other handlers did to the registry meanwhile, the insertion stamps of
    its codes and the clock at wake-up.
    The loop is run over the intervals of a finite prefix of the process
    life; [Alive] means the thread is still in the loop after them. *)
Inductive thread_status :=
| Alive
| Terminated (exc : string).

Record interval := Interval {
  others : registry → registry;
  stamps : string → nat;
  wake : Z
}.

Fixpoint session_cleanup_thread (log : string → option string)
    (life : list interval) (sessions : registry) : thread_status * registry :=
  match life with
  | [] => (Alive, sessions)
  | iv :: life' =>
      match cleanup_expired_sessions log (stamps iv) (wake iv) (others iv sessions) with
      | (sessions', None) => session_cleanup_thread log life' sessions'
      | (sessions', Some e) =>
          (Terminated e, foldl (λ acc iv', others iv' acc) sessions' life')
      end
  end.

(** ** Result caches *)

Definition MAX_CACHE_SIZE : nat := 500.
Definition MAX_TRANSLATION_CACHE_SIZE : nat := 1000.

(** An [OrderedDict] as the list of its items, oldest first. *)
Section ordered_dict.
Context {V : Type}.

Abbreviation odict := (list (string * V)).

(** [d[k]] / [k in d]. *)
Fixpoint od_get (k : string) (d : odict) : option V :=
  match d with
  | [] => None
  | (k', v) :: d' => if decide (k' = k) then Some v else od_get k d'
  end.

Definition od_remove (k : string) (d : odict) : odict :=
  filter (λ kv, kv.1 ≠ k) d.

(** [d.move_to_end(k)]; the callers test [k in d] first. *)
Definition move_to_end (k : string) (d : odict) : odict :=
  match od_get k d with
  | Some v => od_remove k d ++ [(k, v)]
  | None => d
  end.

(** [d.popitem(last=False)]; [None] is the [KeyError] of an empty dict. *)
Definition popitem_first (d : odict) : option ((string * V) * odict) :=
  match d with
  | [] => None
  | kv :: d' => Some (kv, d')
  end.

(** [d[k] = v]: a new key goes to the end, an existing key keeps its place. *)
Definition od_set (k : string) (v : V) (d : odict) : odict :=
  match od_get k d with
  | Some _ => (λ kv, if decide (kv.1 = k) then (k, v) else kv) <$> d
  | None => d ++ [(k, v)]
  end.

(** The body shared by [get_from_cache] and [get_from_translation_cache]. *)
Definition cache_get (cache_key : string) (cache : odict) : option V * odict :=
  match od_get cache_key cache with
  | Some _ =>
      let cache' := move_to_end cache_key cache in
      (od_get cache_key cache', cache')
  | None => (None, cache)
  end.

(** The body shared by [add_to_cache] and [add_to_translation_cache], for
    the bound [max_size]; [None] is the [KeyError] of [popitem]. *)
Definition cache_add (max_size : nat) (cache_key : string) (data : V)
    (cache : odict) : option odict :=
  match od_get cache_key cache with
  | Some _ => Some (move_to_end cache_key cache)
  | None =>
      if bool_decide (max_size ≤ length cache)%nat then
        '(_, cache') ← popitem_first cache;
        Some (od_set cache_key data cache')
      else Some (od_set cache_key data cache)
  end.
End ordered_dict.

Definition get_from_cache (cache_key : string) (tts_cache : list (string * json)) :=
  cache_get cache_key tts_cache.
Definition add_to_cache (cache_key : string) (data : json)
    (tts_cache : list (string * json)) :=
  cache_add MAX_CACHE_SIZE cache_key data tts_cache.
Definition get_from_translation_cache (cache_key : string)
    (translation_cache : list (string * string)) :=
  cache_get cache_key translation_cache.
Definition add_to_translation_cache (cache_key : string) (translated : string)
    (translation_cache : list (string * string)) :=
  cache_add MAX_TRANSLATION_CACHE_SIZE cache_key translated translation_cache.

(** ** Requests and outputs of the handlers *)

(** What a handler sends, in program order. *)
Inductive output :=
| Respond (status_code : nat) (body : json)           (* return jsonify(body), status *)
| SendFile (content : string)                         (* return send_file(...) *)
| Emit (event : string) (payload : json)              (* emit(...): to the calling connection *)
| EmitRoom (event : string) (payload : json) (room : string)  (* socketio.emit(..., room=room) *)
| JoinRoom (room : string)                            (* join_room(room) *)
| Render (template : string).                         (* return render_template(template) *)

(** The request body [data]; a field is read with [data.get(k, default)].
    The handlers are modelled on requests whose fields have the JSON type
    the handler expects; a field of another type reads as missing. *)
Abbreviation request := (gmap string json).

Definition get_str (data : request) (k default : string) : string :=
  match data !! k with Some (JStr s) => s | _ => default end.
Definition get_bool (data : request) (k : string) (default : bool) : bool :=
  match data !! k with Some (JBool b) => b | _ => default end.
Definition get_json (data : request) (k : string) (default : json) : json :=
  match data !! k with Some j => j | None => default end.

Definition err (msg : string) : json := JObj [("error", JStr msg)].
Definition jnat (n : nat) : json := JNum (Z.of_nat n).
Definition jopt (o : option string) : json :=
  match o with Some s => JStr s | None => JNull end.

(** [if session['teacher_sid']:] *)
Definition attached_owner (s : session) : option string :=
  match teacher_sid s with
  | Some t => if truthy t then Some t else None
  | None => None
  end.

(** In-place field assignments [sessions[code][field] = ...]. *)
Definition with_text (t : string) (s : session) : session :=
  {| keys := keys s; teacher_sid := teacher_sid s; created := created s;
     expires := expires s; students := students s; text := t; pin := pin s;
     tasks := tasks s; tasks_available := tasks_available s;
     translation_requests := translation_requests s;
     simplification_enabled := simplification_enabled s;
     student_levels := student_levels s; settings := settings s |}.
Definition with_settings (j : json) (s : session) : session :=
  {| keys := keys s; teacher_sid := teacher_sid s; created := created s;
     expires := expires s; students := students s; text := text s; pin := pin s;
     tasks := tasks s; tasks_available := tasks_available s;
     translation_requests := translation_requests s;
     simplification_enabled := simplification_enabled s;
     student_levels := student_levels s; settings := Some j |}.
Definition with_tasks (j : json) (s : session) : session :=
  {| keys := keys s; teacher_sid := teacher_sid s; created := created s;
     expires := expires s; students := students s; text := text s; pin := pin s;
     tasks := j; tasks_available := true;
     translation_requests := translation_requests s;
     simplification_enabled := simplification_enabled s;
     student_levels := student_levels s; settings := settings s |}.
Definition with_translation_requests
    (f : gmap string translation_request → gmap string translation_request)
    (s : session) : session :=
  {| keys := keys s; teacher_sid := teacher_sid s; created := created s;
     expires := expires s; students := students s; text := text s; pin := pin s;
     tasks := tasks s; tasks_available := tasks_available s;
     translation_requests := f (translation_requests s);
     simplification_enabled := simplification_enabled s;
     student_levels := student_levels s; settings := settings s |}.
Definition with_simplification (b : bool) (s : session) : session :=
  {| keys := keys s; teacher_sid := teacher_sid s; created := created s;
     expires := expires s; students := students s; text := text s; pin := pin s;
     tasks := tasks s; tasks_available := tasks_available s;
     translation_requests := translation_requests s;
     simplification_enabled := b;
     student_levels := student_levels s; settings := settings s |}.
Definition with_student_levels
    (f : gmap string student_level → gmap string student_level)
    (s : session) : session :=
  {| keys := keys s; teacher_sid := teacher_sid s; created := created s;
     expires := expires s; students := students s; text := text s; pin := pin s;
     tasks := tasks s; tasks_available := tasks_available s;
     translation_requests := translation_requests s;
     simplification_enabled := simplification_enabled s;
     student_levels := f (student_levels s); settings := settings s |}.

Definition with_status (st : string) (tx : option string)
    (r : translation_request) : translation_request :=
  {| language := language r; language_name := language_name r; status := st;
     tr_anonymous_id := tr_anonymous_id r; requested_at := requested_at r;
     translated_text := tx |}.

Definition LANGUAGE_NAMES : list (string * string) :=
  [ ("tr", "Türkisch"); ("bg", "Bulgarisch"); ("de", "Deutsch");
    ("ar", "Arabisch"); ("uk", "Ukrainisch"); ("en", "Englisch") ].

(** [LANGUAGE_NAMES.get(language, language)] *)
Definition language_display (lang : string) : string :=
  default lang (od_get lang LANGUAGE_NAMES).

(** A request a route sends out to a provider. *)
Inductive outbound :=
| TranslationCall (provider api_key target_language txt : string)
    (* the requests.post of translate_text_with_ai, prompt for the language on [txt] *)
| TextCall (provider api_key system_prompt user_message : string)
    (* call_openai_text / call_anthropic_text / call_google_text *)
| CompletionCall (provider api_key : string) (lvl txt : string)
    (* the requests.post of simplify_text_with_ai, prompt of [lvl] on [txt] *)
| TtsCall (voice api_key txt model_id language_code : string)
    (* the requests.post of proxy_tts *)
| WordInfoCall (provider api_key word target_language : string)
    (* the requests.post of get_word_info_from_ai *)
| ImageCall (api_key word : string) (explanation : json)
    (* the requests.post of generate_word_image_gemini *)
| TasksCall (provider api_key txt : string)
    (* the requests.post of api_generate_tasks, prompt on [txt] *)
| VisionCall (provider api_key prompt image_base64 mime_type : string)
    (* call_openai_vision / call_anthropic_vision / call_google_vision *)
| WhisperCall (api_key audio_data language : string)
    (* the requests.post of transcribe_with_whisper *)
| GeminiAudioCall (api_key audio_data language : string)
    (* the requests.post of transcribe_with_gemini *)
| ScribeCall (api_key audio_data : string) (language_code : option string).
    (* the requests.post of proxy_speech_to_text_scribe *)

Definition gemini_url (model api_key : string) : string :=
  "https://generativelanguage.googleapis.com/v1beta/models/" +:+ model
  +:+ ":generateContent?key=" +:+ api_key.

(** The URL of the three text providers: OpenAI and Anthropic take the key
    in a header, Google takes it in the query string. *)
Definition provider_url (provider api_key : string) : string :=
  if String.eqb provider "openai" then "https://api.openai.com/v1/chat/completions"
  else if String.eqb provider "google" then gemini_url "gemini-2.0-flash" api_key
  else if String.eqb provider "anthropic" then "https://api.anthropic.com/v1/messages"
  else "".

(** The URL an outbound request is posted to. *)
Definition call_url (c : outbound) : string :=
  match c with
  | TranslationCall provider api_key _ _
  | TextCall provider api_key _ _
  | CompletionCall provider api_key _ _
  | WordInfoCall provider api_key _ _
  | TasksCall provider api_key _
  | VisionCall provider api_key _ _ _ => provider_url provider api_key
  | TtsCall voice _ _ _ _ =>
      "https://api.elevenlabs.io/v1/text-to-speech/" +:+ voice +:+ "/with-timestamps"
  | ImageCall api_key _ _ => gemini_url "gemini-2.5-flash-image" api_key
  | WhisperCall _ _ _ => "https://api.openai.com/v1/audio/transcriptions"
  | GeminiAudioCall api_key _ _ => gemini_url "gemini-2.0-flash" api_key
  | ScribeCall _ _ _ => "https://api.elevenlabs.io/v1/speech-to-text"
  end.

(** What the provider call inside [translate_text_with_ai] comes to: status
    200 with the extracted, stripped text; another status; or an exception
    raised on the way.  [describe] gives the [str(e)] of that exception: the
    HTTP library builds the message of its own exceptions from the request
    it was sending. *)
Inductive http_reply :=
| HttpOk (content : string)
| HttpStatus (code : nat)
| HttpRaise (describe : outbound → string).

(** [translate_text_with_ai]: [inl] is the returned text, [inr] the message
    of the raised exception. *)
Definition translate_text_with_ai (reply : http_reply)
    (txt target_language ai_key provider : string) : string + string :=
  let failed := inr ("Übersetzung fehlgeschlagen (" +:+ provider +:+ ")") in
  if bool_decide (provider = "openai" ∨ provider = "google" ∨ provider = "anthropic")
  then match reply with
       | HttpOk content => inl content
       | HttpStatus _ => failed
       | HttpRaise describe =>
           inr (describe (TranslationCall provider ai_key target_language txt))
       end
  else failed.

(** ** HTTP routes of the session API *)

Section handlers.
(** [s.upper().strip()] of Python's [str]. *)
Variable upper_strip : string → string.

Definition request_code (data : request) : string :=
  upper_strip (get_str data "code" "").

Definition api_create_session (fuel : nat) (rnd : nat → nat) (data : request)
    (now_created now_expires : Z) (sessions : registry)
    : option (registry * list output) :=
  let k := {| elevenlabs := get_str data "elevenlabs_key" "";
              ai := get_str data "ai_key" "";
              ai_provider := get_str data "ai_provider" "openai";
              voice_id := get_str data "voice_id" "21m00Tcm4TlvDq8ikWAM";
              stt_provider := None |} in
  if negb (truthy (elevenlabs k)) then
    Some (sessions, [Respond 400 (err "ElevenLabs API Key erforderlich")])
  else
    '(code, sessions') ← create_session fuel rnd None k "" now_created now_expires sessions;
    Some (sessions',
          [Respond 200 (JObj [("success", JBool true); ("code", JStr code);
                              ("expires", from_option (λ s, JTime (expires s)) JNull
                                            (sessions' !! code))])]).

Definition api_join_session (data : request) (now : Z) (sessions : registry)
    : registry * list output :=
  let code := request_code data in
  match get_session code now sessions with
  | (None, sessions') =>
      (sessions', [Respond 404 (err "Session nicht gefunden oder abgelaufen")])
  | (Some s, sessions') =>
      (sessions', [Respond 200 (JObj [("success", JBool true); ("code", JStr code);
                                      ("student_count", jnat (size (students s)))])])
  end.

Definition api_end_session (data : request) (sessions : registry)
    : registry * list output :=
  let code := request_code data in
  match end_session code sessions with
  | (true, sessions') =>
      (sessions',
       [EmitRoom "session_ended" (JObj [("message", JStr "Die Session wurde beendet.")]) code;
        Respond 200 (JObj [("success", JBool true)])])
  | (false, sessions') => (sessions', [Respond 404 (err "Session nicht gefunden")])
  end.

Definition api_session_status (code : string) (now : Z) (sessions : registry)
    : registry * list output :=
  let code := upper_strip code in
  match get_session code now sessions with
  | (None, sessions') => (sessions', [Respond 404 (err "Session nicht gefunden")])
  | (Some s, sessions') =>
      (sessions', [Respond 200 (JObj [("code", JStr code);
                                      ("student_count", jnat (size (students s)));
                                      ("created", JTime (created s));
                                      ("expires", JTime (expires s));
                                      ("has_text", JBool (truthy (text s)))])])
  end.

Definition api_session_settings (code : string) (now : Z) (sessions : registry)
    : registry * list output :=
  let code := upper_strip code in
  match get_session code now sessions with
  | (None, sessions') => (sessions', [Respond 404 (err "Session nicht gefunden")])
  | (Some s, sessions') =>
      let k := keys s in
      (sessions', [Respond 200 (JObj [("code", JStr code);
                                      ("stt_provider", JStr (default "browser" (stt_provider k)));
                                      ("voice_id", JStr (voice_id k));
                                      ("has_elevenlabs", JBool (truthy (elevenlabs k)))])])
  end.

(** The PNG is the QR rendering of [join_url]; it is kept as that URL. *)
Definition api_session_qr (host_url code : string) (now : Z) (sessions : registry)
    : registry * list output :=
  let code := upper_strip code in
  match get_session code now sessions with
  | (None, sessions') => (sessions', [Respond 404 (err "Session nicht gefunden")])
  | (Some _, sessions') => (sessions', [SendFile (host_url +:+ "/student?code=" +:+ code)])
  end.

Definition api_set_session_text (data : request) (sessions : registry)
    : registry * list output :=
  let code := request_code data in
  let txt := get_str data "text" "" in
  match sessions !! code with
  | Some s =>
      (<[code := with_text txt s]> sessions,
       [EmitRoom "text_updated" (JObj [("text", JStr txt)]) code;
        Respond 200 (JObj [("success", JBool true)])])
  | None => (sessions, [Respond 404 (err "Session nicht gefunden")])
  end.

Definition api_get_session_text (code : string) (now : Z) (sessions : registry)
    : registry * list output :=
  let code := upper_strip code in
  match get_session code now sessions with
  | (None, sessions') => (sessions', [Respond 404 (err "Session nicht gefunden")])
  | (Some s, sessions') => (sessions', [Respond 200 (JObj [("text", JStr (text s))])])
  end.

(** ** Socket events *)

(** [handle_disconnect]: the loop over [sessions.items()], one broadcast
    per session the connection is removed from, in the order of the loop. *)
Definition handle_disconnect (stamp : string → nat) (request_sid : string)
    (sessions : registry) : registry * list output :=
  ((λ s, match students s !! request_sid with
         | Some _ => with_students (delete request_sid) s
         | None => s
         end) <$> sessions,
   omap (λ kv : string * session,
           match students kv.2 !! request_sid with
           | Some _ =>
               (λ t, EmitRoom "student_left"
                       (JObj [("count", jnat (size (delete request_sid (students kv.2))))]) t)
               <$> attached_owner kv.2
           | None => None
           end) (sessions_items stamp sessions)).

Definition handle_teacher_create_session (fuel : nat) (rnd : nat → nat)
    (data : request) (request_sid : string) (now_created now_expires : Z)
    (sessions : registry) : option (registry * list output) :=
  let k := {| elevenlabs := get_str data "elevenlabs_key" "";
              ai := get_str data "ai_key" "";
              ai_provider := get_str data "ai_provider" "openai";
              voice_id := get_str data "voice_id" "21m00Tcm4TlvDq8ikWAM";
              stt_provider := Some (get_str data "stt_provider" "browser") |} in
  if negb (truthy (elevenlabs k)) then
    Some (sessions, [Emit "session_error" (err "ElevenLabs API Key erforderlich")])
  else
    let p := get_str data "pin" "" in
    '(code, sessions') ← create_session fuel rnd (Some request_sid) k p
                           now_created now_expires sessions;
    Some (sessions',
          [JoinRoom code;
           Emit "session_created"
             (JObj [("code", JStr code);
                    ("expires", from_option (λ s, JTime (expires s)) JNull
                                  (sessions' !! code));
                    ("has_pin", JBool (truthy p))])]).

(** After [add_student_to_session] the local [session] is still the
    dictionary stored under [code], so it shows the new participant. *)
Definition handle_student_join_session (rnd : nat) (data : request)
    (request_sid : string) (now now_joined : Z) (sessions : registry)
    : registry * list output :=
  let code := request_code data in
  let nm := get_str data "name" "Anonym" in
  match get_session code now sessions with
  | (None, sessions') =>
      (sessions', [Emit "join_error" (err "Session nicht gefunden oder abgelaufen")])
  | (Some s0, sessions') =>
      let '(student_data, sessions'') :=
        add_student_to_session rnd code request_sid nm now_joined sessions' in
      let s := default s0 (sessions'' !! code) in
      let anon := from_option anonymous_id "🐾 Gast" student_data in
      (sessions'',
       app [JoinRoom code;
        Emit "join_success"
          (JObj [("code", JStr code);
                 ("text", JStr (text s));
                 ("settings", default (JObj []) (settings s));
                 ("tasks_available", JBool (tasks_available s));
                 ("tasks", if tasks_available s then tasks s else JList []);
                 ("anonymous_id", JStr anon);
                 ("animal_emoji", JStr (from_option animal_emoji "🐾" student_data));
                 ("animal_name", JStr (from_option animal_name "Gast" student_data));
                 ("simplification_enabled", JBool (simplification_enabled s))])]
         match attached_owner s with
          | Some t =>
              [EmitRoom "student_joined"
                 (JObj [("count", jnat (size (students s)));
                        ("name", JStr nm);
                        ("anonymous_id", JStr anon);
                        ("student_sid", JStr request_sid)]) t]
          | None => []
          end)
  end.

Definition no_permission_or_missing : output :=
  Emit "session_error" (err "Keine Berechtigung oder Session nicht gefunden").
Definition no_permission : output :=
  Emit "session_error" (err "Keine Berechtigung").

(** [session and session['teacher_sid'] == request.sid] *)
Definition is_owner (request_sid : string) (s : option session) : bool :=
  match s with
  | Some s => bool_decide (teacher_sid s = Some request_sid)
  | None => false
  end.

Definition handle_teacher_end_session (data : request) (request_sid : string)
    (now : Z) (sessions : registry) : registry * list output :=
  let code := request_code data in
  let '(s, sessions') := get_session code now sessions in
  if is_owner request_sid s then
    (snd (end_session code sessions'),
     [EmitRoom "session_ended"
        (JObj [("message", JStr "Die Session wurde vom Lehrer beendet.")]) code;
      Emit "session_ended_confirmed" (JObj [("success", JBool true)])])
  else (sessions', [no_permission_or_missing]).

Definition handle_teacher_update_settings (data : request) (request_sid : string)
    (now : Z) (sessions : registry) : registry * list output :=
  let code := request_code data in
  let settings := get_json data "settings" (JObj []) in
  let '(s, sessions') := get_session code now sessions in
  if is_owner request_sid s then
    (alter (with_settings settings) code sessions',
     [EmitRoom "settings_updated" (JObj [("settings", settings)]) code])
  else (sessions', [no_permission_or_missing]).

Definition handle_teacher_release_tasks (data : request) (request_sid : string)
    (now : Z) (sessions : registry) : registry * list output :=
  let code := request_code data in
  let tasks := get_json data "tasks" (JList []) in
  let '(s, sessions') := get_session code now sessions in
  if is_owner request_sid s then
    (alter (with_tasks tasks) code sessions',
     [EmitRoom "tasks_released" (JObj [("tasks", tasks)]) code])
  else (sessions', [no_permission_or_missing]).

Definition handle_student_request_translation (data : request)
    (request_sid : string) (now now_requested : Z) (sessions : registry)
    : registry * list output :=
  let code := request_code data in
  let lang := get_str data "language" "" in
  match get_session code now sessions with
  | (None, sessions') => (sessions', [Emit "translation_error" (err "Session nicht gefunden")])
  | (Some s, sessions') =>
      let anon := from_option anonymous_id "🐾 Gast" (students s !! request_sid) in
      let req := {| language := lang; language_name := language_display lang;
                    status := "pending"; tr_anonymous_id := anon;
                    requested_at := now_requested; translated_text := None |} in
      (alter (with_translation_requests <[request_sid := req]>) code sessions',
       app [Emit "translation_request_sent"
              (JObj [("language", JStr lang);
                     ("language_name", JStr (language_display lang))])]
         match attached_owner s with
          | Some t =>
              [EmitRoom "translation_request_received"
                 (JObj [("student_sid", JStr request_sid);
                        ("anonymous_id", JStr anon);
                        ("language", JStr lang);
                        ("language_name", JStr (language_display lang))]) t]
          | None => []
          end)
  end.

Definition handle_teacher_approve_translation (reply : http_reply) (data : request)
    (request_sid : string) (now : Z) (sessions : registry)
    : registry * list output :=
  let code := request_code data in
  let student_sid := get_str data "student_sid" "" in
  let layout := get_str data "layout" "side-by-side" in
  let '(s, sessions') := get_session code now sessions in
  match s with
  | Some s =>
    if bool_decide (teacher_sid s = Some request_sid) then
      match translation_requests s !! student_sid with
      | None => (sessions', [Emit "session_error" (err "Anfrage nicht gefunden")])
      | Some translation_request =>
        let lang := language translation_request in
        if negb (truthy (text s)) then
          (sessions', [Emit "session_error" (err "Kein Text zum Übersetzen")])
        else
          let ai_key := ai (keys s) in
          let provider := ai_provider (keys s) in
          if negb (truthy ai_key) then
            (alter (with_translation_requests
                      (alter (with_status "approved_no_translation"
                                (translated_text translation_request)) student_sid))
                   code sessions',
             [EmitRoom "translation_approved"
                (JObj [("language", JStr lang);
                       ("translated_text", JNull);
                       ("layout", JStr layout);
                       ("message", JStr "Übersetzung genehmigt, aber kein AI-Key für automatische Übersetzung konfiguriert.")])
                student_sid])
          else
            match translate_text_with_ai reply (text s) lang ai_key provider with
            | inl translated =>
                (alter (with_translation_requests
                          (alter (with_status "approved" (Some translated)) student_sid))
                       code sessions',
                 [EmitRoom "translation_approved"
                    (JObj [("language", JStr lang);
                           ("language_name", JStr (language_display lang));
                           ("translated_text", JStr translated);
                           ("layout", JStr layout)])
                    student_sid;
                  Emit "translation_sent"
                    (JObj [("student_sid", JStr student_sid);
                           ("anonymous_id", JStr (tr_anonymous_id translation_request));
                           ("success", JBool true)])])
            | inr e =>
                (sessions', [Emit "session_error" (err ("Übersetzungsfehler: " +:+ e))])
            end
      end
    else (sessions', [no_permission])
  | None => (sessions', [no_permission])
  end.

Definition handle_teacher_deny_translation (data : request) (request_sid : string)
    (now : Z) (sessions : registry) : registry * list output :=
  let code := request_code data in
  let student_sid := get_str data "student_sid" "" in
  let '(s, sessions') := get_session code now sessions in
  match s with
  | Some s =>
    if bool_decide (teacher_sid s = Some request_sid) then
      (alter (with_translation_requests
                (alter (λ r, with_status "denied" (translated_text r) r) student_sid))
             code sessions',
       [EmitRoom "translation_denied"
          (JObj [("message", JStr "Deine Übersetzungsanfrage wurde abgelehnt.")])
          student_sid;
        Emit "translation_request_removed"
          (JObj [("student_sid", JStr student_sid);
                 ("anonymous_id",
                  JStr (from_option tr_anonymous_id ""
                          (translation_requests s !! student_sid)))])])
    else (sessions', [no_permission])
  | None => (sessions', [no_permission])
  end.

Definition handle_teacher_toggle_simplification (data : request)
    (request_sid : string) (now : Z) (sessions : registry)
    : registry * list output :=
  let code := request_code data in
  let enabled := get_bool data "enabled" false in
  let '(s, sessions') := get_session code now sessions in
  match s with
  | Some s =>
    if bool_decide (teacher_sid s = Some request_sid) then
      (alter (with_simplification enabled) code sessions',
       [EmitRoom "simplification_status_changed"
          (JObj [("enabled", JBool enabled)]) code])
    else (sessions', [no_permission])
  | None => (sessions', [no_permission])
  end.

Definition handle_student_using_simplified (data : request) (request_sid : string)
    (now now_reported : Z) (sessions : registry) : registry * list output :=
  let code := request_code data in
  let lvl := get_str data "level" "original" in
  match get_session code now sessions with
  | (None, sessions') => (sessions', [])
  | (Some s, sessions') =>
      let anon := anonymous_id <$> (students s !! request_sid) in
      (alter (with_student_levels
                <[request_sid := {| level := lvl; lv_anonymous_id := anon;
                                    timestamp := now_reported |}]>)
             code sessions',
       match attached_owner s with
       | Some t =>
           [EmitRoom "student_level_update"
              (JObj [("student_sid", JStr request_sid);
                     ("anonymous_id", jopt anon);
                     ("level", JStr lvl)]) t]
       | None => []
       end)
  end.
End handlers.

(** ** Provider proxies and diagnostics *)

(** Python truthiness of a JSON value. *)
Definition json_truthy (j : json) : bool :=
  match j with
  | JNull => false
  | JBool b => b
  | JNum n => negb (n =? 0)
  | JStr s => truthy s
  | JTime _ => true
  | JList items => match items with [] => false | _ => true end
  | JObj fields => match fields with [] => false | _ => true end
  end.

(** What the ElevenLabs call of [proxy_tts] comes to: status 200 with its
    JSON body; another status, with the message the route extracts from the
    error body; a timeout; another exception, [describe] giving its
    [str(e)] from the request that was being sent. *)
Inductive tts_reply :=
| TtsOk (response_data : json)
| TtsError (status_code : nat) (error_msg : string)
| TtsTimeout
| TtsRaise (describe : outbound → string).

Definition newline : string := String "010"%char EmptyString.

(** [str(e)] of the [KeyError] of [popitem] on an empty dictionary. *)
Definition popitem_error : string := "'dictionary is empty'".

Definition SIMPLIFICATION_LEVELS : list string := ["A1"; "A2"; "B1"].

Definition LANGUAGE_FALLBACKS : list (string * string) := [("uk", "ru"); ("bg", "ru")].

Section proxies.
(** [str.upper], [str.strip] and [hashlib.md5(s.encode('utf-8')).hexdigest()]. *)
Variables (upper strip md5_hex : string → string).

Definition get_cache_key (txt voice : string) : string :=
  md5_hex (txt +:+ "|" +:+ voice).

Definition get_translation_cache_key (txt target_language : string) : string :=
  md5_hex (txt +:+ "|" +:+ target_language).

(** [simplify_text_with_ai]: [inl] the returned text, [inr] the message of
    the raised exception. *)
Definition simplify_text_with_ai (reply : http_reply)
    (txt lvl ai_key provider : string) : string + string :=
  if bool_decide (lvl ∈ SIMPLIFICATION_LEVELS) then
    let failed := inr ("Textvereinfachung fehlgeschlagen (" +:+ provider +:+ ")") in
    if bool_decide (provider = "openai" ∨ provider = "google" ∨ provider = "anthropic")
    then match reply with
         | HttpOk content => inl content
         | HttpStatus _ => failed
         | HttpRaise describe => inr (describe (CompletionCall provider ai_key lvl txt))
         end
    else failed
  else inr ("Unbekanntes Niveau: " +:+ lvl).

(** [simplify_text]: the registry left behind, the provider requests sent
    and the response. *)
Definition simplify_text (reply : http_reply) (data : request) (now : Z)
    (sessions : registry) : registry * list outbound * (nat * json) :=
  let txt := strip (get_str data "text" "") in
  let lvl := upper (get_str data "level" "A2") in
  let session_code := strip (upper (get_str data "session_code" "")) in
  if negb (truthy txt) then (sessions, [], (400%nat, err "Kein Text angegeben"))
  else if negb (bool_decide (lvl ∈ SIMPLIFICATION_LEVELS)) then
    (sessions, [], (400%nat, err "Ungültiges Niveau. Erlaubt: A1, A2, B1"))
  else
    let '(s, sessions') :=
      if truthy session_code then get_session session_code now sessions
      else (None, sessions) in
    match s with
    | None => (sessions', [], (404%nat, err "Session nicht gefunden"))
    | Some s =>
        if negb (simplification_enabled s) then
          (sessions', [], (403%nat, err "Textvereinfachung ist nicht aktiviert"))
        else
          let ai_key := ai (keys s) in
          let provider := ai_provider (keys s) in
          if negb (truthy ai_key) then
            (sessions', [], (400%nat, err "Kein AI-Key konfiguriert"))
          else
            let sent :=
              if bool_decide (provider = "openai" ∨ provider = "google"
                              ∨ provider = "anthropic")
              then [CompletionCall provider ai_key lvl txt] else [] in
            match simplify_text_with_ai reply txt lvl ai_key provider with
            | inl simplified =>
                (sessions', sent,
                 (200%nat, JObj [("original_text", JStr txt);
                                 ("simplified_text", JStr simplified);
                                 ("level", JStr lvl)]))
            | inr e => (sessions', sent, (500%nat, err e))
            end
    end.

(** The credentials a proxy works with: those of the session when a
    session code is given, those of the request otherwise.  [None]: the
    session is missing or expired. *)
Definition translate_credentials (data : request) (now : Z) (sessions : registry)
    : option (string * string) * registry :=
  let session_code := strip (upper (get_str data "session_code" "")) in
  if truthy session_code then
    let '(k, sessions') := get_session_keys session_code now sessions in
    ((λ k, (ai k, ai_provider k)) <$> k, sessions')
  else (Some (get_str data "api_key" "", get_str data "provider" "openai"), sessions).

Definition language_names : list (string * string) :=
  [ ("de", "Deutsch"); ("tr", "Türkisch"); ("bg", "Bulgarisch");
    ("ar", "Arabisch"); ("uk", "Ukrainisch"); ("en", "Englisch") ].

Definition translate_system_prompt (target_language : string) : string :=
  "Du bist ein professioneller Übersetzer. Übersetze ins "
  +:+ default "Deutsch" (od_get target_language language_names) +:+ "." +:+ newline
  +:+ "Regeln: NUR die Übersetzung ausgeben, keine Erklärungen. Formatierung beibehalten.".

(** [proxy_translate]; [call_result] is what [call_<provider>_text] comes
    to: [inl] the returned text, [inr] the [str(e)] of its exception, given
    the request that was being sent. *)
Definition proxy_translate (call_result : string + (outbound → string))
    (data : request) (now : Z)
    (sessions : registry) (translation_cache : list (string * string))
    : registry * list (string * string) * list outbound * (nat * json) :=
  let txt := get_str data "text" "" in
  let target_language := get_str data "target_language" "de" in
  if negb (truthy txt) then
    (sessions, translation_cache, [], (400%nat, err "Text fehlt"))
  else if bool_decide (target_language = "de") then
    (sessions, translation_cache, [], (200%nat, JObj [("translated_text", JStr txt)]))
  else
    match translate_credentials data now sessions with
    | (None, sessions') =>
        (sessions', translation_cache, [], (404%nat, err "Session nicht gefunden"))
    | (Some (api_key, provider), sessions') =>
        if negb (truthy api_key) then
          (sessions', translation_cache, [], (400%nat, err "KI API Key erforderlich"))
        else
          let cache_key := get_translation_cache_key txt target_language in
          let '(cached, cache') := get_from_translation_cache cache_key translation_cache in
          if from_option truthy false cached then
            (sessions', cache', [],
             (200%nat, JObj [("translated_text", JStr (default "" cached));
                             ("cached", JBool true)]))
          else if bool_decide (provider = "openai" ∨ provider = "anthropic"
                               ∨ provider = "google") then
            let call := TextCall provider api_key
                          (translate_system_prompt target_language) txt in
            let sent := [call] in
            match call_result with
            | inl result =>
                match add_to_translation_cache cache_key result cache' with
                | Some cache'' =>
                    (sessions', cache'', sent,
                     (200%nat, JObj [("translated_text", JStr result)]))
                | None => (sessions', cache', sent, (500%nat, err popitem_error))
                end
            | inr describe => (sessions', cache', sent, (500%nat, err (describe call)))
            end
          else (sessions', cache', [], (400%nat, err "Unbekannter Provider"))
    end.

(** The key and voice [proxy_tts] works with. *)
Definition tts_credentials (data : request) (now : Z) (sessions : registry)
    : option (string * string) * registry :=
  let session_code := strip (upper (get_str data "session_code" "")) in
  if truthy session_code then
    let '(k, sessions') := get_session_keys session_code now sessions in
    ((λ k, (elevenlabs k,
            if truthy (get_str data "voice_id" "") then get_str data "voice_id" ""
            else voice_id k)) <$> k, sessions')
  else (Some (get_str data "api_key" "", get_str data "voice_id" "21m00Tcm4TlvDq8ikWAM"),
        sessions).

Definition proxy_tts (reply : tts_reply) (data : request) (now : Z)
    (sessions : registry) (tts_cache : list (string * json))
    : registry * list (string * json) * list outbound * (nat * json) :=
  let txt := get_str data "text" "" in
  if negb (truthy txt) then (sessions, tts_cache, [], (400%nat, err "Text fehlt"))
  else
    let session_given := truthy (strip (upper (get_str data "session_code" ""))) in
    match tts_credentials data now sessions with
    | (None, sessions') =>
        (sessions', tts_cache, [], (404%nat, err "Session nicht gefunden oder abgelaufen"))
    | (Some (api_key, voice), sessions') =>
        if negb session_given && negb (truthy api_key) then
          (sessions', tts_cache, [], (400%nat, err "API Key oder Session-Code erforderlich"))
        else
          let original_language := get_str data "language_code" "de" in
          let language_code :=
            default original_language (od_get original_language LANGUAGE_FALLBACKS) in
          let cache_key := get_cache_key (txt +:+ language_code) voice in
          let '(cached, cache') := get_from_cache cache_key tts_cache in
          if from_option json_truthy false cached then
            (sessions', cache', [], (200%nat, default JNull cached))
          else
            let call := TtsCall voice api_key txt
                          (get_str data "model_id" "eleven_multilingual_v2")
                          language_code in
            let sent := [call] in
            match reply with
            | TtsOk response_data =>
                match add_to_cache cache_key response_data cache' with
                | Some cache'' => (sessions', cache'', sent, (200%nat, response_data))
                | None => (sessions', cache', sent, (500%nat, err popitem_error))
                end
            | TtsError status_code error_msg =>
                (sessions', cache', sent, (status_code, err error_msg))
            | TtsTimeout => (sessions', cache', sent, (504%nat, err "Timeout"))
            | TtsRaise describe => (sessions', cache', sent, (500%nat, err (describe call)))
            end
    end.
End proxies.

(** ** Pages, and the routes for words, files, tasks and speech *)

(** [handle_connect] only writes to the log. *)
Definition handle_connect (request_sid : string) (sessions : registry)
    : registry * list output :=
  (sessions, []).

Definition index : list output := [Render "index.html"].
Definition teacher_dashboard : list output := [Render "teacher.html"].
Definition student_view : list output := [Render "student.html"].
Definition aufgaben : list output := [Render "aufgaben.html"].
Definition nachsprechen : list output := [Render "nachsprechen.html"].

(** [sep.join(parts)] *)
Definition join (sep : string) (parts : list string) : string := String.concat sep parts.

(** [s.endswith(suffix)] *)
Definition endswith (s suffix : string) : bool :=
  String.prefix (String.rev suffix) (String.rev s).

(** [needle in s] *)
Definition contains (needle s : string) : bool :=
  if String.index 0 needle s is Some _ then true else false.

(** [result.update(fields)] on a dictionary kept as the list of its items. *)
Definition dict_update {V} (result fields : list (string * V)) : list (string * V) :=
  foldl (λ acc kv, od_set kv.1 kv.2 acc) result fields.

(** What [get_word_info_from_ai] and [api_generate_tasks] make of the reply
    to their provider call: the JSON found in a 200 reply; nothing, for
    another status or a reply without JSON; or an exception on the way. *)
Inductive json_reply :=
| JsonOk (found : json)
| JsonNone
| JsonRaise (describe : outbound → string).

(** What a transcription call comes to: status 200 with the text; another
    status with the body of the reply; or an exception on the way. *)
Inductive stt_reply :=
| SttOk (transcript : string)
| SttError (status_code : nat) (response_text : string)
| SttRaise (describe : outbound → string).

(** What the call of Scribe comes to: status 200 with the JSON object of
    the reply; another status, with the detail the route extracts from the
    body; or an exception on the way. *)
Inductive scribe_reply :=
| ScribeOk (result : list (string * json))
| ScribeError (status_code : nat) (error_detail : string)
| ScribeRaise (describe : outbound → string).

(** An uploaded file: its name, and what each of the three readers makes of
    its content, the text parts read or the [str(e)] of the exception. *)
Record upload := Upload {
  filename : string;
  docx_paragraphs : list string + string;        (* para.text of Document(...).paragraphs *)
  pdf_pages : list (option string) + string;     (* page.extract_text() of the pages *)
  utf8_text : string + string                    (* file.read().decode('utf-8') *)
}.

Definition OCR_PROMPT : string :=
  "Extrahiere den gesamten Text aus diesem Bild. " +:+ newline
  +:+ "Gib NUR den erkannten Text zurück, ohne Erklärungen." +:+ newline
  +:+ "Behalte Absätze bei. Wenn kein Text erkennbar ist: [KEIN TEXT ERKANNT]".

Section routes.
(** [str.upper], [str.strip], [str.lower]; the [re.sub] of [get_word_info];
    and the five [re.sub] of [cleanup_extracted_text], in their order. *)
Variables (upper strip lower : string → string).
Variable strip_punctuation : string → string.
Variables (join_hyphenated_lines join_hyphenated_words unwrap_lines
           squeeze_spaces squeeze_newlines : string → string).

Definition cleanup_extracted_text (txt : string) : string :=
  if negb (truthy txt) then txt
  else strip (squeeze_newlines (squeeze_spaces (unwrap_lines
                (join_hyphenated_words (join_hyphenated_lines txt))))).

(** [get_word_info]; [info] is what [get_word_info_from_ai] returns and
    [image] what [generate_word_image_gemini] returns, both of which catch
    their exceptions and return [None]. *)
Definition get_word_info (info : option (list (string * json))) (image : option json)
    (data : request) (now : Z) (sessions : registry)
    : registry * list outbound * (nat * json) :=
  let word := strip (get_str data "word" "") in
  let session_code := strip (upper (get_str data "session_code" "")) in
  let target_language := get_str data "target_language" "" in
  if negb (truthy word) then (sessions, [], (400%nat, err "Kein Wort angegeben"))
  else
    let clean_word := strip (strip_punctuation word) in
    if negb (truthy clean_word) then (sessions, [], (400%nat, err "Ungültiges Wort"))
    else
      let '(s, sessions') :=
        if truthy session_code then get_session session_code now sessions
        else (None, sessions) in
      let ai_key := from_option (λ s, ai (keys s)) "" s in
      let provider := from_option (λ s, ai_provider (keys s)) "google" s in
      let result := [("word", JStr clean_word); ("original_word", JStr word)] in
      let '(result, sent_info) :=
        if truthy ai_key then
          if bool_decide (provider = "openai" ∨ provider = "google" ∨ provider = "anthropic")
          then (dict_update result (default [] info),
                [WordInfoCall provider ai_key clean_word target_language])
          else (result, [])
        else
          (dict_update result
             [("simple_explanation",
               JStr "Keine Erklärung verfügbar (kein AI-Key konfiguriert)");
              ("word_type", JStr ""); ("article", JStr "")], []) in
      let '(result, sent_image) :=
        if truthy ai_key && bool_decide (provider = "google") then
          let explanation := default (JStr clean_word) (od_get "simple_explanation" result) in
          (match image with
           | Some image_data =>
               if json_truthy image_data then od_set "image" image_data result else result
           | None => result
           end, [ImageCall ai_key clean_word explanation])
        else (result, []) in
      (sessions', sent_info ++ sent_image, (200%nat, JObj result)).

(** [extract_text_from_file]; no session is involved. *)
Definition extract_text_from_file (docx_available pdf_available : bool)
    (file : option upload) : nat * json :=
  match file with
  | None => (400%nat, err "Keine Datei hochgeladen")
  | Some f =>
      let name := lower (filename f) in
      let finish (read : string + string) : nat * json :=
        match read with
        | inl txt =>
            let txt := cleanup_extracted_text txt in
            if negb (truthy (strip txt)) then
              (400%nat, err "Kein Text in der Datei gefunden")
            else (200%nat, JObj [("text", JStr (strip txt))])
        | inr e => (500%nat, err ("Fehler: " +:+ e))
        end in
      if endswith name ".docx" then
        if negb docx_available then (500%nat, err "DOCX-Verarbeitung nicht verfügbar")
        else finish (match docx_paragraphs f with
                     | inl paragraphs =>
                         inl (join (newline +:+ newline)
                                (filter (λ p, truthy (strip p) = true) paragraphs))
                     | inr e => inr e
                     end)
      else if endswith name ".pdf" then
        if negb pdf_available then (500%nat, err "PDF-Verarbeitung nicht verfügbar")
        else finish (match pdf_pages f with
                     | inl pages =>
                         inl (join (newline +:+ newline)
                                (omap (λ page_text,
                                         t ← page_text; if truthy t then Some t else None)
                                   pages))
                     | inr e => inr e
                     end)
      else if endswith name ".txt" then finish (utf8_text f)
      else (400%nat, err "Nicht unterstütztes Format. Erlaubt: .docx, .pdf, .txt")
  end.

(** [api_generate_tasks]; [reply] is what the provider call and the search
    for the JSON array come to. *)
Definition api_generate_tasks (reply : json_reply) (data : request) (now : Z)
    (sessions : registry) : registry * list outbound * (nat * json) :=
  let txt := get_str data "text" "" in
  let session_code := strip (upper (get_str data "session_code" "")) in
  if negb (truthy txt) then (sessions, [], (400%nat, err "Text fehlt"))
  else
    match get_session_keys session_code now sessions with
    | (None, sessions') => (sessions', [], (404%nat, err "Session nicht gefunden"))
    | (Some k, sessions') =>
        let ai_key := ai k in
        let provider := ai_provider k in
        if negb (truthy ai_key) then
          (sessions', [], (400%nat, err "KI API Key nicht konfiguriert"))
        else
          let failed := (500%nat, err "Aufgabengenerierung fehlgeschlagen") in
          if bool_decide (provider = "openai" ∨ provider = "google" ∨ provider = "anthropic")
          then
            let call := TasksCall provider ai_key txt in
            (sessions', [call],
             match reply with
             | JsonOk tasks =>
                 if json_truthy tasks then (200%nat, JObj [("tasks", tasks)]) else failed
             | JsonNone => failed
             | JsonRaise describe => (500%nat, err (describe call))
             end)
          else (sessions', [], failed)
    end.

(** [ocr_image]; [call_result] is what [call_<provider>_vision] comes to. *)
Definition ocr_image (call_result : string + (outbound → string)) (data : request)
    (now : Z) (sessions : registry) : registry * list outbound * (nat * json) :=
  let image_base64 := get_str data "image" "" in
  let mime_type := get_str data "mime_type" "image/jpeg" in
  if negb (truthy image_base64) then (sessions, [], (400%nat, err "Kein Bild übermittelt"))
  else
    match translate_credentials upper strip data now sessions with
    | (None, sessions') => (sessions', [], (404%nat, err "Session nicht gefunden"))
    | (Some (api_key, provider), sessions') =>
        if negb (truthy api_key) then
          (sessions', [], (400%nat, err "KI API Key erforderlich"))
        else if bool_decide (provider = "openai" ∨ provider = "anthropic"
                             ∨ provider = "google") then
          let call := VisionCall provider api_key OCR_PROMPT image_base64 mime_type in
          (sessions', [call],
           match call_result with
           | inl txt =>
               if contains "[KEIN TEXT ERKANNT]" txt then
                 (400%nat, err "Kein Text im Bild erkannt")
               else (200%nat, JObj [("text", JStr (strip txt))])
           | inr describe => (500%nat, err ("OCR-Fehler: " +:+ describe call))
           end)
        else (sessions', [], (400%nat, err ("Unbekannter Provider: " +:+ provider)))
    end.

(** [proxy_speech_to_text] with [transcribe_with_gemini] and
    [transcribe_with_whisper]; [audio] is [request.files['audio']] read,
    [form] is [request.form]. *)
Definition proxy_speech_to_text (reply : stt_reply) (audio : option string)
    (form : request) (now : Z) (sessions : registry)
    : registry * list outbound * (nat * json) :=
  match audio with
  | None => (sessions, [], (400%nat, err "Keine Audio-Datei"))
  | Some audio_data =>
      match translate_credentials upper strip form now sessions with
      | (None, sessions') => (sessions', [], (404%nat, err "Session nicht gefunden"))
      | (Some (api_key, provider), sessions') =>
          if negb (truthy api_key) then
            (sessions', [], (400%nat, err "API Key erforderlich"))
          else
            let lang := get_str form "language" "de" in
            let '(call, label) :=
              if bool_decide (provider = "google")
              then (GeminiAudioCall api_key audio_data lang, "Gemini Error: ")
              else (WhisperCall api_key audio_data lang, "Whisper Error: ") in
            (sessions', [call],
             match reply with
             | SttOk transcript => (200%nat, JObj [("text", JStr transcript)])
             | SttError status_code response_text =>
                 (status_code, err (label +:+ response_text))
             | SttRaise describe => (500%nat, err (describe call))
             end)
      end
  end.

(** [proxy_speech_to_text_scribe] *)
Definition proxy_speech_to_text_scribe (reply : scribe_reply) (audio : option string)
    (form : request) (now : Z) (sessions : registry)
    : registry * list outbound * (nat * json) :=
  match audio with
  | None => (sessions, [], (400%nat, err "Keine Audio-Datei"))
  | Some audio_data =>
      let session_code := strip (upper (get_str form "session_code" "")) in
      let '(api_key, sessions') :=
        if truthy session_code then
          let '(k, sessions') := get_session_keys session_code now sessions in
          (elevenlabs <$> k, sessions')
        else (Some (get_str form "api_key" ""), sessions) in
      match api_key with
      | None => (sessions', [], (404%nat, err "Session nicht gefunden"))
      | Some api_key =>
          if negb (truthy api_key) then
            (sessions', [], (400%nat, err "ElevenLabs API Key erforderlich"))
          else
            let lang := get_str form "language" "de" in
            if (String.length audio_data <? 100)%nat then
              (sessions', [], (400%nat, err "Audio-Aufnahme zu kurz"))
            else
              let call := ScribeCall api_key audio_data
                            (if truthy lang && negb (String.eqb lang "auto")
                             then Some lang else None) in
              (sessions', [call],
               match reply with
               | ScribeOk result =>
                   (200%nat,
                    JObj [("text", default (JStr "") (od_get "text" result));
                          ("language", default (JStr lang) (od_get "language_code" result));
                          ("words", default (JList []) (od_get "words" result));
                          ("provider", JStr "elevenlabs_scribe")])
               | ScribeError status_code error_detail =>
                   (status_code, err ("ElevenLabs Scribe Fehler: " +:+ error_detail))
               | ScribeRaise describe => (500%nat, err (describe call))
               end)
      end
  end.
End routes.

(** [cache_stats] *)
Definition cache_stats (sessions : registry) (tts_cache : list (string * json))
    (translation_cache : list (string * string)) : json :=
  JObj [("tts_cache", JObj [("size", jnat (length tts_cache));
                            ("max", jnat MAX_CACHE_SIZE)]);
        ("translation_cache", JObj [("size", jnat (length translation_cache));
                                    ("max", jnat MAX_TRANSLATION_CACHE_SIZE)]);
        ("active_sessions", jnat (size sessions))].

(** [start_cleanup_if_needed] on the flag [_cleanup_started]: the new flag
    and whether [cleanup_thread.start()] was called. *)
Definition start_cleanup_if_needed (cleanup_started : bool) : bool * bool :=
  if negb cleanup_started then (true, true) else (cleanup_started, false).

(** * Vocabulary of the properties *)

(** ** Session codes *)

Definition chars_list : list ascii := list_ascii_of_string chars.

(** The digits without 0 and 1, the capital letters without I and O. *)
Definition unambiguous (c : ascii) : bool :=
  let n := nat_of_ascii c in
  ((50 <=? n) && (n <=? 57))%nat
  || ((65 <=? n) && (n <=? 90) && negb (n =? 73) && negb (n =? 79))%nat.

(** The stream the loop of [generate_session_code] reads on its [n]-th
    further round. *)
Fixpoint skip (n : nat) (rnd : nat → nat) : nat → nat :=
  match n with
  | O => rnd
  | S n' => skip n' (advance rnd)
  end.

(** ** The handlers as one transition system *)

(** One request or socket event, with the clock readings, random draws,
    provider replies and insertion stamps its handler consumes. *)
Inductive event :=
| ApiCreateSession (fuel : nat) (rnd : nat → nat) (data : request) (now_created now_expires : Z)
| ApiJoinSession (data : request) (now : Z)
| ApiEndSession (data : request)
| ApiSessionStatus (code : string) (now : Z)
| ApiSessionSettings (code : string) (now : Z)
| ApiSessionQr (host_url code : string) (now : Z)
| ApiSetSessionText (data : request)
| ApiGetSessionText (code : string) (now : Z)
| Disconnect (stamp : string → nat) (request_sid : string)
| TeacherCreateSession (fuel : nat) (rnd : nat → nat) (data : request)
    (request_sid : string) (now_created now_expires : Z)
| StudentJoinSession (rnd : nat) (data : request) (request_sid : string) (now now_joined : Z)
| TeacherEndSession (data : request) (request_sid : string) (now : Z)
| TeacherUpdateSettings (data : request) (request_sid : string) (now : Z)
| TeacherReleaseTasks (data : request) (request_sid : string) (now : Z)
| StudentRequestTranslation (data : request) (request_sid : string) (now now_requested : Z)
| TeacherApproveTranslation (reply : http_reply) (data : request) (request_sid : string) (now : Z)
| TeacherDenyTranslation (data : request) (request_sid : string) (now : Z)
| TeacherToggleSimplification (data : request) (request_sid : string) (now : Z)
| StudentUsingSimplified (data : request) (request_sid : string) (now now_reported : Z)
| Sweep (stamp : string → nat) (now : Z).

(** The handler of an event.  [None]: a creating handler ran out of fuel.
    The sweep runs with a logger that returns. *)
Definition handle (upper_strip : string → string) (e : event) (sessions : registry)
    : option (registry * list output) :=
  match e with
  | ApiCreateSession fuel rnd data nc ne =>
      api_create_session fuel rnd data nc ne sessions
  | ApiJoinSession data now => Some (api_join_session upper_strip data now sessions)
  | ApiEndSession data => Some (api_end_session upper_strip data sessions)
  | ApiSessionStatus code now => Some (api_session_status upper_strip code now sessions)
  | ApiSessionSettings code now => Some (api_session_settings upper_strip code now sessions)
  | ApiSessionQr host code now => Some (api_session_qr upper_strip host code now sessions)
  | ApiSetSessionText data => Some (api_set_session_text upper_strip data sessions)
  | ApiGetSessionText code now => Some (api_get_session_text upper_strip code now sessions)
  | Disconnect stamp sid => Some (handle_disconnect stamp sid sessions)
  | TeacherCreateSession fuel rnd data sid nc ne =>
      handle_teacher_create_session fuel rnd data sid nc ne sessions
  | StudentJoinSession rnd data sid now nj =>
      Some (handle_student_join_session upper_strip rnd data sid now nj sessions)
  | TeacherEndSession data sid now =>
      Some (handle_teacher_end_session upper_strip data sid now sessions)
  | TeacherUpdateSettings data sid now =>
      Some (handle_teacher_update_settings upper_strip data sid now sessions)
  | TeacherReleaseTasks data sid now =>
      Some (handle_teacher_release_tasks upper_strip data sid now sessions)
  | StudentRequestTranslation data sid now nr =>
      Some (handle_student_request_translation upper_strip data sid now nr sessions)
  | TeacherApproveTranslation reply data sid now =>
      Some (handle_teacher_approve_translation upper_strip reply data sid now sessions)
  | TeacherDenyTranslation data sid now =>
      Some (handle_teacher_deny_translation upper_strip data sid now sessions)
  | TeacherToggleSimplification data sid now =>
      Some (handle_teacher_toggle_simplification upper_strip data sid now sessions)
  | StudentUsingSimplified data sid now nr =>
      Some (handle_student_using_simplified upper_strip data sid now nr sessions)
  | Sweep stamp now =>
      Some ((cleanup_expired_sessions (λ _, None) stamp now sessions).1, [])
  end.

Definition creates (e : event) : bool :=
  match e with
  | ApiCreateSession _ _ _ _ _ | TeacherCreateSession _ _ _ _ _ _ => true
  | _ => false
  end.

(** A run of events, the outputs of all of them in order. *)
Fixpoint run (upper_strip : string → string) (es : list event) (sessions : registry)
    : option (registry * list output) :=
  match es with
  | [] => Some (sessions, [])
  | e :: es' =>
      '(sessions', out) ← handle upper_strip e sessions;
      '(sessions'', out') ← run upper_strip es' sessions';
      Some (sessions'', app out out')
  end.

(** ** Lookup *)

(** The three outcomes of [get_session]. *)
Inductive get_session_spec (code : string) (now : Z) (sessions : registry)
    : option session * registry → Prop :=
| get_session_live s :
    sessions !! code = Some s → now < expires s →
    get_session_spec code now sessions (Some s, sessions)
| get_session_expired s :
    sessions !! code = Some s → expires s ≤ now →
    get_session_spec code now sessions (None, delete code sessions)
| get_session_absent :
    sessions !! code = None →
    get_session_spec code now sessions (None, sessions).

(** [sessions'] has no code that [sessions] lacks. *)
Definition no_new_codes (sessions sessions' : registry) : Prop :=
  ∀ c, sessions !! c = None → sessions' !! c = None.

(** ** Owner-only events and sample data *)

(** The socket events that act on a session on behalf of its owner, with
    the request, the acting connection and the clock reading. *)
Definition owner_request (e : event) : option (request * string * Z) :=
  match e with
  | TeacherEndSession data sid now
  | TeacherUpdateSettings data sid now
  | TeacherReleaseTasks data sid now
  | TeacherApproveTranslation _ data sid now
  | TeacherDenyTranslation data sid now
  | TeacherToggleSimplification data sid now => Some (data, sid, now)
  | _ => None
  end.

Definition demo_keys : credentials := Credentials "K1" "A1" "openai" "V1" (Some "scribe").
Definition demo_session : session := new_session (Some "teacher-1") demo_keys "" 0 0.
Definition demo_registry : registry := {[ "ABC234" := demo_session ]}.
Definition demo_request (fields : list (string * json)) : request :=
  list_to_map (("code", JStr "ABC234") :: fields).

(** ** Erasing the values of the provider keys *)

(** A key with its value erased: only whether it is empty is kept. *)
Definition mask (key : string) : string := if truthy key then "*" else "".

Definition redact_keys (k : credentials) : credentials :=
  {| elevenlabs := mask (elevenlabs k); ai := mask (ai k);
     ai_provider := ai_provider k; voice_id := voice_id k;
     stt_provider := stt_provider k |}.

Definition redact_session (s : session) : session :=
  {| keys := redact_keys (keys s); teacher_sid := teacher_sid s;
     created := created s; expires := expires s; students := students s;
     text := text s; pin := pin s; tasks := tasks s;
     tasks_available := tasks_available s;
     translation_requests := translation_requests s;
     simplification_enabled := simplification_enabled s;
     student_levels := student_levels s; settings := settings s |}.

(** The registry with the value of every provider key erased. *)
Definition redact (sessions : registry) : registry := redact_session <$> sessions.

(** A creation request with the value of the two keys erased. *)
Definition redact_request (data : request) : request :=
  <["elevenlabs_key" := JStr (mask (get_str data "elevenlabs_key" ""))]>
    (<["ai_key" := JStr (mask (get_str data "ai_key" ""))]> data).

Definition redact_event (e : event) : event :=
  match e with
  | ApiCreateSession fuel rnd data nc ne =>
      ApiCreateSession fuel rnd (redact_request data) nc ne
  | TeacherCreateSession fuel rnd data sid nc ne =>
      TeacherCreateSession fuel rnd (redact_request data) sid nc ne
  | _ => e
  end.

Definition other_keys : credentials := Credentials "K2" "A2" "openai" "V1" (Some "scribe").
Definition other_registry : registry :=
  {[ "ABC234" := new_session (Some "teacher-1") other_keys "" 0 0 ]}.
Definition demo_events : list event :=
  [ ApiSessionSettings "ABC234" 5;
    StudentJoinSession 0 (demo_request [("name", JStr "Mia")]) "student-7" 6 6;
    ApiSetSessionText (demo_request [("text", JStr "Hallo Welt")]);
    StudentRequestTranslation (demo_request [("language", JStr "tr")]) "student-7" 7 7;
    TeacherApproveTranslation (HttpOk "Merhaba")
      (demo_request [("student_sid", JStr "student-7")]) "teacher-1" 8 ].

(** Catalogue index [i] is assigned to a current participant of [s]. *)
Definition assigned (s : session) (i : nat) : Prop :=
  ∃ sid sd, students s !! sid = Some sd ∧ animal_index sd = i.

(** A session whose participants hold the given catalogue indices. *)
Definition crowd (indices : list nat) : gmap string student :=
  list_to_map ((λ i, (pretty i, Student 0 "" i "" "" "")) <$> indices).
Definition classroom (indices : list nat) : registry :=
  {[ "ABC234" := with_students (λ _, crowd indices) demo_session ]}.

(** A logger that raises, and two sessions expiring at 3 h and 3 h + 1 ms,
    inserted in that order. *)
Definition raising_log : string → option string := λ _, Some "logging failed".
Definition two_sessions : registry :=
  {[ "AAAAAA" := new_session None demo_keys "" 0 0;
     "BBBBBB" := new_session None demo_keys "" 1000 1000 ]}.
Definition two_stamps : string → nat :=
  λ code, if String.eqb code "AAAAAA" then 0%nat else 1%nat.

(** Two sessions that have expired by 3 h, the one with the later code
    inserted first, and a connection that takes part in both. *)
Definition two_classes : registry :=
  {[ "ZZZ222" := with_students (λ _, {[ "student-7" := Student 0 "" 0 "" "" "" ]})
                   (new_session (Some "teacher-2") demo_keys "" 0 0);
     "ABC234" := with_students (λ _, {[ "student-7" := Student 0 "" 0 "" "" "";
                                        "student-8" := Student 0 "" 1 "" "" "" ]})
                   demo_session ]}.
Definition class_stamps : string → nat :=
  λ code, if String.eqb code "ZZZ222" then 0%nat else 1%nat.

(** ** Runs of cache operations *)

Section cache_runs.
Context {V : Type}.
Implicit Types (c : list (string * V)) (log : list string).

(** A cache operation. *)
Inductive cache_op :=
| Get (k : string)
| Put (k : string) (v : V).

(** The key an operation accesses in the cache [c]: a put accesses its key,
    a get accesses its key when it hits. *)
Definition accessed (op : cache_op) c : option string :=
  match op with
  | Get k => if od_get k c is Some _ then Some k else None
  | Put k _ => Some k
  end.

Definition cache_apply (max_size : nat) (op : cache_op) c : option (list (string * V)) :=
  match op with
  | Get k => Some (cache_get k c).2
  | Put k v => cache_add max_size k v c
  end.

(** A run of operations, together with the log of the keys accessed, most
    recent first. [None] is a [KeyError]. *)
Fixpoint cache_run (max_size : nat) (ops : list cache_op) c log
    : option (list (string * V) * list string) :=
  match ops with
  | [] => Some (c, log)
  | op :: ops' =>
      c' ← cache_apply max_size op c;
      cache_run max_size ops' c' (option_list (accessed op c) ++ log)%list
  end.

(** The number of accesses since the last access of [k] (the length of the
    log when there is none): the larger, the less recently accessed. *)
Fixpoint age log (k : string) : nat :=
  match log with
  | [] => O
  | k' :: log' => if decide (k' = k) then O else S (age log' k)
  end.

(** The items are in recency order, least recently accessed first. *)
Definition recency_sorted log c : Prop :=
  StronglySorted (λ a b : string * V, (age log b.1 < age log a.1)%nat) c.

(** The cache holds [key] with the value [v], and at most [n] items are
    more recent than it. *)
Definition kept (key : string) (v : V) (n : nat) c : Prop :=
  ∃ l1 l2, c = l1 ++ (key, v) :: l2 ∧ od_get key l1 = None ∧ (length l2 ≤ n)%nat.

End cache_runs.

Arguments cache_op : clear implicits.

(** ** Further vocabulary *)

(** No two participants of the session hold the same catalogue index. *)
Definition distinct_identities (s : session) : Prop :=
  ∀ sid1 sid2 sd1 sd2,
    students s !! sid1 = Some sd1 → students s !! sid2 = Some sd2 →
    animal_index sd1 = animal_index sd2 → sid1 = sid2.

(** A request to one of the two caching proxies. *)
Inductive proxy_event :=
| Translate (call_result : string + (outbound → string)) (data : request) (now : Z)
| Tts (reply : tts_reply) (data : request) (now : Z).

(** The registry and the two caches. *)
Record world := World {
  w_sessions : registry;
  w_tts_cache : list (string * json);
  w_translation_cache : list (string * string)
}.

Definition proxy_step (upper strip md5_hex : string → string) (e : proxy_event)
    (w : world) : world :=
  match e with
  | Translate call_result data now =>
      let '(sessions', cache', _, _) :=
        proxy_translate upper strip md5_hex call_result data now
          (w_sessions w) (w_translation_cache w) in
      World sessions' (w_tts_cache w) cache'
  | Tts reply data now =>
      let '(sessions', cache', _, _) :=
        proxy_tts upper strip md5_hex reply data now (w_sessions w) (w_tts_cache w) in
      World sessions' cache' (w_translation_cache w)
  end.

(** [n] calls of [start_cleanup_if_needed]: the flag left and the number
    of times the thread was started. *)
Fixpoint start_cleanup_calls (n : nat) (cleanup_started : bool) : bool * nat :=
  match n with
  | O => (cleanup_started, O)
  | S n' =>
      let '(flag, started) := start_cleanup_if_needed cleanup_started in
      let '(flag', starts) := start_cleanup_calls n' flag in
      (flag', ((if started then 1 else 0) + starts)%nat)
  end.

(** ** Further sample data *)

Definition pending_request : translation_request :=
  {| language := "tr"; language_name := "Türkisch"; status := "pending";
     tr_anonymous_id := "🦊 Fuchs"; requested_at := 7; translated_text := None |}.

(** The sample session with a text, and with a pending request besides. *)
Definition reading_registry : registry :=
  {[ "ABC234" := with_text "Hallo Welt" demo_session ]}.
Definition requested_registry : registry :=
  {[ "ABC234" := with_translation_requests <["student-7" := pending_request]>
                   (with_text "Hallo Welt" demo_session) ]}.
Definition simplifying_registry : registry :=
  {[ "ABC234" := with_simplification true demo_session ]}.

Definition create_request : request :=
  list_to_map [("elevenlabs_key", JStr "K1"); ("pin", JStr "1234")].
Definition http_created : session :=
  new_session None (Credentials "K1" "" "openai" "21m00Tcm4TlvDq8ikWAM" None) "" 5 7.
Definition socket_created : session :=
  new_session (Some "teacher-1")
    (Credentials "K1" "" "openai" "21m00Tcm4TlvDq8ikWAM" (Some "browser")) "1234" 5 7.

Definition translate_request : request :=
  list_to_map [("text", JStr "Guten Tag"); ("target_language", JStr "tr");
               ("session_code", JStr "ABC234")].
Definition translate_request_direct : request :=
  list_to_map [("text", JStr "Guten Tag"); ("target_language", JStr "tr");
               ("api_key", JStr "X9")].
Definition tts_request : request :=
  list_to_map [("text", JStr "Guten Tag"); ("session_code", JStr "ABC234")].
Definition tts_request_direct : request :=
  list_to_map [("text", JStr "Guten Tag"); ("api_key", JStr "X9"); ("voice_id", JStr "V1")].
Definition audio : json := JObj [("audio_base64", JStr "UklGRg")].

(** [n] requests for the translation, and for the synthesis, of [n]
    different texts. *)
Definition many_translations (n : nat) : list proxy_event :=
  (λ i, Translate (inl "x") (<["text" := JStr (pretty i)]> translate_request_direct) 6)
  <$> seq 0 n.
Definition many_syntheses (n : nat) : list proxy_event :=
  (λ i, Tts (TtsOk audio) (<["text" := JStr (pretty i)]> tts_request_direct) 6)
  <$> seq 0 n.

(** Requests to the two proxies for other texts and languages. *)
Definition requests_between : list proxy_event :=
  [ Tts (TtsOk audio) (<["text" := JStr "Guten Abend"]> tts_request) 6;
    Translate (inl "Good day") (<["target_language" := JStr "en"]> translate_request) 7;
    Translate (inl "İyi akşamlar") (<["text" := JStr "Guten Abend"]> translate_request) 8 ].
Definition simplify_request : request :=
  list_to_map [("text", JStr "Guten Tag"); ("level", JStr "A1");
               ("session_code", JStr "ABC234")].

(** ** The whole server as one transition system *)

(** One request to the server: a session route, socket event or sweep; a
    new connection; a page; or a request to one of the other routes, with
    the provider replies its handler consumes. *)
Inductive operation :=
| OnSession (e : event)
| Connect (request_sid : string)
| Index
| TeacherDashboard
| StudentView
| Aufgaben
| Nachsprechen
| WordInfo (info : option (list (string * json))) (image : option json)
    (data : request) (now : Z)
| SimplifyText (reply : http_reply) (data : request) (now : Z)
| ExtractText (docx_available pdf_available : bool) (file : option upload)
| GenerateTasks (reply : json_reply) (data : request) (now : Z)
| OnProxy (e : proxy_event)
| Ocr (call_result : string + (outbound → string)) (data : request) (now : Z)
| SpeechToText (reply : stt_reply) (recording : option string) (form : request)
    (now : Z)
| SpeechToTextScribe (reply : scribe_reply) (recording : option string) (form : request)
    (now : Z)
| CacheStats.

(** [return jsonify(body), status] *)
Definition respond (r : nat * json) : list output := [Respond r.1 r.2].

Section server.
Variables (upper strip md5_hex lower : string → string).
Variable strip_punctuation : string → string.
Variables (join_hyphenated_lines join_hyphenated_words unwrap_lines
           squeeze_spaces squeeze_newlines : string → string).

(** The handler of an operation: the registry and caches it leaves, and
    what it sends back or broadcasts.  [None]: a creating handler ran out
    of fuel. *)
Definition operate (op : operation) (w : world) : option (world * list output) :=
  let with_sessions (r : registry * list output) :=
    Some (World r.1 (w_tts_cache w) (w_translation_cache w), r.2) in
  let with_response (r : registry * list outbound * (nat * json)) :=
    Some (World r.1.1 (w_tts_cache w) (w_translation_cache w), respond r.2) in
  match op with
  | OnSession e =>
      r ← handle (λ code, strip (upper code)) e (w_sessions w); with_sessions r
  | Connect sid => with_sessions (handle_connect sid (w_sessions w))
  | Index => Some (w, index)
  | TeacherDashboard => Some (w, teacher_dashboard)
  | StudentView => Some (w, student_view)
  | Aufgaben => Some (w, aufgaben)
  | Nachsprechen => Some (w, nachsprechen)
  | WordInfo info image data now =>
      with_response (get_word_info upper strip strip_punctuation info image data now
                       (w_sessions w))
  | SimplifyText reply data now =>
      with_response (simplify_text upper strip reply data now (w_sessions w))
  | ExtractText docx_available pdf_available file =>
      Some (w, respond (extract_text_from_file strip lower join_hyphenated_lines
                          join_hyphenated_words unwrap_lines squeeze_spaces
                          squeeze_newlines docx_available pdf_available file))
  | GenerateTasks reply data now =>
      with_response (api_generate_tasks upper strip reply data now (w_sessions w))
  | OnProxy (Translate call_result data now) =>
      let '(sessions', cache', _, r) :=
        proxy_translate upper strip md5_hex call_result data now
          (w_sessions w) (w_translation_cache w) in
      Some (World sessions' (w_tts_cache w) cache', respond r)
  | OnProxy (Tts reply data now) =>
      let '(sessions', cache', _, r) :=
        proxy_tts upper strip md5_hex reply data now (w_sessions w) (w_tts_cache w) in
      Some (World sessions' cache' (w_translation_cache w), respond r)
  | Ocr call_result data now =>
      with_response (ocr_image upper strip call_result data now (w_sessions w))
  | SpeechToText reply recording form now =>
      with_response (proxy_speech_to_text upper strip reply recording form now
                       (w_sessions w))
  | SpeechToTextScribe reply recording form now =>
      with_response (proxy_speech_to_text_scribe upper strip reply recording form now
                       (w_sessions w))
  | CacheStats =>
      Some (w, respond (200%nat, cache_stats (w_sessions w) (w_tts_cache w)
                                   (w_translation_cache w)))
  end.

(** A run of operations, with everything sent on the way, in order. *)
Fixpoint serve (ops : list operation) (w : world) : option (world * list output) :=
  match ops with
  | [] => Some (w, [])
  | op :: ops' =>
      '(w', out) ← operate op w;
      '(w'', out') ← serve ops' w';
      Some (w'', out ++ out')
  end.
End server.

(** ** Erasing the values of the provider keys *)

Definition redact_world (w : world) : world :=
  World (redact (w_sessions w)) (w_tts_cache w) (w_translation_cache w).

(** The keys and values of the two caches. *)
Definition caches (w : world) : list (string * json) * list (string * string) :=
  (w_tts_cache w, w_translation_cache w).

Definition redact_operation (op : operation) : operation :=
  match op with
  | OnSession e => OnSession (redact_event e)
  | _ => op
  end.

(** An outbound request with the value of its key erased. *)
Definition redact_call (c : outbound) : outbound :=
  match c with
  | TranslationCall p k l t => TranslationCall p (mask k) l t
  | TextCall p k sp um => TextCall p (mask k) sp um
  | CompletionCall p k l t => CompletionCall p (mask k) l t
  | TtsCall v k t m l => TtsCall v (mask k) t m l
  | WordInfoCall p k w l => WordInfoCall p (mask k) w l
  | ImageCall k w e => ImageCall (mask k) w e
  | TasksCall p k t => TasksCall p (mask k) t
  | VisionCall p k pr i m => VisionCall p (mask k) pr i m
  | WhisperCall k a l => WhisperCall (mask k) a l
  | GeminiAudioCall k a l => GeminiAudioCall (mask k) a l
  | ScribeCall k a l => ScribeCall (mask k) a l
  end.

(** The text of an exception does not tell the value of the key of the
    request it was raised for. *)
Definition key_free (describe : outbound → string) : Prop :=
  ∀ c, describe (redact_call c) = describe c.

(** No exception raised during a provider call of the operation tells the
    key. *)
Definition exceptions_key_free (op : operation) : Prop :=
  match op with
  | OnSession (TeacherApproveTranslation (HttpRaise describe) _ _ _)
  | SimplifyText (HttpRaise describe) _ _
  | GenerateTasks (JsonRaise describe) _ _
  | OnProxy (Translate (inr describe) _ _)
  | OnProxy (Tts (TtsRaise describe) _ _)
  | Ocr (inr describe) _ _
  | SpeechToText (SttRaise describe) _ _ _
  | SpeechToTextScribe (ScribeRaise describe) _ _ _ => key_free describe
  | _ => True
  end.

(** [r'] is what a route does on the redacted registry when [r] is what it
    does on the registry: the registry it leaves is the redacted one, its
    response is the same. *)
Definition same_response {A} (r' r : registry * A * (nat * json)) : Prop :=
  r'.1.1 = redact r.1.1 ∧ r'.2 = r.2.


(** A run through the session routes, the socket events and the other
    routes, one of them with a provider call that times out. *)
Definition demo_operations : list operation :=
  (OnSession <$> demo_events)
  ++ [ Connect "student-8"; StudentView;
       OnProxy (Translate (inl "Merhaba") translate_request 9);
       OnProxy (Translate (inr (λ _, "Read timed out."))
                  (<["text" := JStr "Guten Abend"]> translate_request) 10);
       OnProxy (Tts (TtsOk audio) tts_request 11);
       SimplifyText (HttpOk "Hallo") simplify_request 12;
       GenerateTasks (JsonOk (JList [JStr "Aufgabe 1"])) translate_request 13;
       WordInfo (Some [("word_type", JStr "Nomen")]) None
         (list_to_map [("word", JStr "Tag"); ("session_code", JStr "ABC234")]) 14;
       Ocr (inl "Guten Tag") (<["image" := JStr "iVBORw0KGgo"]> translate_request) 15;
       SpeechToText (SttRaise (λ _, "Read timed out.")) (Some "RIFF")
         translate_request 16;
       SpeechToTextScribe (ScribeError 401 "invalid key") (Some (String.concat "" (replicate 100 "a")))
         translate_request 17;
       CacheStats ].

(** A session on Google with simplification switched on, and the text of
    a connection error of the HTTP library. *)
Definition google_session : session :=
  with_simplification true
    (new_session (Some "teacher-1") (Credentials "K1" "A1" "google" "V1" (Some "scribe"))
       "" 0 0).
Definition google_registry : registry := {[ "ABC234" := google_session ]}.
Definition connection_error (c : outbound) : string :=
  "Max retries exceeded with url: " +:+ call_url c.

(** * Properties *)


(** ** Session codes *)

Lemma chars_list_unambiguous c : c ∈ chars_list ↔ unambiguous c = true.
Proof.
  assert (bool_decide (c ∈ chars_list) = unambiguous c) as E
    by (destruct c as [[] [] [] [] [] [] [] []]; vm_compute; reflexivity).
  rewrite <- E. split; [apply bool_decide_eq_true_2 | apply bool_decide_eq_true_1].
Qed.

Lemma chars_list_NoDup : NoDup chars_list.
Proof. apply (bool_decide_eq_true_1 _ (Decision0 := NoDup_dec _)). vm_compute. reflexivity. Qed.

Lemma choices_length population k rnd : length (choices population k rnd) = k.
Proof. unfold choices. by rewrite length_fmap, length_seq. Qed.

Lemma choices_elem population k rnd :
  population ≠ [] → Forall (λ c, c ∈ population) (choices population k rnd).
Proof.
  intros Hne. unfold choices. apply Forall_fmap, Forall_forall. intros i _. simpl.
  apply list_elem_of_In, nth_In, Nat.mod_upper_bound.
  destruct population; [done | simpl; lia].
Qed.

Lemma string_of_list_ascii_length l :
  String.length (string_of_list_ascii l) = length l.
Proof. induction l as [|a l IH]; simpl; congruence. Qed.

Lemma draw_code_shape rnd :
  String.length (draw_code rnd) = SESSION_CODE_LENGTH
  ∧ Forall (λ c, c ∈ chars_list) (list_ascii_of_string (draw_code rnd)).
Proof.
  unfold draw_code. split.
  - by rewrite string_of_list_ascii_length, choices_length.
  - rewrite list_ascii_of_string_of_list_ascii. by apply choices_elem.
Qed.

(** What a returning call of the loop has done: the first [n] candidates
    were taken, the next one was free and is the result. *)
Lemma generate_session_code_Some fuel rnd sessions code :
  generate_session_code fuel rnd sessions = Some code →
  ∃ n, (n < fuel)%nat ∧ code = draw_code (skip n rnd) ∧ sessions !! code = None
       ∧ ∀ m, (m < n)%nat → sessions !! draw_code (skip m rnd) ≠ None.
Proof.
  revert rnd. induction fuel as [|fuel IH]; intros rnd; simpl; [done|].
  case_decide as Hfree.
  - intros [= <-]. exists 0%nat. repeat split; [lia | done | intros; lia].
  - intros (n & Hn & -> & Hnone & Hbefore)%IH. exists (S n).
    repeat split; [lia | done |]. intros [|m] Hm; [done|]. apply Hbefore. lia.
Qed.

(** The loop returns as soon as the fuel reaches a free candidate. *)
Lemma generate_session_code_returns n fuel rnd sessions :
  sessions !! draw_code (skip n rnd) = None → (n < fuel)%nat →
  is_Some (generate_session_code fuel rnd sessions).
Proof.
  revert fuel rnd. induction n as [|n IH]; intros [|fuel] rnd Hfree Hlt; try lia; simpl.
  - by rewrite decide_True.
  - case_decide; [done|]. apply IH; [done | lia].
Qed.

(** More fuel does not change a result. *)
Lemma generate_session_code_mono fuel fuel' rnd sessions code :
  generate_session_code fuel rnd sessions = Some code → (fuel ≤ fuel')%nat →
  generate_session_code fuel' rnd sessions = Some code.
Proof.
  revert fuel' rnd. induction fuel as [|fuel IH]; intros [|fuel'] rnd; simpl; try done; try lia.
  case_decide; [done|]. intros Hg Hle. apply IH; [done | lia].
Qed.

(** C3 (as amended): a generated code has exactly 6 characters, each from
    the alphabet [chars], which has 32 distinct characters: the digits 2-9
    and the capital letters without I and O. *)
Theorem generated_code_alphabet fuel rnd sessions code :
  generate_session_code fuel rnd sessions = Some code →
  String.length code = 6%nat
  ∧ Forall (λ c, c ∈ chars_list) (list_ascii_of_string code)
  ∧ length chars_list = 32%nat
  ∧ NoDup chars_list
  ∧ ∀ c, c ∈ chars_list ↔ unambiguous c = true.
Proof.
  intros (n & _ & -> & _)%generate_session_code_Some.
  destruct (draw_code_shape (skip n rnd)) as [Hlen Hall].
  split_and!; [done | done | done | apply chars_list_NoDup | apply chars_list_unambiguous].
Qed.

Lemma generated_code_alphabet_witness :
  String.length "AAAAAA" = 6%nat
  ∧ Forall (λ c, c ∈ chars_list) (list_ascii_of_string "AAAAAA")
  ∧ length chars_list = 32%nat
  ∧ NoDup chars_list
  ∧ ∀ c, c ∈ chars_list ↔ unambiguous c = true.
Proof. apply (generated_code_alphabet 1 (λ _, 0%nat) ∅ "AAAAAA"). reflexivity. Defined.

(** C3 (as stated) fails: the alphabet does not have 33 characters. *)
Lemma alphabet_not_33 : length (list_ascii_of_string chars) ≠ 33%nat.
Proof. vm_compute. discriminate. Qed.

(** ** Creating sessions *)

Lemma create_session_Some fuel rnd tsid k p nc ne sessions code sessions' :
  create_session fuel rnd tsid k p nc ne sessions = Some (code, sessions') →
  generate_session_code fuel rnd sessions = Some code
  ∧ sessions !! code = None
  ∧ sessions' = <[code := new_session tsid k p nc ne]> sessions.
Proof.
  unfold create_session. destruct (generate_session_code _ _ _) as [c|] eqn:Hg; [|done].
  simpl. intros [= <- <-]. split_and!; [done | | done].
  by destruct (generate_session_code_Some _ _ _ _ Hg) as (? & ? & ? & ? & ?).
Qed.

(** C4: when some candidate of the random stream is free, [create_session]
    returns; whatever code it returns (with any fuel) is absent from the
    registry it was checked against, whatever the expiry of the entries
    there; the new session is stored under it with expiry = clock reading +
    3 hours; no existing session is replaced, so the sessions of the
    registry keep pairwise distinct codes, and a further creation returns
    another code. *)
Theorem create_session_unique n rnd tsid k p nc ne (sessions : registry) :
  sessions !! draw_code (skip n rnd) = None →
  ∃ code,
    let sessions' := <[code := new_session tsid k p nc ne]> sessions in
    create_session (S n) rnd tsid k p nc ne sessions = Some (code, sessions')
    ∧ (∀ fuel r, create_session fuel rnd tsid k p nc ne sessions = Some r →
         r = (code, sessions'))
    ∧ sessions !! code = None
    ∧ (∃ s, sessions' !! code = Some s ∧ created s = nc
            ∧ expires s = ne + timedelta_hours SESSION_TIMEOUT_HOURS)
    ∧ (∀ c s, sessions !! c = Some s → c ≠ code ∧ sessions' !! c = Some s)
    ∧ size sessions' = S (size sessions)
    ∧ (∀ fuel2 rnd2 tsid2 k2 p2 nc2 ne2 code2 sessions'',
         create_session fuel2 rnd2 tsid2 k2 p2 nc2 ne2 sessions' = Some (code2, sessions'') →
         code2 ≠ code).
Proof.
  intros Hfree.
  destruct (generate_session_code_returns n (S n) rnd sessions Hfree) as [code Hg]; [lia|].
  destruct (generate_session_code_Some _ _ _ _ Hg) as (_ & _ & _ & Hnone & _).
  exists code. cbv zeta. split_and!.
  - unfold create_session. by rewrite Hg.
  - intros fuel [c r] (Hg' & _ & ->)%create_session_Some.
    destruct (Nat.le_ge_cases fuel (S n)) as [Hle|Hle].
    + pose proof (generate_session_code_mono _ _ _ _ _ Hg' Hle). congruence.
    + pose proof (generate_session_code_mono _ _ _ _ _ Hg Hle). congruence.
  - done.
  - eexists. by rewrite lookup_insert_eq.
  - intros c s Hc. assert (c ≠ code) by congruence. by rewrite lookup_insert_ne.
  - by apply map_size_insert_None.
  - intros ????????? (_ & Hnone2 & _)%create_session_Some ->.
    by rewrite lookup_insert_eq in Hnone2.
Qed.

Lemma create_session_unique_witness :
  ∃ code,
    let sessions' : registry :=
      <[code := new_session None (Credentials "K1" "" "openai" "V1" None) "" 5 7]> ∅ in
    create_session 1 (λ _, 0%nat) None (Credentials "K1" "" "openai" "V1" None) "" 5 7 ∅
      = Some (code, sessions')
    ∧ (∀ fuel r, create_session fuel (λ _, 0%nat) None
                   (Credentials "K1" "" "openai" "V1" None) "" 5 7 ∅ = Some r →
         r = (code, sessions'))
    ∧ (∅ : registry) !! code = None
    ∧ (∃ s, sessions' !! code = Some s ∧ created s = 5
            ∧ expires s = 7 + timedelta_hours SESSION_TIMEOUT_HOURS)
    ∧ (∀ c s, (∅ : registry) !! c = Some s → c ≠ code ∧ sessions' !! c = Some s)
    ∧ size sessions' = S (size (∅ : registry))
    ∧ (∀ fuel2 rnd2 tsid2 k2 p2 nc2 ne2 code2 sessions'',
         create_session fuel2 rnd2 tsid2 k2 p2 nc2 ne2 sessions' = Some (code2, sessions'') →
         code2 ≠ code).
Proof.
  apply (create_session_unique 0 (λ _, 0%nat) None
           (Credentials "K1" "" "openai" "V1" None) "" 5 7 ∅).
  reflexivity.
Defined.

(** ** Identity allocator *)

Lemma elem_of_used_indices s i :
  i ∈ used_indices s ↔ ∃ sid sd, students s !! sid = Some sd ∧ animal_index sd = i.
Proof.
  unfold used_indices. rewrite elem_of_list_to_set, list_elem_of_fmap. split.
  - intros ([sid sd] & -> & Hin%elem_of_map_to_list). eauto.
  - intros (sid & sd & Hin & <-). exists (sid, sd). by rewrite elem_of_map_to_list.
Qed.

Lemma first_free_Some used i :
  first_free used = Some i ↔
  (i < length ANONYMOUS_ANIMALS)%nat ∧ (i ∉ used) ∧ (∀ j, (j < i)%nat → j ∈ used).
Proof.
  unfold first_free. generalize (length ANONYMOUS_ANIMALS) as n. intros n.
  rewrite fmap_Some. split.
  - intros ([p x] & (Hp & Hx & Hbefore)%list_find_Some & ->).
    apply lookup_seq in Hp as [-> Hlt]. cbn [fst]. split_and!; [done | done |].
    intros j Hj. destruct (decide (j ∈ used)) as [|Hn]; [done|].
    exfalso. eapply (Hbefore j j); [apply lookup_seq; split; [done | lia] | done | done].
  - intros (Hlt & Hi & Hbefore). exists (i, i). split; [|done].
    apply list_find_Some. split_and!; [by apply lookup_seq | done |].
    intros j y [-> _]%lookup_seq Hj Hy. apply Hy, Hbefore, Hj.
Qed.

Lemma first_free_None used :
  first_free used = None ↔ ∀ i, (i < length ANONYMOUS_ANIMALS)%nat → i ∈ used.
Proof.
  unfold first_free. generalize (length ANONYMOUS_ANIMALS) as n. intros n.
  rewrite fmap_None, list_find_None, Forall_forall. split.
  - intros H i Hi. destruct (decide (i ∈ used)) as [|Hn]; [done|].
    exfalso. apply (H i); [|done]. apply elem_of_seq. lia.
  - intros H i [_ Hi]%elem_of_seq Hn. apply Hn, H. lia.
Qed.

(** C7: for a session of the registry, when some catalogue index is not
    assigned to a participant the allocator returns the lowest such index
    with its catalogue entry; when all 28 are assigned it returns the entry
    at the random index with the label followed by a space and (participant
    count + 1); in both cases it returns, and the join stores a participant
    record with what it returned. *)
Theorem get_anonymous_name_allocates rnd code sid nm now (sessions : registry) s :
  sessions !! code = Some s →
  length ANONYMOUS_ANIMALS = 28%nat
  ∧ (∀ i, (i < 28)%nat → ¬ assigned s i → (∀ j, (j < i)%nat → assigned s j) →
          ∃ entry, ANONYMOUS_ANIMALS !! i = Some entry
                   ∧ get_anonymous_name rnd code sid sessions = (i, entry))
  ∧ ((∀ i, (i < 28)%nat → assigned s i) →
       ∃ idx emoji label,
         idx = (rnd mod 28)%nat ∧ (idx < 28)%nat
         ∧ ANONYMOUS_ANIMALS !! idx = Some (emoji, label)
         ∧ get_anonymous_name rnd code sid sessions
           = (idx, (emoji, label +:+ " " +:+ str_nat (size (students s) + 1))))
  ∧ (∃ i entry, get_anonymous_name rnd code sid sessions = (i, entry) ∧ (i < 28)%nat
                ∧ ((∃ j, (j < 28)%nat ∧ ¬ assigned s j) →
                   ¬ assigned s i ∧ ANONYMOUS_ANIMALS !! i = Some entry))
  ∧ (∃ sd, (add_student_to_session rnd code sid nm now sessions).1 = Some sd
           ∧ (animal_index sd, (animal_emoji sd, animal_name sd))
             = get_anonymous_name rnd code sid sessions).
Proof.
  intros Hs. assert (length ANONYMOUS_ANIMALS = 28%nat) as Hlen by reflexivity.
  assert (∀ i, i ∈ used_indices s ↔ assigned s i) as Hused
    by (intros i; apply elem_of_used_indices).
  split_and!; [done | | | |].
  - intros i Hi Hfree Hbefore.
    destruct (lookup_lt_is_Some_2 ANONYMOUS_ANIMALS i) as [entry He]; [lia|].
    exists entry. split; [done|]. unfold get_anonymous_name. rewrite Hs.
    assert (first_free (used_indices s) = Some i) as ->.
    { apply first_free_Some. rewrite Hlen. split_and!; [done | by rewrite Hused |].
      intros j Hj. by apply Hused, Hbefore. }
    by rewrite (list_lookup_total_correct _ _ _ He).
  - intros Hall. unfold get_anonymous_name. rewrite Hs.
    assert (first_free (used_indices s) = None) as ->.
    { apply first_free_None. rewrite Hlen. intros i Hi. by apply Hused, Hall. }
    assert (randint_below (length ANONYMOUS_ANIMALS) rnd < 28)%nat as Hlt
      by (unfold randint_below; rewrite Hlen; apply Nat.mod_upper_bound; lia).
    destruct (lookup_lt_is_Some_2 ANONYMOUS_ANIMALS
                (randint_below (length ANONYMOUS_ANIMALS) rnd)) as [[emoji label] He]; [lia|].
    exists (randint_below (length ANONYMOUS_ANIMALS) rnd), emoji, label.
    rewrite (list_lookup_total_correct _ _ _ He). by rewrite Hlen in *.
  - unfold get_anonymous_name. rewrite Hs.
    destruct (first_free (used_indices s)) as [i|] eqn:Hf.
    + apply first_free_Some in Hf as (Hi & Hfree & _). rewrite Hlen in Hi.
      destruct (lookup_lt_is_Some_2 ANONYMOUS_ANIMALS i) as [entry He]; [lia|].
      rewrite (list_lookup_total_correct _ _ _ He).
      exists i, entry. split_and!; [done | done |]. intros _. by rewrite <- Hused.
    + destruct (ANONYMOUS_ANIMALS !!! _) as [emoji label]. do 2 eexists.
      split_and!; [done | |].
      * unfold randint_below. rewrite Hlen. apply Nat.mod_upper_bound. lia.
      * intros (j & Hj & Hfree). exfalso. apply Hfree, Hused.
        apply (proj1 (first_free_None _) Hf). by rewrite Hlen.
  - unfold add_student_to_session.
    destruct (get_anonymous_name _ _ _ _) as [index [emoji label]]. rewrite Hs.
    by eexists.
Qed.


Lemma get_anonymous_name_allocates_witness :
  (∃ entry, ANONYMOUS_ANIMALS !! 2%nat = Some entry
            ∧ get_anonymous_name 30 "ABC234" "student-7" (classroom [0; 1; 3]%nat)
              = (2%nat, entry))
  ∧ (∃ idx emoji label,
       idx = (30 mod 28)%nat ∧ (idx < 28)%nat
       ∧ ANONYMOUS_ANIMALS !! idx = Some (emoji, label)
       ∧ get_anonymous_name 30 "ABC234" "student-7" (classroom (seq 0 28))
         = (idx, (emoji, label +:+ " " +:+ str_nat (size (crowd (seq 0 28)) + 1)))).
Proof.
  split.
  - destruct (get_anonymous_name_allocates 30 "ABC234" "student-7" "Mia" 6
                (classroom [0; 1; 3]%nat)
                (with_students (λ _, crowd [0; 1; 3]%nat) demo_session) eq_refl)
      as (_ & Hlowest & _).
    apply Hlowest; [lia | |].
    + intros Hheld%elem_of_used_indices. revert Hheld.
      apply (bool_decide_unpack _). vm_compute. exact I.
    + intros j Hj. apply elem_of_used_indices.
      assert (Forall (λ j, j ∈ used_indices
                             (with_students (λ _, crowd [0; 1; 3]%nat) demo_session))
                (seq 0 2)) as Hall by (apply (bool_decide_unpack _); vm_compute; exact I).
      rewrite Forall_forall in Hall. apply Hall, elem_of_seq. lia.
  - destruct (get_anonymous_name_allocates 30 "ABC234" "student-7" "Mia" 6
                (classroom (seq 0 28))
                (with_students (λ _, crowd (seq 0 28)) demo_session) eq_refl)
      as (_ & _ & Hexhausted & _).
    apply Hexhausted. intros i Hi. apply elem_of_used_indices.
    assert (Forall (λ j, j ∈ used_indices
                           (with_students (λ _, crowd (seq 0 28)) demo_session))
              (seq 0 28)) as Hall by (apply (bool_decide_unpack _); vm_compute; exact I).
    rewrite Forall_forall in Hall. apply Hall, elem_of_seq. lia.
Defined.

(** With the indices 0, 1 and 3 taken the next participant gets index 2;
    with all 28 taken, the entry at the random index, numbered 29. *)
Example get_anonymous_name_lowest_free :
  get_anonymous_name 30 "ABC234" "student-7" (classroom [0; 1; 3]%nat)
  = (2%nat, ("🦁", "Löwe")).
Proof. vm_compute. reflexivity. Qed.

Example get_anonymous_name_exhausted :
  get_anonymous_name 30 "ABC234" "student-7" (classroom (seq 0 28))
  = (2%nat, ("🦁", "Löwe 29")).
Proof. vm_compute. reflexivity. Qed.

(** C10: for a code that is not in the registry the allocator returns
    index 0 with the first catalogue entry. *)
Theorem get_anonymous_name_absent rnd code sid (sessions : registry) :
  sessions !! code = None →
  get_anonymous_name rnd code sid sessions = (0%nat, ("🦊", "Fuchs")).
Proof. intros Hnone. unfold get_anonymous_name. by rewrite Hnone. Qed.

Lemma get_anonymous_name_absent_witness :
  get_anonymous_name 3 "ABC234" "sid-1" ∅ = (0%nat, ("🦊", "Fuchs")).
Proof. apply (get_anonymous_name_absent 3 "ABC234" "sid-1" ∅). reflexivity. Defined.

(** ** Lookup with expiry *)

Lemma get_session_specP code now sessions :
  get_session_spec code now sessions (get_session code now sessions).
Proof.
  unfold get_session. destruct (sessions !! code) as [s|] eqn:Hs.
  - case_bool_decide; [by eapply get_session_live | eapply get_session_expired; [done | lia]].
  - by apply get_session_absent.
Qed.

Lemma no_new_codes_refl sessions : no_new_codes sessions sessions.
Proof. by intros c. Qed.

Lemma no_new_codes_trans s1 s2 s3 :
  no_new_codes s1 s2 → no_new_codes s2 s3 → no_new_codes s1 s3.
Proof. intros H1 H2 c Hc. by apply H2, H1. Qed.

Lemma no_new_codes_delete code sessions : no_new_codes sessions (delete code sessions).
Proof. intros c Hc. rewrite lookup_delete_None. by right. Qed.

Lemma no_new_codes_alter f code sessions : no_new_codes sessions (alter f code sessions).
Proof. intros c Hc. by rewrite lookup_alter_None. Qed.

Lemma no_new_codes_insert code s s' (sessions : registry) :
  sessions !! code = Some s → no_new_codes sessions (<[code := s']> sessions).
Proof.
  intros Hs c Hc. rewrite lookup_insert_None. split; [done|]. congruence.
Qed.

Lemma no_new_codes_fmap f (sessions : registry) : no_new_codes sessions (f <$> sessions).
Proof. intros c Hc. by rewrite lookup_fmap, Hc. Qed.

Lemma no_new_codes_get_session code now sessions :
  no_new_codes sessions (get_session code now sessions).2.
Proof.
  destruct (get_session_specP code now sessions); simpl;
    auto using no_new_codes_refl, no_new_codes_delete.
Qed.

Lemma no_new_codes_end_session code sessions :
  no_new_codes sessions (end_session code sessions).2.
Proof.
  unfold end_session. destruct (sessions !! code); simpl;
    auto using no_new_codes_refl, no_new_codes_delete.
Qed.

Lemma no_new_codes_add_student rnd code sid nm now sessions :
  no_new_codes sessions (add_student_to_session rnd code sid nm now sessions).2.
Proof.
  unfold add_student_to_session.
  destruct (get_anonymous_name _ _ _ _) as [index [emoji label]].
  destruct (sessions !! code) eqn:Hs; simpl;
    eauto using no_new_codes_refl, no_new_codes_insert.
Qed.

Lemma no_new_codes_sweep log expired sessions :
  no_new_codes sessions (sweep log expired sessions).1.
Proof.
  revert sessions. induction expired as [|code rest IH]; intros sessions; simpl.
  - apply no_new_codes_refl.
  - destruct (log _); simpl.
    + apply no_new_codes_delete.
    + eapply no_new_codes_trans; [apply no_new_codes_delete | apply IH].
Qed.

Create HintDb registry.
#[local] Hint Resolve no_new_codes_refl no_new_codes_delete no_new_codes_alter
  no_new_codes_insert no_new_codes_fmap : registry.

(** Case analysis on the registry calls and branches of a handler body,
    keeping what each call guarantees. *)
Ltac handler_cases :=
  repeat (cbn [fst snd];
    match goal with
    | |- context [get_session ?c ?n ?s] =>
        pose proof (no_new_codes_get_session c n s);
        destruct (get_session c n s) as [? ?]
    | |- context [add_student_to_session ?r ?c ?i ?m ?n ?s] =>
        pose proof (no_new_codes_add_student r c i m n s);
        destruct (add_student_to_session r c i m n s) as [? ?]
    | |- context [end_session ?c ?s] =>
        pose proof (no_new_codes_end_session c s);
        destruct (end_session c s) as [? ?]
    | |- context [match ?x with _ => _ end] => destruct x eqn:?
    end).

Ltac no_new_codes_handler h :=
  unfold h; handler_cases; cbn [fst snd] in *;
  eauto using no_new_codes_trans with registry.

(** A handler that does not create a session adds no code. *)
Lemma handle_no_new_codes upper_strip e sessions sessions' out :
  creates e = false →
  handle upper_strip e sessions = Some (sessions', out) →
  no_new_codes sessions sessions'.
Proof.
  destruct e; simpl; try done; intros _ [= H];
    change sessions' with (sessions', out).1; rewrite <- H; clear H.
  - no_new_codes_handler api_join_session.
  - no_new_codes_handler api_end_session.
  - no_new_codes_handler api_session_status.
  - no_new_codes_handler api_session_settings.
  - no_new_codes_handler api_session_qr.
  - no_new_codes_handler api_set_session_text.
  - no_new_codes_handler api_get_session_text.
  - apply no_new_codes_fmap.
  - no_new_codes_handler handle_student_join_session.
  - no_new_codes_handler handle_teacher_end_session.
  - no_new_codes_handler handle_teacher_update_settings.
  - no_new_codes_handler handle_teacher_release_tasks.
  - no_new_codes_handler handle_student_request_translation.
  - no_new_codes_handler handle_teacher_approve_translation.
  - no_new_codes_handler handle_teacher_deny_translation.
  - no_new_codes_handler handle_teacher_toggle_simplification.
  - no_new_codes_handler handle_student_using_simplified.
  - apply no_new_codes_sweep.
Qed.

Lemma handle_total upper_strip e sessions :
  creates e = false → is_Some (handle upper_strip e sessions).
Proof. destruct e; simpl; try done; by eexists. Qed.

Lemma run_no_new_codes upper_strip es sessions :
  Forall (λ e, creates e = false) es →
  ∃ sessions' out, run upper_strip es sessions = Some (sessions', out)
                   ∧ no_new_codes sessions sessions'.
Proof.
  intros Hes. revert sessions. induction Hes as [|e es He _ IH]; intros sessions; simpl.
  - eauto using no_new_codes_refl.
  - destruct (handle_total upper_strip e sessions He) as [[s1 o1] H1]. rewrite H1. simpl.
    destruct (IH s1) as (s2 & o2 & H2 & Hs2). rewrite H2. simpl.
    do 2 eexists. split; [done|].
    eauto using no_new_codes_trans, handle_no_new_codes.
Qed.

(** C5: [get_session] returns the session exactly when the code is present
    and [now < expires]; a present entry with [expires <= now] is deleted by
    the lookup, which returns nothing; and once a lookup has returned
    nothing, the code stays absent, and every later lookup returns nothing,
    through any run of requests and events that creates no session. *)
Theorem get_session_expiry upper_strip code now (sessions : registry) :
  (∀ s, (get_session code now sessions).1 = Some s
        ↔ sessions !! code = Some s ∧ now < expires s)
  ∧ (∀ s, sessions !! code = Some s → now < expires s →
          get_session code now sessions = (Some s, sessions))
  ∧ (∀ s, sessions !! code = Some s → expires s ≤ now →
          get_session code now sessions = (None, delete code sessions))
  ∧ (sessions !! code = None → get_session code now sessions = (None, sessions))
  ∧ ((get_session code now sessions).1 = None →
     ∀ es, Forall (λ e, creates e = false) es →
       ∃ sessions' out,
         run upper_strip es (get_session code now sessions).2 = Some (sessions', out)
         ∧ sessions' !! code = None
         ∧ ∀ now', get_session code now' sessions' = (None, sessions')).
Proof.
  split_and!.
  - intros s. destruct (get_session_specP code now sessions) as [s'|s'|]; simpl;
      split; try done; try (intros [??]; simplify_eq; done || lia).
    intros [= ->]. done.
  - intros s Hs Hnow. unfold get_session. rewrite Hs. by rewrite bool_decide_eq_true_2.
  - intros s Hs Hnow. unfold get_session. rewrite Hs.
    by rewrite bool_decide_eq_false_2 by lia.
  - intros Hs. unfold get_session. by rewrite Hs.
  - intros Hnone es Hes.
    assert ((get_session code now sessions).2 !! code = None) as Habsent.
    { destruct (get_session_specP code now sessions); simpl in *;
        [done | apply lookup_delete_eq | done]. }
    destruct (run_no_new_codes upper_strip es (get_session code now sessions).2 Hes)
      as (s' & out & Hrun & Hno).
    exists s', out. split_and!; [done | by apply Hno |].
    intros now'. unfold get_session. by rewrite (Hno _ Habsent).
Qed.

Lemma get_session_expiry_witness :
  get_session "AAAAAA" 10800000500 two_sessions = (None, delete "AAAAAA" two_sessions)
  ∧ ∃ sessions' out,
      run id [ApiJoinSession (demo_request []) 10800000600; Sweep two_stamps 10800000700;
              ApiSetSessionText (list_to_map [("code", JStr "AAAAAA")])]
        (get_session "AAAAAA" 10800000500 two_sessions).2 = Some (sessions', out)
      ∧ sessions' !! "AAAAAA" = None
      ∧ ∀ now', get_session "AAAAAA" now' sessions' = (None, sessions').
Proof.
  destruct (get_session_expiry id "AAAAAA" 10800000500 two_sessions)
    as (_ & _ & Hexpired & _ & Hstays).
  split.
  - apply (Hexpired (new_session None demo_keys "" 0 0)); [reflexivity | vm_compute; discriminate].
  - apply Hstays; [reflexivity | repeat constructor].
Defined.

(** ** Result caches: recency order and bound *)

Section lru.
Context {V : Type}.
Implicit Types (c : list (string * V)) (log : list string).

Lemma od_get_None_remove k c : od_get k c = None → od_remove k c = c.
Proof.
  unfold od_remove. induction c as [|[k' v] c IH]; simpl; [done|].
  case_decide; [done|]. intros Hc. rewrite filter_cons_True by done. by rewrite IH.
Qed.

Lemma od_get_app_new k v c : od_get k (c ++ [(k, v)]) = Some (default v (od_get k c)).
Proof.
  induction c as [|[k' v'] c IH]; simpl; [by rewrite decide_True|].
  by case_decide.
Qed.

Lemma od_get_remove k c : od_get k (od_remove k c) = None.
Proof.
  unfold od_remove. induction c as [|[k' v] c IH]; simpl; [done|].
  destruct (decide (k' = k)) as [->|Hne].
  - by rewrite filter_cons_False by (simpl; auto).
  - rewrite filter_cons_True by done. simpl. by rewrite decide_False.
Qed.

Lemma od_remove_length k c : (length (od_remove k c) ≤ length c)%nat.
Proof. apply length_filter. Qed.

Lemma od_remove_length_Some k c v :
  od_get k c = Some v → (length (od_remove k c) < length c)%nat.
Proof.
  unfold od_remove. induction c as [|[k' v'] c IH]; simpl; [done|].
  destruct (decide (k' = k)) as [->|Hne].
  - intros _. rewrite filter_cons_False by (simpl; auto).
    pose proof (length_filter (λ kv : string * V, kv.1 ≠ k) c). lia.
  - intros Hc. rewrite filter_cons_True by done. simpl. specialize (IH Hc). lia.
Qed.

Lemma od_remove_keys k c : Forall (λ kv, kv.1 ≠ k) (od_remove k c).
Proof. unfold od_remove. apply Forall_forall. by intros kv [? _]%list_elem_of_filter. Qed.

Lemma od_set_new k v c : od_get k c = None → od_set k v c = c ++ [(k, v)].
Proof. unfold od_set. by intros ->. Qed.

(** Accessing [k] moves it behind every other item. *)
Lemma recency_sorted_access k v log c :
  recency_sorted log c → recency_sorted (k :: log) (od_remove k c ++ [(k, v)]).
Proof.
  intros Hs. unfold recency_sorted in *. apply StronglySorted_app. split_and!.
  - intros a b Ha ->%list_elem_of_singleton. simpl. rewrite decide_True by done.
    pose proof (od_remove_keys k c) as Hk. rewrite Forall_forall in Hk.
    rewrite decide_False by (intros ?; by apply (Hk a Ha)). lia.
  - unfold od_remove. induction Hs as [|a c Hs IH Ha]; [constructor|].
    destruct (decide (a.1 ≠ k)) as [Hne|Heq].
    + rewrite filter_cons_True by done. constructor; [done|].
      apply Forall_forall. intros b [Hb Hin]%list_elem_of_filter.
      rewrite Forall_forall in Ha. specialize (Ha b Hin). simpl.
      rewrite !decide_False by done. lia.
    + by rewrite filter_cons_False by done.
  - repeat constructor.
Qed.

Lemma recency_sorted_tail log a c : recency_sorted log (a :: c) → recency_sorted log c.
Proof. unfold recency_sorted. by inversion 1. Qed.

Lemma recency_sorted_NoDup log c : recency_sorted log c → NoDup c.*1.
Proof.
  unfold recency_sorted. induction 1 as [|a c Hs IH Ha]; simpl; constructor; [|done].
  rewrite list_elem_of_fmap. intros (b & Hab & Hin).
  rewrite Forall_forall in Ha. specialize (Ha b Hin). rewrite Hab in Ha. lia.
Qed.

(** One operation keeps the order and the bound, and raises nothing. *)
Lemma cache_apply_invariant max_size op log c :
  (0 < max_size)%nat → recency_sorted log c → (length c ≤ max_size)%nat →
  ∃ c', cache_apply max_size op c = Some c'
        ∧ recency_sorted (option_list (accessed op c) ++ log) c'
        ∧ (length c' ≤ max_size)%nat.
Proof.
  intros Hmax Hs Hlen. destruct op as [k|k v]; simpl.
  - eexists. split; [done|]. unfold cache_get, move_to_end.
    destruct (od_get k c) as [v|] eqn:Hk; simpl; [|done].
    split; [by apply recency_sorted_access|].
    rewrite length_app. simpl. pose proof (od_remove_length_Some _ _ _ Hk). lia.
  - unfold cache_add, move_to_end. destruct (od_get k c) as [v0|] eqn:Hk.
    + eexists. split; [done|]. split; [by apply recency_sorted_access|].
      rewrite length_app. simpl. pose proof (od_remove_length_Some _ _ _ Hk). lia.
    + case_bool_decide as Hfull.
      * destruct c as [|[h vh] rest]; simpl in *; [lia|].
        assert (od_get k rest = None) as Hrest by (by case_decide).
        eexists. split; [done|]. rewrite (od_set_new _ _ _ Hrest).
        rewrite <- (od_get_None_remove _ _ Hrest) at 1.
        split; [eapply recency_sorted_access, recency_sorted_tail; done|].
        rewrite length_app. simpl. lia.
      * eexists. split; [done|]. rewrite (od_set_new _ _ _ Hk).
        rewrite <- (od_get_None_remove _ _ Hk) at 1.
        split; [by apply recency_sorted_access|].
        rewrite length_app. simpl. lia.
Qed.

Lemma cache_run_invariant max_size ops log c :
  (0 < max_size)%nat → recency_sorted log c → (length c ≤ max_size)%nat →
  ∃ c' log', cache_run max_size ops c log = Some (c', log')
             ∧ recency_sorted log' c' ∧ (length c' ≤ max_size)%nat.
Proof.
  intros Hmax. revert log c. induction ops as [|op ops IH]; intros log c Hs Hlen; simpl.
  - eauto.
  - destruct (cache_apply_invariant max_size op log c) as (c1 & -> & Hs1 & Hlen1);
      [done..|]. simpl. by apply IH.
Qed.

End lru.

Lemma cache_get_hit {V} k (v : V) c :
  od_get k c = Some v → cache_get k c = (Some v, od_remove k c ++ [(k, v)]).
Proof.
  intros Hk. unfold cache_get, move_to_end. rewrite Hk.
  by rewrite od_get_app_new, od_get_remove.
Qed.

Lemma cache_add_hit {V} max_size k (v v' : V) c :
  od_get k c = Some v → cache_add max_size k v' c = Some (od_remove k c ++ [(k, v)]).
Proof. intros Hk. unfold cache_add, move_to_end. by rewrite Hk. Qed.

(** C6: for a cache of capacity [max_size] (positive, as both bounds are),
    any sequence of get and put from the empty cache raises nothing and
    leaves at most [max_size] items, with distinct keys, in recency order
    (a get that hits and a put both make their key the most recent).  On a
    full cache a put of a new key removes exactly the first item, whose key
    is less recently accessed than every other key, and keeps all others;
    below capacity it removes nothing. *)
Theorem lru_eviction {V} (max_size : nat) (ops : list (cache_op V)) :
  (0 < max_size)%nat →
  ∃ c log,
    cache_run max_size ops [] [] = Some (c, log)
    ∧ (length c ≤ max_size)%nat
    ∧ recency_sorted log c
    ∧ NoDup c.*1
    ∧ (∀ k v, od_get k c = None → length c = max_size →
         ∃ h vh rest,
           c = (h, vh) :: rest
           ∧ cache_add max_size k v c = Some (rest ++ [(k, v)])
           ∧ ∀ k', k' ∈ rest.*1 → (age log k' < age log h)%nat)
    ∧ (∀ k v, od_get k c = None → (length c < max_size)%nat →
         cache_add max_size k v c = Some (c ++ [(k, v)]))
    ∧ (∀ k v, od_get k c = Some v →
         cache_get k c = (Some v, od_remove k c ++ [(k, v)])
         ∧ ∀ v', cache_add max_size k v' c = Some (od_remove k c ++ [(k, v)])).
Proof.
  intros Hmax.
  destruct (cache_run_invariant max_size ops [] []) as (c & log & Hrun & Hs & Hlen);
    [done | constructor | simpl; lia |].
  exists c, log. split_and!; [done | done | done | by eapply recency_sorted_NoDup | | |].
  - intros k v Hk Hfull. destruct c as [|[h vh] rest]; [simpl in *; lia|].
    exists h, vh, rest. split; [done|]. split.
    + unfold cache_add. rewrite Hk. rewrite bool_decide_eq_true_2 by lia. simpl.
      rewrite od_set_new; [done|]. simpl in Hk. by case_decide.
    + intros k' (b & -> & Hin)%list_elem_of_fmap. unfold recency_sorted in Hs.
      inversion Hs as [|?? _ Hall]; subst. rewrite Forall_forall in Hall.
      by apply (Hall b).
  - intros k v Hk Hlt. unfold cache_add. rewrite Hk.
    rewrite bool_decide_eq_false_2 by lia. by rewrite od_set_new.
  - intros k v Hk. split; [by apply cache_get_hit | intros v'; by apply cache_add_hit].
Qed.

(** C9: in both caches a put on a key that is present keeps the stored
    value and only moves the item to the most recent position; a get for
    the key then returns the value stored before. *)
Theorem add_existing_key_keeps_value (cache_key : string) :
  (∀ tts_cache data data',
     od_get cache_key tts_cache = Some data →
     ∃ cache', add_to_cache cache_key data' tts_cache = Some cache'
               ∧ cache' = od_remove cache_key tts_cache ++ [(cache_key, data)]
               ∧ (get_from_cache cache_key cache').1 = Some data)
  ∧ (∀ translation_cache translated translated',
       od_get cache_key translation_cache = Some translated →
       ∃ cache', add_to_translation_cache cache_key translated' translation_cache = Some cache'
                 ∧ cache' = od_remove cache_key translation_cache ++ [(cache_key, translated)]
                 ∧ (get_from_translation_cache cache_key cache').1 = Some translated).
Proof.
  split; intros c v v' Hk; eexists; (split; [by eapply cache_add_hit|]); (split; [done|]);
    unfold get_from_cache, get_from_translation_cache;
    erewrite cache_get_hit; [done | | done |];
    by rewrite od_get_app_new, od_get_remove.
Qed.

Lemma lru_eviction_witness :
  ∃ c log,
    cache_run 2 [Put "a" 1%nat; Put "b" 2%nat; Get "a"] [] [] = Some (c, log)
    ∧ (length c ≤ 2)%nat
    ∧ recency_sorted log c
    ∧ NoDup c.*1
    ∧ (∀ k v, od_get k c = None → length c = 2%nat →
         ∃ h vh rest,
           c = (h, vh) :: rest
           ∧ cache_add 2 k v c = Some (rest ++ [(k, v)])
           ∧ ∀ k', k' ∈ rest.*1 → (age log k' < age log h)%nat)
    ∧ (∀ k v, od_get k c = None → (length c < 2)%nat →
         cache_add 2 k v c = Some (c ++ [(k, v)]))
    ∧ (∀ k v, od_get k c = Some v →
         cache_get k c = (Some v, od_remove k c ++ [(k, v)])
         ∧ ∀ v', cache_add 2 k v' c = Some (od_remove k c ++ [(k, v)])).
Proof. apply (lru_eviction 2 [Put "a" 1%nat; Put "b" 2%nat; Get "a"]). lia. Defined.

(** Capacity 2: a third key evicts "a", the oldest; after a get of "a" it
    evicts "b" instead. *)
Example lru_evicts_oldest :
  cache_run 2 [Put "a" 1%nat; Put "b" 2%nat; Put "c" 3%nat] [] []
  = Some ([("b", 2%nat); ("c", 3%nat)], ["c"; "b"; "a"]).
Proof. reflexivity. Qed.

Example lru_get_changes_victim :
  cache_run 2 [Put "a" 1%nat; Put "b" 2%nat; Get "a"; Put "c" 3%nat] [] []
  = Some ([("a", 1%nat); ("c", 3%nat)], ["c"; "a"; "b"; "a"]).
Proof. reflexivity. Qed.

Lemma add_existing_key_keeps_value_witness :
  (∃ cache', add_to_cache "k" (JStr "new") [("k", JStr "old"); ("j", JNull)] = Some cache'
             ∧ cache' = od_remove "k" [("k", JStr "old"); ("j", JNull)] ++ [("k", JStr "old")]
             ∧ (get_from_cache "k" cache').1 = Some (JStr "old"))
  ∧ (∃ cache', add_to_translation_cache "k" "neu" [("k", "alt"); ("j", "x")] = Some cache'
               ∧ cache' = od_remove "k" [("k", "alt"); ("j", "x")] ++ [("k", "alt")]
               ∧ (get_from_translation_cache "k" cache').1 = Some "alt").
Proof.
  destruct (add_existing_key_keeps_value "k") as [Htts Htr]. split.
  - apply Htts. reflexivity.
  - apply Htr. reflexivity.
Defined.

(** ** Iteration over the registry *)

Lemma sessions_keys_Permutation stamp (sessions : registry) :
  sessions_keys stamp sessions ≡ₚ (map_to_list sessions).*1.
Proof. apply merge_sort_Permutation. Qed.

Lemma sessions_keys_NoDup stamp (sessions : registry) : NoDup (sessions_keys stamp sessions).
Proof. rewrite sessions_keys_Permutation. apply NoDup_fst_map_to_list. Qed.

Lemma elem_of_sessions_keys stamp (sessions : registry) c :
  c ∈ sessions_keys stamp sessions ↔ is_Some (sessions !! c).
Proof.
  rewrite sessions_keys_Permutation, list_elem_of_fmap. split.
  - intros ([c' s] & -> & Hin%elem_of_map_to_list). by eexists.
  - intros [s Hs]. exists (c, s). split; [done | by apply elem_of_map_to_list].
Qed.

#[local] Instance earlier_total stamp : Total (earlier stamp).
Proof. intros c1 c2. unfold earlier. lia. Qed.

#[local] Instance earlier_trans stamp : Transitive (earlier stamp).
Proof. intros c1 c2 c3. unfold earlier. lia. Qed.

Lemma sessions_keys_sorted stamp (sessions : registry) :
  StronglySorted (earlier stamp) (sessions_keys stamp sessions).
Proof. apply StronglySorted_merge_sort; apply _. Qed.

Lemma sessions_items_keys stamp (sessions : registry) :
  (sessions_items stamp sessions).*1 = sessions_keys stamp sessions.
Proof.
  unfold sessions_items.
  assert (Forall (λ c, is_Some (sessions !! c)) (sessions_keys stamp sessions)) as Hall
    by (apply Forall_forall; intros c; apply elem_of_sessions_keys).
  induction Hall as [|c l [s Hs] _ IH]; [done|].
  csimpl. rewrite Hs. csimpl. by rewrite IH.
Qed.

Lemma elem_of_sessions_items stamp (sessions : registry) c s :
  (c, s) ∈ sessions_items stamp sessions ↔ sessions !! c = Some s.
Proof.
  unfold sessions_items. rewrite list_elem_of_omap. split.
  - intros (c' & _ & Hc'). destruct (sessions !! c') eqn:E; simplify_eq/=. done.
  - intros Hs. exists c. split; [apply elem_of_sessions_keys; by eexists|]. by rewrite Hs.
Qed.

Lemma sessions_keys_fmap stamp (f : session → session) (sessions : registry) :
  sessions_keys stamp (f <$> sessions) = sessions_keys stamp sessions.
Proof.
  unfold sessions_keys. f_equal. rewrite map_to_list_fmap, <- list_fmap_compose.
  apply list_fmap_ext. by intros _ [??] _.
Qed.

Lemma sessions_items_fmap stamp (f : session → session) (sessions : registry) :
  sessions_items stamp (f <$> sessions) = prod_map id f <$> sessions_items stamp sessions.
Proof.
  unfold sessions_items. rewrite sessions_keys_fmap.
  induction (sessions_keys stamp sessions) as [|c l IH]; [done|].
  csimpl. rewrite lookup_fmap. destruct (sessions !! c); csimpl; by rewrite IH.
Qed.

(** ** The sweep loop *)

Lemma elem_of_expired_codes stamp now (sessions : registry) c :
  c ∈ expired_codes stamp now sessions ↔ ∃ s, sessions !! c = Some s ∧ expires s ≤ now.
Proof.
  unfold expired_codes. rewrite list_elem_of_fmap. split.
  - intros ([c' s] & -> & [Hexp Hin%elem_of_sessions_items]%list_elem_of_filter). eauto.
  - intros (s & Hs & Hexp). exists (c, s). split; [done|].
    apply list_elem_of_filter. split; [done | by apply elem_of_sessions_items].
Qed.

(** With a logger that returns, the loop deletes exactly the listed codes. *)
Lemma sweep_returns log expired (sessions : registry) :
  (∀ msg, log msg = None) →
  ∃ sessions', sweep log expired sessions = (sessions', None)
    ∧ ∀ c, sessions' !! c = if decide (c ∈ expired) then None else sessions !! c.
Proof.
  intros Hlog. revert sessions.
  induction expired as [|code rest IH]; intros sessions; simpl.
  - eexists. split; [done|]. by intros c.
  - rewrite Hlog. destruct (IH (delete code sessions)) as (s' & -> & Hs').
    eexists. split; [done|]. intros c. rewrite Hs'.
    destruct (decide (c = code)) as [->|Hne].
    + rewrite lookup_delete_eq.
      destruct (decide (code ∈ rest)), (decide (code ∈ code :: rest)) as [|Hn];
        try done; exfalso; apply Hn, elem_of_cons; auto.
    + rewrite lookup_delete_ne by done.
      destruct (decide (c ∈ rest)), (decide (c ∈ code :: rest)) as [Hin|Hn]; try done.
      * exfalso. apply Hn, elem_of_cons. auto.
      * apply elem_of_cons in Hin as [?|?]; done.
Qed.

Lemma cleanup_expired_sessions_returns log stamp now (sessions : registry) :
  (∀ msg, log msg = None) →
  cleanup_expired_sessions log stamp now sessions
  = (filter (λ kv, now < expires kv.2) sessions, None).
Proof.
  intros Hlog. unfold cleanup_expired_sessions.
  destruct (sweep_returns log (expired_codes stamp now sessions) sessions Hlog)
    as (s' & -> & Hs').
  f_equal. apply map_eq. intros c. rewrite Hs'.
  destruct (sessions !! c) as [s|] eqn:Hc.
  - destruct (decide (now < expires s)) as [Hlive|Hexp].
    + rewrite decide_False.
      * symmetry. by apply map_lookup_filter_Some.
      * rewrite elem_of_expired_codes. intros (s0 & ? & ?). simplify_eq. lia.
    + rewrite decide_True by (apply elem_of_expired_codes; exists s; split; [done | lia]).
      symmetry. apply map_lookup_filter_None. right. intros s0 ? ?. simplify_eq. done.
  - assert (filter (λ kv, now < expires kv.2) sessions !! c = None) as ->
      by (apply map_lookup_filter_None; by left).
    by case_decide.
Qed.

Lemma session_cleanup_thread_app log life more sessions :
  session_cleanup_thread log (life ++ more) sessions
  = match session_cleanup_thread log life sessions with
    | (Alive, sessions') => session_cleanup_thread log more sessions'
    | (Terminated e, sessions') =>
        (Terminated e, foldl (λ acc iv, others iv acc) sessions' more)
    end.
Proof.
  revert sessions. induction life as [|iv life IH]; intros sessions; simpl.
  - by destruct (session_cleanup_thread log more sessions) as [[] ?].
  - destruct (cleanup_expired_sessions log (stamps iv) (wake iv) (others iv sessions))
      as [s' [e|]].
    + by rewrite foldl_app.
    + apply IH.
Qed.

(** C8 (as amended): an exception raised in one iteration of the sweep
    leaves the loop: the thread has terminated and sweeps no more, whatever
    follows; as long as the call returns the loop goes on, each iteration
    removing exactly the sessions whose expiry has passed. *)
Theorem sweep_failure_terminates_loop log life (sessions : registry) :
  (∀ e sessions', session_cleanup_thread log life sessions = (Terminated e, sessions') →
     ∀ more, session_cleanup_thread log (life ++ more) sessions
             = (Terminated e, foldl (λ acc iv, others iv acc) sessions' more))
  ∧ (∀ sessions' iv, session_cleanup_thread log life sessions = (Alive, sessions') →
       session_cleanup_thread log (life ++ [iv]) sessions
       = match cleanup_expired_sessions log (stamps iv) (wake iv) (others iv sessions') with
         | (sessions'', None) => (Alive, sessions'')
         | (sessions'', Some e) => (Terminated e, sessions'')
         end)
  ∧ ((∀ msg, log msg = None) →
       (session_cleanup_thread log life sessions).1 = Alive
       ∧ ∀ stamp now sessions0,
           cleanup_expired_sessions log stamp now sessions0
           = (filter (λ kv, now < expires kv.2) sessions0, None)).
Proof.
  split_and!.
  - intros e s' H more. by rewrite session_cleanup_thread_app, H.
  - intros s' iv H. rewrite session_cleanup_thread_app, H. simpl.
    by destruct (cleanup_expired_sessions _ _ _ _) as [? [?|]].
  - intros Hlog. split; [|intros; by apply cleanup_expired_sessions_returns].
    revert sessions. induction life as [|iv life IH]; intros sessions; simpl; [done|].
    rewrite cleanup_expired_sessions_returns by done. apply IH.
Qed.

Lemma sweep_failure_terminates_loop_witness :
  session_cleanup_thread raising_log
    ([Interval id two_stamps 10800000500] ++ [Interval id two_stamps 11100000500]) two_sessions
  = (Terminated "logging failed",
     foldl (λ acc iv, others iv acc) (delete "AAAAAA" two_sessions)
       [Interval id two_stamps 11100000500])
  ∧ (session_cleanup_thread (λ _, None)
       [Interval id two_stamps 10800000500; Interval id two_stamps 11100000500] two_sessions).1 = Alive.
Proof.
  split.
  - destruct (sweep_failure_terminates_loop raising_log [Interval id two_stamps 10800000500]
                two_sessions) as (Hdead & _ & _).
    apply Hdead. vm_compute. reflexivity.
  - destruct (sweep_failure_terminates_loop (λ _, None)
                [Interval id two_stamps 10800000500; Interval id two_stamps 11100000500] two_sessions)
      as (_ & _ & Halive).
    apply Halive. reflexivity.
Defined.

(** C8 (as stated) fails: when the first iteration raises, the thread has
    terminated; at the next interval nothing is swept, and the session that
    expired meanwhile stays in the registry.  With a logger that returns,
    the same two iterations remove both sessions. *)
Lemma sweep_exception_ends_thread :
  session_cleanup_thread raising_log
    [Interval id two_stamps 10800000500; Interval id two_stamps 11100000500] two_sessions
  = (Terminated "logging failed", {[ "BBBBBB" := new_session None demo_keys "" 1000 1000 ]})
  ∧ expires (new_session None demo_keys "" 1000 1000) ≤ 11100000500
  ∧ session_cleanup_thread (λ _, None)
      [Interval id two_stamps 10800000500; Interval id two_stamps 11100000500] two_sessions
    = (Alive, ∅).
Proof. split_and!; [vm_compute; reflexivity | vm_compute; discriminate | vm_compute; reflexivity]. Qed.

(** The loop deletes in the order of insertion: with both sessions expired
    and a logger that raises, the session inserted first is gone and the
    other is not. *)
Example raising_sweep_deletes_first_inserted :
  cleanup_expired_sessions raising_log class_stamps 10800000500 two_classes
  = (delete "ZZZ222" two_classes, Some "logging failed").
Proof. vm_compute. reflexivity. Qed.

(** ** The ownership gate *)

(** C1 (as amended): a settings push, task release, simplification toggle,
    translation approval or denial, or session end sent over the socket by
    a connection that is not the recorded owner of the session sends one
    [session_error] to that connection and nothing else, and leaves the
    registry as the lookup leaves it: unchanged when the session has not
    expired, without the expired session otherwise. *)
Theorem ownership_gate upper_strip e data sid now (sessions : registry) s :
  owner_request e = Some (data, sid, now) →
  sessions !! request_code upper_strip data = Some s →
  teacher_sid s ≠ Some sid →
  ∃ msg,
    handle upper_strip e sessions
    = Some ((get_session (request_code upper_strip data) now sessions).2,
            [Emit "session_error" (err msg)])
    ∧ (now < expires s →
       (get_session (request_code upper_strip data) now sessions).2 = sessions)
    ∧ (expires s ≤ now →
       (get_session (request_code upper_strip data) now sessions).2
       = delete (request_code upper_strip data) sessions).
Proof.
  intros He Hs Hsid.
  assert ((now < expires s →
           (get_session (request_code upper_strip data) now sessions).2 = sessions)
          ∧ (expires s ≤ now →
             (get_session (request_code upper_strip data) now sessions).2
             = delete (request_code upper_strip data) sessions)) as [Hlive Hexp].
  { unfold get_session. rewrite Hs. case_bool_decide; split; intros; (done || lia). }
  destruct e; simpl in He; simplify_eq; simpl;
    unfold handle_teacher_end_session, handle_teacher_update_settings,
      handle_teacher_release_tasks, handle_teacher_approve_translation,
      handle_teacher_deny_translation, handle_teacher_toggle_simplification, is_owner;
    destruct (get_session_specP (request_code upper_strip data) now sessions)
      as [s' Hs' _|s' Hs' _|Hs']; simplify_eq; cbn [fst snd] in *;
    rewrite ?bool_decide_eq_false_2 by done;
    eexists; (split; [reflexivity | done]).
Qed.

Lemma ownership_gate_witness :
  ∃ msg,
    handle id (TeacherUpdateSettings (demo_request [("settings", JObj [])]) "student-7" 5)
      demo_registry
    = Some ((get_session (request_code id (demo_request [("settings", JObj [])])) 5
               demo_registry).2,
            [Emit "session_error" (err msg)])
    ∧ (5 < expires demo_session →
       (get_session (request_code id (demo_request [("settings", JObj [])])) 5
          demo_registry).2 = demo_registry)
    ∧ (expires demo_session ≤ 5 →
       (get_session (request_code id (demo_request [("settings", JObj [])])) 5
          demo_registry).2
       = delete (request_code id (demo_request [("settings", JObj [])])) demo_registry).
Proof.
  apply (ownership_gate id
           (TeacherUpdateSettings (demo_request [("settings", JObj [])]) "student-7" 5)
           (demo_request [("settings", JObj [])]) "student-7" 5 demo_registry demo_session).
  - reflexivity.
  - reflexivity.
  - discriminate.
Defined.

(** C1 (as stated) fails for the text update: the route takes no acting
    connection and checks none; on a session owned by "teacher-1" any
    request replaces the text and broadcasts it to the room. *)
Lemma set_text_has_no_gate :
  teacher_sid demo_session = Some "teacher-1"
  ∧ api_set_session_text id (demo_request [("text", JStr "x")]) demo_registry
    = (<["ABC234" := with_text "x" demo_session]> demo_registry,
       [EmitRoom "text_updated" (JObj [("text", JStr "x")]) "ABC234";
        Respond 200 (JObj [("success", JBool true)])])
  ∧ <["ABC234" := with_text "x" demo_session]> demo_registry ≠ demo_registry.
Proof.
  split_and!; [reflexivity | reflexivity |].
  intros H. apply (f_equal (λ m : registry, text <$> m !! "ABC234")) in H.
  vm_compute in H. discriminate.
Qed.

(** ** Credentials and what is sent *)

Lemma truthy_mask key : truthy (mask key) = truthy key.
Proof. unfold mask. by destruct (truthy key) eqn:E. Qed.

Lemma redact_lookup sessions c : redact sessions !! c = redact_session <$> sessions !! c.
Proof. apply lookup_fmap. Qed.

Lemma redact_delete sessions c : delete c (redact sessions) = redact (delete c sessions).
Proof. unfold redact. by rewrite fmap_delete. Qed.

Lemma redact_insert sessions c s :
  <[c := redact_session s]> (redact sessions) = redact (<[c := s]> sessions).
Proof. unfold redact. by rewrite fmap_insert. Qed.

Lemma redact_alter f sessions c :
  (∀ s, f (redact_session s) = redact_session (f s)) →
  alter f c (redact sessions) = redact (alter f c sessions).
Proof. intros Hf. unfold redact. symmetry. by apply fmap_alter. Qed.

Lemma get_session_redact c now sessions :
  get_session c now (redact sessions)
  = (redact_session <$> (get_session c now sessions).1,
     redact (get_session c now sessions).2).
Proof.
  unfold get_session. rewrite redact_lookup. destruct (sessions !! c) as [s|]; simpl; [|done].
  case_bool_decide; simpl; [done|]. by rewrite redact_delete.
Qed.

Lemma end_session_redact c sessions :
  end_session c (redact sessions)
  = ((end_session c sessions).1, redact (end_session c sessions).2).
Proof.
  unfold end_session. rewrite redact_lookup. destruct (sessions !! c); simpl; [|done].
  by rewrite redact_delete.
Qed.

Lemma get_anonymous_name_redact rnd c sid sessions :
  get_anonymous_name rnd c sid (redact sessions) = get_anonymous_name rnd c sid sessions.
Proof.
  unfold get_anonymous_name. rewrite redact_lookup. by destruct (sessions !! c).
Qed.

Lemma add_student_to_session_redact rnd c sid nm now sessions :
  add_student_to_session rnd c sid nm now (redact sessions)
  = ((add_student_to_session rnd c sid nm now sessions).1,
     redact (add_student_to_session rnd c sid nm now sessions).2).
Proof.
  unfold add_student_to_session. rewrite get_anonymous_name_redact.
  destruct (get_anonymous_name _ _ _ _) as [index [emoji label]].
  rewrite redact_lookup. destruct (sessions !! c) as [s|]; simpl; [|done].
  by rewrite <- redact_insert.
Qed.

Lemma generate_session_code_redact fuel rnd sessions :
  generate_session_code fuel rnd (redact sessions) = generate_session_code fuel rnd sessions.
Proof.
  revert rnd. induction fuel as [|fuel IH]; intros rnd; simpl; [done|].
  rewrite IH, redact_lookup.
  destruct (sessions !! draw_code rnd); simpl; by repeat case_decide.
Qed.

Lemma create_session_redact fuel rnd tsid k p nc ne sessions :
  create_session fuel rnd tsid (redact_keys k) p nc ne (redact sessions)
  = prod_map id redact <$> create_session fuel rnd tsid k p nc ne sessions.
Proof.
  unfold create_session. rewrite generate_session_code_redact.
  destruct (generate_session_code _ _ _) as [code|]; simpl; [|done].
  by rewrite <- redact_insert.
Qed.

Lemma expired_codes_redact stamp now sessions :
  expired_codes stamp now (redact sessions) = expired_codes stamp now sessions.
Proof.
  unfold expired_codes, redact. rewrite sessions_items_fmap.
  induction (sessions_items stamp sessions) as [|[c s] l IH]; [done|].
  rewrite fmap_cons. simpl. rewrite !filter_cons. simpl.
  case_decide; rewrite ?fmap_cons; simpl; by rewrite IH.
Qed.

Lemma sweep_redact log expired sessions :
  sweep log expired (redact sessions)
  = prod_map redact id (sweep log expired sessions).
Proof.
  revert sessions. induction expired as [|c rest IH]; intros sessions; simpl; [done|].
  rewrite redact_delete. destruct (log _); [done | apply IH].
Qed.

Lemma get_str_redact_request data k default :
  get_str (redact_request data) k default
  = if decide (k = "elevenlabs_key") then mask (get_str data "elevenlabs_key" "")
    else if decide (k = "ai_key") then mask (get_str data "ai_key" "")
    else get_str data k default.
Proof.
  unfold get_str at 1, redact_request. repeat case_decide; subst.
  - by rewrite lookup_insert_eq.
  - by rewrite lookup_insert_ne, lookup_insert_eq.
  - by rewrite !lookup_insert_ne.
Qed.

Lemma omap_fmap_pointwise {A B C} (f : B → option C) (g : A → B) (h : A → option C)
    (l : list A) :
  (∀ x, f (g x) = h x) → omap f (g <$> l) = omap h l.
Proof.
  intros Hfg. induction l as [|x l IH]; [done|].
  csimpl. by rewrite Hfg, IH.
Qed.

Lemma translate_text_with_ai_mask reply txt lang key provider :
  (∀ describe, reply = HttpRaise describe → key_free describe) →
  translate_text_with_ai reply txt lang (mask key) provider
  = translate_text_with_ai reply txt lang key provider.
Proof.
  intros Hfree. unfold translate_text_with_ai. case_bool_decide; [|done].
  destruct reply as [| |describe]; [done | done |]. f_equal.
  apply (Hfree describe eq_refl (TranslationCall provider key lang txt)).
Qed.

Lemma simplify_text_with_ai_mask reply txt lvl key provider :
  (∀ describe, reply = HttpRaise describe → key_free describe) →
  simplify_text_with_ai reply txt lvl (mask key) provider
  = simplify_text_with_ai reply txt lvl key provider.
Proof.
  intros Hfree. unfold simplify_text_with_ai. case_bool_decide; [|done].
  case_bool_decide; [|done].
  destruct reply as [| |describe]; [done | done |]. f_equal.
  apply (Hfree describe eq_refl (CompletionCall provider key lvl txt)).
Qed.

Lemma get_session_keys_redact c now sessions :
  get_session_keys c now (redact sessions)
  = (redact_keys <$> (get_session_keys c now sessions).1,
     redact (get_session_keys c now sessions).2).
Proof.
  unfold get_session_keys. rewrite get_session_redact.
  by destruct (get_session c now sessions) as [[s|] sessions'].
Qed.

(** Rewriting a handler body run on the redacted registry into the body run
    on the registry itself. *)
Ltac redact_handler :=
  rewrite ?get_session_redact, ?end_session_redact, ?redact_lookup;
  repeat match goal with
    | |- context [get_session ?c ?n ?s] => destruct (get_session c n s) as [[?|] ?]
    | |- context [end_session ?c ?s] => destruct (end_session c s) as [[] ?]
    | |- context [@lookup _ _ registry _ ?c ?s] => destruct (s !! c)
    end;
  cbn [fst snd fmap option_fmap option_map is_owner];
  repeat match goal with
    | |- context [attached_owner (redact_session ?s)] =>
        change (attached_owner (redact_session s)) with (attached_owner s)
    end;
  repeat (cbn [keys teacher_sid expires created students text tasks tasks_available
                translation_requests simplification_enabled student_levels settings
                redact_session redact_keys ai ai_provider voice_id stt_provider
                elevenlabs];
          rewrite ?truthy_mask;
          rewrite ?translate_text_with_ai_mask by done;
          try match goal with
            | |- context [match ?x with _ => _ end] =>
                lazymatch x with
                | context [redact] => fail
                | _ => destruct x eqn:?
                end
            end);
  repeat match goal with
    | |- context [with_text ?t (redact_session ?s)] =>
        change (with_text t (redact_session s)) with (redact_session (with_text t s))
    end;
  rewrite ?redact_insert;
  rewrite ?redact_alter by done;
  rewrite ?redact_delete;
  try done.
Lemma handle_redact upper_strip e sessions :
  exceptions_key_free (OnSession e) →
  handle upper_strip (redact_event e) (redact sessions)
  = prod_map redact id <$> handle upper_strip e sessions.
Proof.
  intros Hfree.
  destruct e; cbn [handle redact_event fmap option_fmap option_map prod_map fst snd].
  - unfold api_create_session. rewrite !get_str_redact_request. simpl.
    rewrite truthy_mask. destruct (truthy _); simpl; [|done].
    pose proof (create_session_redact fuel rnd None
      {| elevenlabs := get_str data "elevenlabs_key" ""; ai := get_str data "ai_key" "";
         ai_provider := get_str data "ai_provider" "openai";
         voice_id := get_str data "voice_id" "21m00Tcm4TlvDq8ikWAM";
         stt_provider := None |} "" now_created now_expires sessions) as Hc.
    unfold redact_keys in Hc. simpl in Hc. rewrite Hc.
    destruct (create_session _ _ _ _ _ _ _ sessions) as [[code s']|]; simpl; [|done].
    rewrite redact_lookup. by destruct (s' !! code).
  - unfold api_join_session. redact_handler.
  - unfold api_end_session. redact_handler.
  - unfold api_session_status. redact_handler.
  - unfold api_session_settings. redact_handler.
  - unfold api_session_qr. redact_handler.
  - unfold api_set_session_text. redact_handler.
  - unfold api_get_session_text. redact_handler.
  - unfold handle_disconnect, redact, prod_map; cbn [fst snd]. f_equal. f_equal.
    + apply map_eq. intros c. rewrite !lookup_fmap.
      destruct (sessions !! c) as [s|]; simpl; [|done].
      by destruct (students s !! request_sid).
    + unfold id. rewrite sessions_items_fmap. apply omap_fmap_pointwise.
      intros [c s]. simpl. by destruct (students s !! request_sid).
  - unfold handle_teacher_create_session. rewrite !get_str_redact_request. simpl.
    rewrite truthy_mask. destruct (truthy _); simpl; [|done].
    pose proof (create_session_redact fuel rnd (Some request_sid)
      {| elevenlabs := get_str data "elevenlabs_key" ""; ai := get_str data "ai_key" "";
         ai_provider := get_str data "ai_provider" "openai";
         voice_id := get_str data "voice_id" "21m00Tcm4TlvDq8ikWAM";
         stt_provider := Some (get_str data "stt_provider" "browser") |}
      (get_str data "pin" "") now_created now_expires sessions) as Hc.
    unfold redact_keys in Hc. simpl in Hc. rewrite Hc.
    destruct (create_session _ _ _ _ _ _ _ sessions) as [[code s']|]; simpl; [|done].
    rewrite redact_lookup. by destruct (s' !! code).
  - unfold handle_student_join_session. rewrite get_session_redact.
    destruct (get_session _ _ _) as [[s0|] s']; cbn [fst snd fmap option_fmap option_map]; [|done].
    rewrite add_student_to_session_redact.
    destruct (add_student_to_session _ _ _ _ _ _) as [sd s'']. cbn [fst snd].
    rewrite redact_lookup. by destruct (s'' !! _).
  - unfold handle_teacher_end_session. rewrite get_session_redact.
    destruct (get_session _ _ _) as [[s|] s'];
      cbn [fst snd fmap option_fmap option_map is_owner teacher_sid redact_session];
      [|done].
    case_bool_decide; [|done]. by rewrite end_session_redact.
  - unfold handle_teacher_update_settings. redact_handler.
  - unfold handle_teacher_release_tasks. redact_handler.
  - unfold handle_student_request_translation. redact_handler.
  - assert (∀ describe, reply = HttpRaise describe → key_free describe) as Hreply
      by (intros describe ->; exact Hfree).
    unfold handle_teacher_approve_translation. redact_handler.
  - unfold handle_teacher_deny_translation. redact_handler.
  - unfold handle_teacher_toggle_simplification. redact_handler.
  - unfold handle_student_using_simplified. redact_handler.
  - unfold cleanup_expired_sessions. rewrite expired_codes_redact, sweep_redact.
    by destruct (sweep _ _ _).
Qed.


Section routes_redact.
Variables (upper strip md5_hex lower : string → string).
Variable strip_punctuation : string → string.

Lemma simplify_text_redact reply data now sessions :
  (∀ describe, reply = HttpRaise describe → key_free describe) →
  same_response (simplify_text upper strip reply data now (redact sessions))
                (simplify_text upper strip reply data now sessions).
Proof.
  intros Hfree. unfold simplify_text.
  destruct (truthy (strip (get_str data "text" ""))); cbn [negb]; [|done].
  case_bool_decide; cbn [negb]; [|done].
  destruct (truthy (strip (upper (get_str data "session_code" "")))); [|done].
  rewrite get_session_redact. destruct (get_session _ _ sessions) as [[s|] sessions'];
    cbn [fst snd fmap option_fmap option_map]; [|done].
  cbn [simplification_enabled redact_session keys redact_keys ai ai_provider].
  destruct (simplification_enabled s); cbn [negb]; [|done].
  rewrite truthy_mask. destruct (truthy (ai (keys s))); cbn [negb]; [|done].
  rewrite simplify_text_with_ai_mask by done.
  by destruct (simplify_text_with_ai _ _ _ _ _).
Qed.

Lemma get_word_info_redact info image data now sessions :
  same_response (get_word_info upper strip strip_punctuation info image data now
                   (redact sessions))
                (get_word_info upper strip strip_punctuation info image data now sessions).
Proof.
  unfold get_word_info.
  destruct (truthy (strip (get_str data "word" ""))); cbn [negb]; [|done].
  destruct (truthy (strip (strip_punctuation _))); cbn [negb]; [|done].
  destruct (truthy (strip (upper (get_str data "session_code" "")))).
  - rewrite get_session_redact. destruct (get_session _ _ sessions) as [[s|] sessions'];
      cbn [fst snd fmap option_fmap option_map from_option]; [|done].
    cbn [redact_session keys redact_keys ai ai_provider]. rewrite truthy_mask.
    destruct (truthy (ai (keys s))); cbn [andb].
    + case_bool_decide; case_bool_decide; done.
    + done.
  - done.
Qed.

Lemma api_generate_tasks_redact reply data now sessions :
  (∀ describe, reply = JsonRaise describe → key_free describe) →
  same_response (api_generate_tasks upper strip reply data now (redact sessions))
                (api_generate_tasks upper strip reply data now sessions).
Proof.
  intros Hfree. unfold api_generate_tasks.
  destruct (truthy (get_str data "text" "")); cbn [negb]; [|done].
  rewrite get_session_keys_redact.
  destruct (get_session_keys _ _ sessions) as [[k|] sessions'];
    cbn [fst snd fmap option_fmap option_map]; [|done].
  cbn [redact_keys ai ai_provider]. rewrite truthy_mask.
  destruct (truthy (ai k)); cbn [negb]; [|done].
  case_bool_decide; [|done]. split; [done|]. cbn [snd].
  destruct reply as [tasks| |describe]; [done | done |]. do 2 f_equal.
  apply (Hfree describe eq_refl (TasksCall (ai_provider k) (ai k) (get_str data "text" ""))).
Qed.

Lemma translate_credentials_redact data now sessions :
  translate_credentials upper strip data now (redact sessions)
  = ((λ kp, (if truthy (strip (upper (get_str data "session_code" "")))
             then mask kp.1 else kp.1, kp.2))
       <$> (translate_credentials upper strip data now sessions).1,
     if truthy (strip (upper (get_str data "session_code" "")))
     then redact (translate_credentials upper strip data now sessions).2
     else redact sessions).
Proof.
  unfold translate_credentials.
  destruct (truthy (strip (upper (get_str data "session_code" "")))); [|done].
  rewrite get_session_keys_redact.
  by destruct (get_session_keys _ _ sessions) as [[k|] sessions'].
Qed.

Lemma translate_credentials_direct data now (sessions : registry) :
  truthy (strip (upper (get_str data "session_code" ""))) = false →
  (translate_credentials upper strip data now sessions).2 = sessions.
Proof. intros H. unfold translate_credentials. by rewrite H. Qed.

Lemma ocr_image_redact call_result data now sessions :
  (∀ describe, call_result = inr describe → key_free describe) →
  same_response (ocr_image upper strip call_result data now (redact sessions))
                (ocr_image upper strip call_result data now sessions).
Proof.
  intros Hfree. unfold ocr_image.
  destruct (truthy (get_str data "image" "")); cbn [negb]; [|done].
  rewrite translate_credentials_redact.
  pose proof (translate_credentials_direct data now sessions) as Hdirect.
  destruct (translate_credentials upper strip data now sessions)
    as [[[api_key provider]|] sessions']; cbn [fst snd fmap option_fmap option_map] in *.
  - destruct (truthy (strip (upper (get_str data "session_code" "")))) eqn:Hcode;
      rewrite ?truthy_mask, ?Hdirect by done;
      (destruct (truthy api_key); cbn [negb]; [|done]);
      (case_bool_decide; [|done]); (split; [done|]); cbn [snd];
      (destruct call_result as [txt|describe]; [done|]); [|done].
    do 3 f_equal.
    apply (Hfree describe eq_refl
             (VisionCall provider api_key OCR_PROMPT (get_str data "image" "")
                (get_str data "mime_type" "image/jpeg"))).
  - destruct (truthy (strip (upper (get_str data "session_code" ""))));
      rewrite ?Hdirect by done; done.
Qed.

Lemma proxy_speech_to_text_redact reply audio form now sessions :
  (∀ describe, reply = SttRaise describe → key_free describe) →
  same_response (proxy_speech_to_text upper strip reply audio form now (redact sessions))
                (proxy_speech_to_text upper strip reply audio form now sessions).
Proof.
  intros Hfree. unfold proxy_speech_to_text. destruct audio as [audio_data|]; [|done].
  rewrite translate_credentials_redact.
  pose proof (translate_credentials_direct form now sessions) as Hdirect.
  destruct (translate_credentials upper strip form now sessions)
    as [[[api_key provider]|] sessions']; cbn [fst snd fmap option_fmap option_map] in *.
  - destruct (truthy (strip (upper (get_str form "session_code" "")))) eqn:Hcode;
      rewrite ?truthy_mask, ?Hdirect by done;
      (destruct (truthy api_key); cbn [negb]; [|done]);
      case_bool_decide; (split; [done|]); cbn [snd];
      (destruct reply as [transcript|status_code response_text|describe]; [done|done|]);
      try done; do 2 f_equal.
    + apply (Hfree describe eq_refl
               (GeminiAudioCall api_key audio_data (get_str form "language" "de"))).
    + apply (Hfree describe eq_refl
               (WhisperCall api_key audio_data (get_str form "language" "de"))).
  - destruct (truthy (strip (upper (get_str form "session_code" ""))));
      rewrite ?Hdirect by done; done.
Qed.

Lemma proxy_speech_to_text_scribe_redact reply audio form now sessions :
  (∀ describe, reply = ScribeRaise describe → key_free describe) →
  same_response (proxy_speech_to_text_scribe upper strip reply audio form now
                   (redact sessions))
                (proxy_speech_to_text_scribe upper strip reply audio form now sessions).
Proof.
  intros Hfree. unfold proxy_speech_to_text_scribe.
  destruct audio as [audio_data|]; [|done].
  destruct (truthy (strip (upper (get_str form "session_code" "")))).
  - rewrite get_session_keys_redact.
    destruct (get_session_keys _ _ sessions) as [[k|] sessions'];
      cbn [fst snd fmap option_fmap option_map]; [|done].
    cbn [redact_keys elevenlabs]. rewrite truthy_mask.
    destruct (truthy (elevenlabs k)); cbn [negb]; [|done].
    destruct (_ <? _)%nat; [done|]. split; [done|]. cbn [snd].
    destruct reply as [result|status_code error_detail|describe]; [done | done |].
    do 2 f_equal.
    apply (Hfree describe eq_refl (ScribeCall (elevenlabs k) audio_data _)).
  - destruct (truthy (get_str form "api_key" "")); cbn [negb]; [|done].
    by destruct (_ <? _)%nat.
Qed.

Lemma tts_credentials_redact data now sessions :
  tts_credentials upper strip data now (redact sessions)
  = ((λ kv, (if truthy (strip (upper (get_str data "session_code" "")))
             then mask kv.1 else kv.1, kv.2))
       <$> (tts_credentials upper strip data now sessions).1,
     if truthy (strip (upper (get_str data "session_code" "")))
     then redact (tts_credentials upper strip data now sessions).2
     else redact sessions).
Proof.
  unfold tts_credentials.
  destruct (truthy (strip (upper (get_str data "session_code" "")))); [|done].
  rewrite get_session_keys_redact.
  by destruct (get_session_keys _ _ sessions) as [[k|] sessions'].
Qed.

Lemma tts_credentials_direct data now (sessions : registry) :
  truthy (strip (upper (get_str data "session_code" ""))) = false →
  (tts_credentials upper strip data now sessions).2 = sessions.
Proof. intros H. unfold tts_credentials. by rewrite H. Qed.

(** The same for the two caching proxies: the cache they leave is the same
    too. *)
Lemma proxy_translate_redact call_result data now sessions cache :
  (∀ describe, call_result = inr describe → key_free describe) →
  let r := proxy_translate upper strip md5_hex call_result data now sessions cache in
  let r' := proxy_translate upper strip md5_hex call_result data now (redact sessions)
              cache in
  r'.1.1.1 = redact r.1.1.1 ∧ r'.1.1.2 = r.1.1.2 ∧ r'.2 = r.2.
Proof.
  intros Hfree. cbn zeta. unfold proxy_translate.
  destruct (truthy (get_str data "text" "")); cbn [negb]; [|done].
  case_bool_decide; [done|].
  rewrite translate_credentials_redact.
  pose proof (translate_credentials_direct data now sessions) as Hdirect.
  destruct (translate_credentials upper strip data now sessions)
    as [[[api_key provider]|] sessions']; cbn [fst snd fmap option_fmap option_map] in *.
  - destruct (truthy (strip (upper (get_str data "session_code" "")))) eqn:Hcode;
      rewrite ?truthy_mask, ?Hdirect by done;
      (destruct (truthy api_key); cbn [negb]; [|done]);
      (destruct (get_from_translation_cache _ cache) as [cached cache']);
      (destruct (from_option truthy false cached); [done|]);
      (case_bool_decide; [|done]);
      (destruct call_result as [result|describe];
       [by destruct (add_to_translation_cache _ _ _)|]); [|done].
    cbn [fst snd]. split_and!; [done | done |]. do 2 f_equal.
    apply (Hfree describe eq_refl (TextCall provider api_key _ _)).
  - destruct (truthy (strip (upper (get_str data "session_code" ""))));
      rewrite ?Hdirect by done; done.
Qed.

Lemma proxy_tts_redact reply data now sessions cache :
  (∀ describe, reply = TtsRaise describe → key_free describe) →
  let r := proxy_tts upper strip md5_hex reply data now sessions cache in
  let r' := proxy_tts upper strip md5_hex reply data now (redact sessions) cache in
  r'.1.1.1 = redact r.1.1.1 ∧ r'.1.1.2 = r.1.1.2 ∧ r'.2 = r.2.
Proof.
  intros Hfree. cbn zeta. unfold proxy_tts.
  destruct (truthy (get_str data "text" "")); cbn [negb]; [|done].
  rewrite tts_credentials_redact.
  pose proof (tts_credentials_direct data now sessions) as Hdirect.
  destruct (tts_credentials upper strip data now sessions)
    as [[[api_key voice]|] sessions']; cbn [fst snd fmap option_fmap option_map] in *.
  - destruct (truthy (strip (upper (get_str data "session_code" "")))) eqn:Hcode;
      rewrite ?truthy_mask, ?Hdirect by done; cbn [negb andb];
      try (destruct (truthy api_key); cbn [negb]; [|done]);
      (destruct (get_from_cache _ cache) as [cached cache']);
      (destruct (from_option json_truthy false cached); [done|]);
      (destruct reply as [response_data|status_code error_msg| |describe];
       [by destruct (add_to_cache _ _ _) | done | done |]); [|done].
    cbn [fst snd]. split_and!; [done | done |]. do 2 f_equal.
    apply (Hfree describe eq_refl (TtsCall voice api_key _ _ _)).
  - destruct (truthy (strip (upper (get_str data "session_code" ""))));
      rewrite ?Hdirect by done; done.
Qed.
End routes_redact.

Section server_redact.
Variables (upper strip md5_hex lower : string → string).
Variable strip_punctuation : string → string.
Variables (join_hyphenated_lines join_hyphenated_words unwrap_lines
           squeeze_spaces squeeze_newlines : string → string).

#[local] Abbreviation operate := (operate upper strip md5_hex lower strip_punctuation
                       join_hyphenated_lines join_hyphenated_words unwrap_lines
                       squeeze_spaces squeeze_newlines).
#[local] Abbreviation serve := (serve upper strip md5_hex lower strip_punctuation
                     join_hyphenated_lines join_hyphenated_words unwrap_lines
                     squeeze_spaces squeeze_newlines).

Lemma operate_redact op w :
  exceptions_key_free op →
  operate (redact_operation op) (redact_world w)
  = prod_map redact_world id <$> operate op w.
Proof.
  intros Hfree. destruct w as [sessions tts translations].
  destruct op; cbn [operate redact_operation redact_world w_sessions w_tts_cache
                      w_translation_cache]; try done.
  - rewrite handle_redact by done.
    by destruct (handle _ e sessions) as [[sessions' out]|].
  - destruct (get_word_info_redact upper strip strip_punctuation info image data now
                sessions) as [Hs Hr].
    cbn [mbind option_bind fmap option_fmap option_map prod_map fst snd redact_world
         w_sessions w_tts_cache w_translation_cache]. by rewrite Hs, Hr.
  - destruct (simplify_text_redact upper strip reply data now sessions) as [Hs Hr];
      [by intros describe ->|].
    cbn [fmap option_fmap option_map prod_map fst snd redact_world
         w_sessions w_tts_cache w_translation_cache]. by rewrite Hs, Hr.
  - destruct (api_generate_tasks_redact upper strip reply data now sessions) as [Hs Hr];
      [by intros describe ->|].
    cbn [fmap option_fmap option_map prod_map fst snd redact_world
         w_sessions w_tts_cache w_translation_cache]. by rewrite Hs, Hr.
  - destruct e as [call_result data now|reply data now].
    + destruct (proxy_translate_redact upper strip md5_hex call_result data now sessions
                  translations) as (Hs & Hc & Hr); [by intros describe ->|].
      destruct (proxy_translate _ _ _ _ _ _ (redact sessions) _) as [[[s1 c1] o1] r1].
      destruct (proxy_translate _ _ _ _ _ _ sessions _) as [[[s2 c2] o2] r2].
      cbn [fst snd] in *. by subst.
    + destruct (proxy_tts_redact upper strip md5_hex reply data now sessions tts)
        as (Hs & Hc & Hr); [by intros describe ->|].
      destruct (proxy_tts _ _ _ _ _ _ (redact sessions) _) as [[[s1 c1] o1] r1].
      destruct (proxy_tts _ _ _ _ _ _ sessions _) as [[[s2 c2] o2] r2].
      cbn [fst snd] in *. by subst.
  - destruct (ocr_image_redact upper strip call_result data now sessions) as [Hs Hr];
      [by intros describe ->|].
    cbn [fmap option_fmap option_map prod_map fst snd redact_world
         w_sessions w_tts_cache w_translation_cache]. by rewrite Hs, Hr.
  - destruct (proxy_speech_to_text_redact upper strip reply recording form now sessions)
      as [Hs Hr]; [by intros describe ->|].
    cbn [fmap option_fmap option_map prod_map fst snd redact_world
         w_sessions w_tts_cache w_translation_cache]. by rewrite Hs, Hr.
  - destruct (proxy_speech_to_text_scribe_redact upper strip reply recording form now
                sessions)
      as [Hs Hr]; [by intros describe ->|].
    cbn [fmap option_fmap option_map prod_map fst snd redact_world
         w_sessions w_tts_cache w_translation_cache]. by rewrite Hs, Hr.
  - unfold cache_stats, redact. by rewrite map_size_fmap.
Qed.

Lemma serve_redact ops w :
  Forall exceptions_key_free ops →
  serve (redact_operation <$> ops) (redact_world w)
  = prod_map redact_world id <$> serve ops w.
Proof.
  intros Hfree. revert w. induction Hfree as [|op ops Hop _ IH]; intros w; [done|].
  rewrite fmap_cons. cbn [serve]. rewrite operate_redact by done.
  destruct (operate op w) as [[w1 o1]|]; simpl; [|done].
  rewrite IH. by destruct (serve ops w1) as [[w2 o2]|].
Qed.

Lemma exceptions_key_free_redact op :
  exceptions_key_free (redact_operation op) ↔ exceptions_key_free op.
Proof. destruct op as [[]| | | | | | | | | | | | | | |]; done. Qed.

End server_redact.



(** What the amended statement leaves out.  The HTTP library names the URL
    of a request in the message of a connection error, and for Google the
    URL holds the key: when the call fails, the simplification route, open
    to every participant, answers with the AI key of the session. *)
Example failed_call_tells_the_key :
  (simplify_text id id (HttpRaise connection_error) simplify_request 5 google_registry).2
  = (500%nat,
     err ("Max retries exceeded with url: https://generativelanguage.googleapis.com/v1beta/models/gemini-2.0-flash:generateContent?key=A1"))
  ∧ ai (keys google_session) = "A1"
  ∧ ¬ key_free connection_error.
Proof.
  split_and!; [vm_compute; reflexivity | reflexivity |].
  intros Hfree. specialize (Hfree (CompletionCall "google" "A1" "" "")). discriminate.
Qed.

(** * Further properties of the registry *)

Lemma with_students_id (s : session) : with_students (λ m, m) s = s.
Proof. by destruct s. Qed.

Lemma with_students_ext f g (s : session) :
  f (students s) = g (students s) → with_students f s = with_students g s.
Proof. unfold with_students. by intros ->. Qed.

Lemma with_students_compose f g (s : session) :
  with_students f (with_students g s) = with_students (λ m, f (g m)) s.
Proof. done. Qed.

(** X1: [end_session] reports whether the code was present, removes that
    entry and no other, and is idempotent: a second call reports false and
    changes nothing; a lookup after it finds nothing. *)
Theorem end_session_idempotent code (sessions : registry) :
  (end_session code sessions).1 = bool_decide (is_Some (sessions !! code))
  ∧ (end_session code sessions).2 = delete code sessions
  ∧ end_session code (end_session code sessions).2 = (false, (end_session code sessions).2)
  ∧ ∀ now, get_session code now (end_session code sessions).2
           = (None, (end_session code sessions).2).
Proof.
  assert ((end_session code sessions).2 = delete code sessions) as Hd.
  { unfold end_session. destruct (sessions !! code) eqn:Hc; simpl; [done|].
    by rewrite delete_id. }
  split_and!; [| done | |].
  - unfold end_session. destruct (sessions !! code) eqn:Hc; cbn [fst]; symmetry.
    + by apply bool_decide_eq_true_2.
    + apply bool_decide_eq_false_2. by intros [??].
  - rewrite Hd. unfold end_session. by rewrite lookup_delete_eq.
  - intros now. rewrite Hd. unfold get_session. by rewrite lookup_delete_eq.
Qed.

(** X2: a participant who joins a session under a connection id that was
    not yet in it, and then leaves, leaves the registry exactly as it was. *)
Theorem join_then_leave_restores_registry rnd code sid nm now (sessions : registry) s :
  sessions !! code = Some s →
  students s !! sid = None →
  ∃ sd sessions',
    add_student_to_session rnd code sid nm now sessions = (Some sd, sessions')
    ∧ (∃ s', sessions' !! code = Some s' ∧ students s' !! sid = Some sd
             ∧ size (students s') = S (size (students s)))
    ∧ remove_student_from_session code sid sessions' = (true, sessions).
Proof.
  intros Hs Hsid. unfold add_student_to_session.
  destruct (get_anonymous_name rnd code sid sessions) as [index [emoji label]].
  rewrite Hs. do 2 eexists. split; [done|]. split.
  - eexists. rewrite lookup_insert_eq. split; [done|]. simpl.
    rewrite lookup_insert_eq. split; [done|]. by rewrite map_size_insert_None.
  - unfold remove_student_from_session. rewrite lookup_insert_eq. simpl.
    rewrite lookup_insert_eq. f_equal. rewrite insert_insert_eq.
    rewrite with_students_compose.
    rewrite (with_students_ext _ (λ m, m)) by (by apply delete_insert_id).
    rewrite with_students_id. by apply insert_id.
Qed.

Lemma used_indices_size (s : session) : (size (used_indices s) ≤ size (students s))%nat.
Proof.
  unfold used_indices. rewrite <- (length_map_to_list (students s)).
  induction (map_to_list (students s)) as [|kv l IH].
  - rewrite fmap_nil, list_to_set_nil, size_empty. done.
  - rewrite fmap_cons, list_to_set_cons, size_union_alt, size_singleton. cbn [length].
    assert (size (list_to_set ((λ kv, animal_index kv.2) <$> l)
                    ∖ {[animal_index kv.2]} : gset nat)
            ≤ size (list_to_set ((λ kv, animal_index kv.2) <$> l) : gset nat))%nat
      by (apply subseteq_size; intros x [? _]%elem_of_difference; done).
    lia.
Qed.

(** With fewer than 28 participants some catalogue index is free. *)
Lemma first_free_is_Some (s : session) :
  (size (students s) < 28)%nat → is_Some (first_free (used_indices s)).
Proof.
  intros Hlt. destruct (first_free (used_indices s)) as [i|] eqn:Hf; [by eexists|].
  exfalso. pose proof (proj1 (first_free_None _) Hf) as Hall.
  assert (set_seq 0 28 ⊆ used_indices s) as Hsub.
  { intros i [_ Hi]%elem_of_set_seq. apply Hall. simpl in *. lia. }
  apply subseteq_size in Hsub. rewrite size_set_seq in Hsub.
  pose proof (used_indices_size s). lia.
Qed.

Lemma add_student_to_session_sections rnd code sid nm now (sessions : registry) :
  add_student_to_session rnd code sid nm now sessions
  = store_student (get_anonymous_name rnd code sid sessions) code sid nm now sessions.
Proof. done. Qed.

Lemma distinct_identities_NoDup (s : session) :
  NoDup ((λ kv, animal_index kv.2) <$> map_to_list (students s)) → distinct_identities s.
Proof.
  intros Hnd sid1 sid2 sd1 sd2 H1%elem_of_map_to_list H2%elem_of_map_to_list Heq.
  revert Hnd H1 H2. induction (map_to_list (students s)) as [|kv l IH]; intros Hnd H1 H2.
  - by apply elem_of_nil in H1.
  - rewrite fmap_cons in Hnd. apply NoDup_cons in Hnd as [Hkv Hnd].
    apply elem_of_cons in H1 as [H1|H1], H2 as [H2|H2]; simplify_eq/=.
    + done.
    + exfalso. apply Hkv, list_elem_of_fmap. exists (sid2, sd2). by rewrite Heq.
    + exfalso. apply Hkv, list_elem_of_fmap. exists (sid1, sd1). done.
    + by apply IH.
Qed.

(** X3: in a session with fewer than 28 participants whose catalogue
    indices are pairwise distinct, a join that runs from its allocation to
    its store without another join of that session in between stores a
    record with a catalogue index below 28 that no participant holds, with
    the matching emoji and label, and the indices stay pairwise distinct.
    Allocation and store are two critical sections: a second join that
    allocates before the first has stored is given the same identity, and
    after both stores two participants hold the same index. *)
Theorem join_keeps_identities_distinct rnd code sid nm now (sessions : registry) s :
  sessions !! code = Some s →
  (size (students s) < 28)%nat →
  distinct_identities s →
  (∃ sd s',
     add_student_to_session rnd code sid nm now sessions
     = (Some sd, <[code := s']> sessions)
     ∧ students s' = <[sid := sd]> (students s)
     ∧ ANONYMOUS_ANIMALS !! animal_index sd = Some (animal_emoji sd, animal_name sd)
     ∧ anonymous_id sd = animal_emoji sd +:+ " " +:+ animal_name sd
     ∧ (∀ sid' sd', students s !! sid' = Some sd' → animal_index sd' ≠ animal_index sd)
     ∧ distinct_identities s')
  ∧ (∀ rnd2 sid2 nm2 now2, sid2 ≠ sid →
       get_anonymous_name rnd2 code sid2 sessions = get_anonymous_name rnd code sid sessions
       ∧ ∃ sd1 sd2 s'',
           store_student (get_anonymous_name rnd2 code sid2 sessions) code sid2 nm2 now2
             (store_student (get_anonymous_name rnd code sid sessions) code sid nm now
                sessions).2
           = (Some sd2, <[code := s'']> sessions)
           ∧ students s'' !! sid = Some sd1
           ∧ students s'' !! sid2 = Some sd2
           ∧ animal_index sd1 = animal_index sd2
           ∧ ¬ distinct_identities s'').
Proof.
  intros Hs Hlt Hdist.
  destruct (first_free_is_Some s Hlt) as [i Hi].
  pose proof (proj1 (first_free_Some _ _) Hi) as (Hi28 & Hfree & _).
  destruct (lookup_lt_is_Some_2 ANONYMOUS_ANIMALS i Hi28) as [[emoji label] He].
  assert (∀ r c, get_anonymous_name r code c sessions = (i, (emoji, label))) as Hname.
  { intros r c. unfold get_anonymous_name. rewrite Hs, Hi.
    by rewrite (list_lookup_total_correct _ _ _ He). }
  split.
  - unfold add_student_to_session. rewrite Hname, Hs.
    assert (∀ sid' sd', students s !! sid' = Some sd' → animal_index sd' ≠ i) as Hnew.
    { intros sid' sd' Hsd' Heq. apply Hfree, elem_of_used_indices. eauto. }
    do 2 eexists. split; [done|]. cbn [students with_students animal_index animal_emoji
                                      animal_name anonymous_id].
    split_and!; [done | done | done | done |].
    intros sid1 sid2 sd1 sd2. cbn [students with_students].
    rewrite !lookup_insert. repeat case_decide; subst; intros; simplify_eq; try done.
    + exfalso. by eapply Hnew.
    + exfalso. by eapply Hnew.
    + by eapply Hdist.
  - intros rnd2 sid2 nm2 now2 Hne. rewrite !Hname. split; [done|].
    unfold store_student. rewrite Hs. cbn [snd]. rewrite lookup_insert_eq.
    do 3 eexists. rewrite insert_insert_eq. split; [done|].
    cbn [students with_students]. rewrite lookup_insert_ne by done.
    rewrite !lookup_insert_eq. split_and!; [done | done | done |].
    intros Hd. apply Hne. symmetry. eapply Hd; [| |].
    + cbn [students with_students]. rewrite lookup_insert_ne by done. apply lookup_insert_eq.
    + cbn [students with_students]. apply lookup_insert_eq.
    + done.
Qed.

(** Two joins of a session with the indices 0, 1 and 3 taken, both
    allocating before either stores: both are the lion. *)
Example interleaved_joins_share_an_identity :
  let sessions := classroom [0; 1; 3]%nat in
  let a1 := get_anonymous_name 30 "ABC234" "student-7" sessions in
  let a2 := get_anonymous_name 31 "ABC234" "student-8" sessions in
  a1 = (2%nat, ("🦁", "Löwe")) ∧ a2 = (2%nat, ("🦁", "Löwe"))
  ∧ animal_index <$>
      (store_student a2 "ABC234" "student-8" "Ben" 7
         (store_student a1 "ABC234" "student-7" "Mia" 6 sessions).2).1 = Some 2%nat.
Proof. vm_compute. done. Qed.

(** X4: a sweep whose logging returns removes exactly the sessions a
    lookup at the same instant would refuse: lookups at that instant give
    the same session before and after the sweep, and sweeping again at that
    instant changes nothing. *)
Theorem sweep_agrees_with_lookup log stamp now code (sessions : registry) :
  (∀ msg, log msg = None) →
  get_session code now (cleanup_expired_sessions log stamp now sessions).1
  = ((get_session code now sessions).1, (cleanup_expired_sessions log stamp now sessions).1)
  ∧ (∀ c s, (cleanup_expired_sessions log stamp now sessions).1 !! c = Some s
            ↔ (get_session c now sessions).1 = Some s)
  ∧ (∀ stamp', cleanup_expired_sessions log stamp' now
                 (cleanup_expired_sessions log stamp now sessions).1
               = ((cleanup_expired_sessions log stamp now sessions).1, None)).
Proof.
  intros Hlog. rewrite !cleanup_expired_sessions_returns by done. cbn [fst].
  assert (∀ c s, filter (λ kv, now < expires kv.2) sessions !! c = Some s
                 ↔ (get_session c now sessions).1 = Some s) as Hiff.
  { intros c s. rewrite map_lookup_filter_Some. simpl.
    destruct (get_session_specP c now sessions) as [s' Hs' ?|s' Hs' ?|Hs']; simpl;
      split; intros; destruct_and?; simplify_eq; try done; lia. }
  split_and!; [| done |].
  - unfold get_session at 1.
    destruct (filter _ sessions !! code) as [s|] eqn:Hf.
    + pose proof (proj1 (Hiff _ _) Hf) as ->.
      apply map_lookup_filter_Some in Hf as [_ Hlive]. simpl in Hlive.
      by rewrite bool_decide_eq_true_2.
    + destruct ((get_session code now sessions).1) as [s|] eqn:Hg; [|done].
      apply Hiff in Hg. congruence.
  - intros stamp'. rewrite cleanup_expired_sessions_returns by done.
    f_equal. apply map_filter_id. intros c s [_ ?]%map_lookup_filter_Some. done.
Qed.

Lemma get_session_live_eq code now (sessions : registry) s :
  sessions !! code = Some s → now < expires s →
  get_session code now sessions = (Some s, sessions).
Proof. intros Hs Hnow. unfold get_session. rewrite Hs. by rewrite bool_decide_eq_true_2. Qed.

Lemma with_students_delete_absent sid (s : session) :
  students s !! sid = None → with_students (delete sid) s = s.
Proof.
  intros Hsid. rewrite (with_students_ext _ (λ m, m)) by (by apply delete_id).
  apply with_students_id.
Qed.

Lemma omap_nil_pointwise {A B} (f : A → option B) (l : list A) :
  (∀ x, x ∈ l → f x = None) → omap f l = [].
Proof.
  induction l as [|x l IH]; intros Hf; [done|]. csimpl.
  rewrite (Hf x) by left. apply IH. intros y Hy. apply Hf. by right.
Qed.

(** The items selected by [omap], with what each gives. *)
Lemma omap_Forall2_filter {A B} (f : A → option B) (l : list A) :
  Forall2 (λ x y, x ∈ l ∧ f x = Some y) (filter (λ x, is_Some (f x)) l) (omap f l).
Proof.
  induction l as [|x l IH]; [constructor|]. csimpl.
  assert (Forall2 (λ x0 y, x0 ∈ x :: l ∧ f x0 = Some y)
            (filter (λ x0, is_Some (f x0)) l) (omap f l)) as IH'.
  { eapply Forall2_impl; [exact IH|]. intros x0 y [? ?]. split; [by right | done]. }
  destruct (f x) as [y|] eqn:Hx.
  - rewrite filter_cons_True by (by rewrite Hx). constructor; [|done]. split; [by left | done].
  - rewrite filter_cons_False by (rewrite Hx; by intros [??]). done.
Qed.

(** X5: a disconnect removes the connection from the participants of every
    session and changes nothing else: no session is removed and no other
    field changes, so a session whose owner disconnects stays, with its
    owner still recorded.  It sends exactly one [student_left], with the
    remaining head count, to the attached owner of each session the
    connection was a participant of, in the order in which these sessions
    were inserted, and nothing else; a second disconnect does nothing. *)
Theorem disconnect_removes_connection stamp sid (sessions : registry) :
  (∀ c, (handle_disconnect stamp sid sessions).1 !! c
        = with_students (delete sid) <$> sessions !! c)
  ∧ (∃ codes,
       NoDup codes
       ∧ StronglySorted (λ c1 c2, (stamp c1 ≤ stamp c2)%nat) codes
       ∧ (∀ c, c ∈ codes ↔ ∃ s, sessions !! c = Some s ∧ is_Some (students s !! sid)
                                  ∧ is_Some (attached_owner s))
       ∧ Forall2 (λ c o, ∃ s t, sessions !! c = Some s ∧ attached_owner s = Some t
                          ∧ o = EmitRoom "student_left"
                                  (JObj [("count", jnat (size (delete sid (students s))))]) t)
           codes (handle_disconnect stamp sid sessions).2)
  ∧ (∀ stamp', handle_disconnect stamp' sid (handle_disconnect stamp sid sessions).1
               = ((handle_disconnect stamp sid sessions).1, [])).
Proof.
  assert (∀ c, (handle_disconnect stamp sid sessions).1 !! c
               = with_students (delete sid) <$> sessions !! c) as Hlookup.
  { intros c. unfold handle_disconnect. cbn [fst]. rewrite lookup_fmap.
    destruct (sessions !! c) as [s|]; simpl; [|done].
    destruct (students s !! sid) eqn:Hsid; [done|].
    by rewrite with_students_delete_absent. }
  split_and!; [done | |].
  - unfold handle_disconnect. cbn [snd].
    set (f := λ kv : string * session,
                match students kv.2 !! sid with
                | Some _ =>
                    (λ t, EmitRoom "student_left"
                            (JObj [("count", jnat (size (delete sid (students kv.2))))]) t)
                    <$> attached_owner kv.2
                | None => None
                end).
    exists (filter (λ kv, is_Some (f kv)) (sessions_items stamp sessions)).*1.
    split_and!.
    + eapply NoDup_fmap_fst; [|].
      * intros c s1 s2 [_ H1%elem_of_sessions_items]%list_elem_of_filter
                       [_ H2%elem_of_sessions_items]%list_elem_of_filter. congruence.
      * apply NoDup_filter. apply (NoDup_fmap_1 fst). rewrite sessions_items_keys.
        apply sessions_keys_NoDup.
    + pose proof (sessions_keys_sorted stamp sessions) as Hsorted.
      rewrite <- sessions_items_keys in Hsorted.
      induction (sessions_items stamp sessions) as [|kv l IH]; [constructor|].
      rewrite fmap_cons in Hsorted. apply StronglySorted_inv in Hsorted as [Hl Hkv].
      destruct (decide (is_Some (f kv))).
      * rewrite filter_cons_True by done. rewrite fmap_cons. constructor; [by apply IH|].
        apply Forall_forall. intros c ([c' s'] & -> & [_ Hin]%list_elem_of_filter)%list_elem_of_fmap.
        rewrite Forall_forall in Hkv. apply (Hkv c'). apply list_elem_of_fmap. by exists (c', s').
      * rewrite filter_cons_False by done. by apply IH.
    + intros c. rewrite list_elem_of_fmap. split.
      * intros ([c' s] & -> & [Hf Hin%elem_of_sessions_items]%list_elem_of_filter).
        exists s. split; [done|]. unfold f in Hf. simpl in *.
        destruct (students s !! sid); [|by destruct Hf].
        split; [by eexists|]. destruct (attached_owner s); [by eexists | by destruct Hf].
      * intros (s & Hs & [sd Hsd] & [t Ht]). exists (c, s). split; [done|].
        apply list_elem_of_filter. split; [|by apply elem_of_sessions_items].
        unfold f. simpl. rewrite Hsd, Ht. by eexists.
    + rewrite Forall2_fmap_l.
      eapply Forall2_impl; [apply omap_Forall2_filter|].
      intros [c s] o [Hin%elem_of_sessions_items Hf]. unfold f in Hf. simpl in *.
      destruct (students s !! sid); [|done].
      destruct (attached_owner s) as [t|] eqn:Ht; [|done]. simplify_eq/=. eauto.
  - intros stamp'. unfold handle_disconnect at 1. f_equal.
    + apply map_eq. intros c. rewrite lookup_fmap, Hlookup.
      destruct (sessions !! c) as [s|]; simpl; [|done].
      by rewrite lookup_delete_eq.
    + apply omap_nil_pointwise. intros [c s] Hin%elem_of_sessions_items. simpl.
      rewrite Hlookup in Hin. destruct (sessions !! c) as [s0|]; simplify_eq/=.
      by rewrite lookup_delete_eq.
Qed.

(** The owner of the session inserted first is told first, whatever the
    order of the codes. *)
Example disconnect_in_insertion_order :
  (handle_disconnect class_stamps "student-7" two_classes).2
  = [EmitRoom "student_left" (JObj [("count", JNum 0)]) "teacher-2";
     EmitRoom "student_left" (JObj [("count", JNum 1)]) "teacher-1"]
  ∧ (map_to_list two_classes).*1 = ["ABC234"; "ZZZ222"].
Proof. split; vm_compute; reflexivity. Qed.

(** X6: a participant who joins after the text was set and the owner pushed
    settings and released tasks gets that text, those settings and those
    tasks in the join response. *)
Theorem late_joiner_gets_snapshot upper_strip rnd code owner sid (sessions : registry) s
    d_text d_settings d_tasks d_join n1 n2 n3 n4 :
  sessions !! code = Some s →
  teacher_sid s = Some owner →
  request_code upper_strip d_text = code →
  request_code upper_strip d_settings = code →
  request_code upper_strip d_tasks = code →
  request_code upper_strip d_join = code →
  n1 < expires s → n2 < expires s → n3 < expires s →
  ∃ sessions' out anon emoji label,
    run upper_strip
      [ApiSetSessionText d_text;
       TeacherUpdateSettings d_settings owner n1;
       TeacherReleaseTasks d_tasks owner n2;
       StudentJoinSession rnd d_join sid n3 n4] sessions = Some (sessions', out)
    ∧ Emit "join_success"
        (JObj [("code", JStr code);
               ("text", JStr (get_str d_text "text" ""));
               ("settings", get_json d_settings "settings" (JObj []));
               ("tasks_available", JBool true);
               ("tasks", get_json d_tasks "tasks" (JList []));
               ("anonymous_id", JStr anon);
               ("animal_emoji", JStr emoji);
               ("animal_name", JStr label);
               ("simplification_enabled", JBool (simplification_enabled s))]) ∈ out.
Proof.
  intros Hs Howner <- Hc2 Hc3 Hc4 Hn1 Hn2 Hn3.
  cbn [run handle]. unfold api_set_session_text. rewrite Hs. cbn [mbind option_bind].
  unfold handle_teacher_update_settings. rewrite Hc2.
  erewrite get_session_live_eq; [| apply lookup_insert_eq | done].
  cbn [is_owner teacher_sid with_text]. rewrite bool_decide_eq_true_2 by done.
  cbn [mbind option_bind]. rewrite alter_insert_eq.
  unfold handle_teacher_release_tasks. rewrite Hc3.
  erewrite get_session_live_eq; [| apply lookup_insert_eq | done].
  cbn [is_owner teacher_sid with_text with_settings]. rewrite bool_decide_eq_true_2 by done.
  cbn [mbind option_bind]. rewrite alter_insert_eq.
  unfold handle_student_join_session. rewrite Hc4.
  erewrite get_session_live_eq; [| apply lookup_insert_eq | done].
  unfold add_student_to_session.
  destruct (get_anonymous_name _ _ _ _) as [index [emoji label]].
  rewrite lookup_insert_eq. rewrite lookup_insert_eq.
  cbn [default text settings tasks tasks_available simplification_enabled with_students
       with_tasks with_settings with_text from_option anonymous_id animal_emoji
       animal_name mbind option_bind].
  do 5 eexists. split; [reflexivity|]. cbn [app].
  do 5 apply list_elem_of_further. apply list_elem_of_here.
Qed.

(** X7: when the owner approves a pending request on a live session with a
    text and an AI key, the outcome follows the provider call: on success
    the request becomes [approved] with the translated text, which is sent
    to the requesting connection only, and the owner gets a confirmation;
    on failure the registry is unchanged and only the owner gets an error. *)
Theorem approve_translation_outcome upper_strip reply data owner now
    (sessions : registry) s tr :
  sessions !! request_code upper_strip data = Some s →
  now < expires s →
  teacher_sid s = Some owner →
  translation_requests s !! get_str data "student_sid" "" = Some tr →
  truthy (text s) = true →
  truthy (ai (keys s)) = true →
  handle_teacher_approve_translation upper_strip reply data owner now sessions
  = match translate_text_with_ai reply (text s) (language tr) (ai (keys s))
            (ai_provider (keys s)) with
    | inl translated =>
        (<[request_code upper_strip data :=
             with_translation_requests
               <[get_str data "student_sid" "" := with_status "approved" (Some translated) tr]>
               s]> sessions,
         [EmitRoom "translation_approved"
            (JObj [("language", JStr (language tr));
                   ("language_name", JStr (language_display (language tr)));
                   ("translated_text", JStr translated);
                   ("layout", JStr (get_str data "layout" "side-by-side"))])
            (get_str data "student_sid" "");
          Emit "translation_sent"
            (JObj [("student_sid", JStr (get_str data "student_sid" ""));
                   ("anonymous_id", JStr (tr_anonymous_id tr));
                   ("success", JBool true)])])
    | inr e => (sessions, [Emit "session_error" (err ("Übersetzungsfehler: " +:+ e))])
    end.
Proof.
  intros Hs Hnow Howner Htr Htext Hkey. unfold handle_teacher_approve_translation.
  rewrite (get_session_live_eq _ _ _ _ Hs Hnow). rewrite bool_decide_eq_true_2 by done.
  rewrite Htr, Htext, Hkey. cbn [negb].
  destruct (translate_text_with_ai _ _ _ _ _) as [translated|e]; [|done].
  f_equal. apply map_eq. intros c. rewrite lookup_alter, lookup_insert.
  case_decide; subst; [|done]. rewrite Hs. cbn [fmap option_fmap option_map]. f_equal.
  unfold with_translation_requests. f_equal.
  apply map_eq. intros k. rewrite lookup_alter, lookup_insert.
  case_decide; subst; [|done]. by rewrite Htr.
Qed.

(** X8: a translation request on a live session records the request as
    [pending] under the requesting connection, replacing whatever record
    that connection had (also an approved or denied one), and leaves the
    records of the other connections alone. *)
Theorem translation_request_restarts_pending upper_strip data sid now now_requested
    (sessions : registry) s :
  sessions !! request_code upper_strip data = Some s →
  now < expires s →
  ∃ s',
    (handle_student_request_translation upper_strip data sid now now_requested sessions).1
    !! request_code upper_strip data = Some s'
    ∧ translation_requests s' !! sid
      = Some {| language := get_str data "language" "";
                language_name := language_display (get_str data "language" "");
                status := "pending";
                tr_anonymous_id := from_option anonymous_id "🐾 Gast" (students s !! sid);
                requested_at := now_requested;
                translated_text := None |}
    ∧ (∀ sid', sid' ≠ sid →
         translation_requests s' !! sid' = translation_requests s !! sid')
    ∧ students s' = students s ∧ text s' = text s ∧ keys s' = keys s
    ∧ teacher_sid s' = teacher_sid s.
Proof.
  intros Hs Hnow. unfold handle_student_request_translation.
  rewrite (get_session_live_eq _ _ _ _ Hs Hnow). cbn [fst].
  rewrite lookup_alter_eq, Hs. eexists. split; [done|].
  cbn [translation_requests with_translation_requests students text keys teacher_sid].
  rewrite lookup_insert_eq. split_and!; try done.
  intros sid' Hne. by rewrite lookup_insert_ne.
Qed.

(** X9: a session created over the HTTP route has no owner connection, so
    while it lives every owner-only socket event on it, from whatever
    connection, is answered with [session_error] and changes nothing. *)
Theorem http_created_session_has_no_owner upper_strip fuel rnd data nc ne
    (sessions sessions' : registry) out :
  api_create_session fuel rnd data nc ne sessions = Some (sessions', out) →
  truthy (get_str data "elevenlabs_key" "") = true →
  ∃ code s,
    out = [Respond 200 (JObj [("success", JBool true); ("code", JStr code);
                              ("expires", JTime (ne + timedelta_hours SESSION_TIMEOUT_HOURS))])]
    ∧ sessions !! code = None
    ∧ sessions' = <[code := s]> sessions
    ∧ teacher_sid s = None
    ∧ ∀ e d sid now,
        owner_request e = Some (d, sid, now) →
        request_code upper_strip d = code →
        now < expires s →
        ∃ msg, handle upper_strip e sessions'
               = Some (sessions', [Emit "session_error" (err msg)]).
Proof.
  unfold api_create_session. cbn [elevenlabs]. intros Hc Hkey. rewrite Hkey in Hc.
  cbn [negb] in Hc.
  destruct (create_session _ _ _ _ _ _ _ _) as [[code s']|] eqn:Hcreate; [|done].
  apply create_session_Some in Hcreate as (_ & Hnone & ->).
  cbn [mbind option_bind] in Hc. rewrite lookup_insert_eq in Hc. simplify_eq/=.
  do 2 eexists. split_and!; [done | done | done | done |].
  intros e d sid now He Hd Hnow.
  destruct e; simpl in He; simplify_eq; cbn [handle];
    unfold handle_teacher_end_session, handle_teacher_update_settings,
      handle_teacher_release_tasks, handle_teacher_approve_translation,
      handle_teacher_deny_translation, handle_teacher_toggle_simplification, is_owner;
    (erewrite get_session_live_eq; [| apply lookup_insert_eq | done]);
    cbn [teacher_sid new_session]; rewrite bool_decide_eq_false_2 by done;
    by eexists.
Qed.

(** X10: the connection that creates a session over the socket is its
    owner: the creation joins it to the room of the new code, and a settings
    push from it before the expiry is applied and broadcast to that room. *)
Theorem socket_creator_owns_session upper_strip fuel rnd data owner nc ne
    (sessions sessions' : registry) out :
  handle_teacher_create_session fuel rnd data owner nc ne sessions = Some (sessions', out) →
  truthy (get_str data "elevenlabs_key" "") = true →
  ∃ code s,
    out = [JoinRoom code;
           Emit "session_created"
             (JObj [("code", JStr code);
                    ("expires", JTime (ne + timedelta_hours SESSION_TIMEOUT_HOURS));
                    ("has_pin", JBool (truthy (get_str data "pin" "")))])]
    ∧ sessions !! code = None
    ∧ sessions' = <[code := s]> sessions
    ∧ teacher_sid s = Some owner
    ∧ ∀ d now,
        request_code upper_strip d = code →
        now < expires s →
        handle_teacher_update_settings upper_strip d owner now sessions'
        = (<[code := with_settings (get_json d "settings" (JObj [])) s]> sessions,
           [EmitRoom "settings_updated"
              (JObj [("settings", get_json d "settings" (JObj []))]) code]).
Proof.
  unfold handle_teacher_create_session. cbn [elevenlabs]. intros Hc Hkey.
  rewrite Hkey in Hc. cbn [negb] in Hc.
  destruct (create_session _ _ _ _ _ _ _ _) as [[code s']|] eqn:Hcreate; [|done].
  apply create_session_Some in Hcreate as (_ & Hnone & ->).
  cbn [mbind option_bind] in Hc. rewrite lookup_insert_eq in Hc. simplify_eq/=.
  do 2 eexists. split_and!; [done | done | done | done |].
  intros d now Hd Hnow. unfold handle_teacher_update_settings. rewrite Hd.
  erewrite get_session_live_eq; [| apply lookup_insert_eq | done].
  cbn [is_owner teacher_sid new_session]. rewrite bool_decide_eq_true_2 by done.
  by rewrite alter_insert_eq.
Qed.

(** * Further properties of the caches and the proxies *)

Section cache_content.
Context {V : Type}.
Implicit Types (c : list (string * V)).

Lemma od_get_app k c1 c2 :
  od_get k (c1 ++ c2) = match od_get k c1 with Some v => Some v | None => od_get k c2 end.
Proof. induction c1 as [|[k' v'] c1 IH]; simpl; [done|]. by case_decide. Qed.

Lemma od_get_remove_ne k k' c : k ≠ k' → od_get k' (od_remove k c) = od_get k' c.
Proof.
  intros Hne. unfold od_remove. induction c as [|[k0 v0] c IH]; simpl; [done|].
  destruct (decide (k0 = k)) as [->|Hk0].
  - rewrite filter_cons_False by (simpl; auto). by rewrite decide_False.
  - rewrite filter_cons_True by done. simpl. by rewrite IH.
Qed.

Lemma cache_add_is_Some max_size k (v : V) c :
  (0 < max_size)%nat → is_Some (cache_add max_size k v c).
Proof.
  intros Hmax. unfold cache_add. destruct (od_get k c); [by eexists|].
  case_bool_decide; [|by eexists]. destruct c; simpl in *; [lia | by eexists].
Qed.

Lemma cache_get_length k c : (length (cache_get k c).2 ≤ length c)%nat.
Proof.
  unfold cache_get, move_to_end. destruct (od_get k c) eqn:Hk; simpl; [|done].
  rewrite length_app. simpl. pose proof (od_remove_length_Some _ _ _ Hk). lia.
Qed.

Lemma cache_add_length max_size k (v : V) c c' :
  (0 < max_size)%nat → (length c ≤ max_size)%nat →
  cache_add max_size k v c = Some c' → (length c' ≤ max_size)%nat.
Proof.
  intros Hmax Hlen. unfold cache_add, move_to_end. destruct (od_get k c) eqn:Hk.
  - intros [= <-]. rewrite length_app. simpl.
    pose proof (od_remove_length_Some _ _ _ Hk). lia.
  - case_bool_decide.
    + destruct c as [|[h vh] rest]; simpl in *; [done|].
      assert (od_get k rest = None) as Hrest by (by case_decide).
      intros [= <-]. rewrite (od_set_new _ _ _ Hrest), length_app. simpl. lia.
    + intros [= <-]. rewrite (od_set_new _ _ _ Hk), length_app. simpl. lia.
Qed.

Lemma cache_get_value k c : (cache_get k c).1 = od_get k c.
Proof.
  destruct (od_get k c) as [v|] eqn:Hk; [by rewrite (cache_get_hit _ _ _ Hk)|].
  unfold cache_get. by rewrite Hk.
Qed.

Lemma cache_get_lookup k k' c : od_get k' (cache_get k c).2 = od_get k' c.
Proof.
  destruct (od_get k c) as [v|] eqn:Hk.
  - rewrite (cache_get_hit _ _ _ Hk). cbn [snd]. rewrite od_get_app.
    destruct (decide (k = k')) as [<-|Hne].
    + rewrite od_get_remove. simpl. by rewrite decide_True.
    + rewrite od_get_remove_ne by done. destruct (od_get k' c); [done|].
      simpl. by rewrite decide_False.
  - unfold cache_get. by rewrite Hk.
Qed.

(** X11: a get never changes what the cache holds: it returns the stored
    value, every key maps to the same value afterwards, a miss leaves the
    cache as it is, and the number of items does not grow. *)
Theorem cache_get_keeps_content k c :
  (cache_get k c).1 = od_get k c
  ∧ (∀ k', od_get k' (cache_get k c).2 = od_get k' c)
  ∧ (od_get k c = None → (cache_get k c).2 = c)
  ∧ (length (cache_get k c).2 ≤ length c)%nat.
Proof.
  split_and!; [apply cache_get_value | intros; apply cache_get_lookup | |
               apply cache_get_length].
  intros Hk. unfold cache_get. by rewrite Hk.
Qed.

Lemma cache_add_lookup max_size k (v : V) c c' :
  cache_add max_size k v c = Some c' → od_get k c' = Some (default v (od_get k c)).
Proof.
  unfold cache_add, move_to_end. destruct (od_get k c) as [v0|] eqn:Hk.
  - intros [= <-]. by rewrite od_get_app_new, od_get_remove.
  - case_bool_decide as Hfull.
    + destruct c as [|[h vh] rest]; simpl in *; [done|].
      assert (od_get k rest = None) as Hrest by (by case_decide).
      intros [= <-]. rewrite (od_set_new _ _ _ Hrest). by rewrite od_get_app_new, Hrest.
    + intros [= <-]. rewrite (od_set_new _ _ _ Hk). by rewrite od_get_app_new, Hk.
Qed.

(** X12: after a put that raises nothing, the key maps to the value it
    had before when it was present, and to the value put otherwise, and a
    get returns it; every other key keeps its value, except the key of the
    first item when the key put is new and the cache is full. *)
Theorem cache_add_then_get max_size k (v : V) c c' :
  cache_add max_size k v c = Some c' →
  od_get k c' = Some (default v (od_get k c))
  ∧ (cache_get k c').1 = Some (default v (od_get k c))
  ∧ ∀ k', k' ≠ k →
      od_get k' c' = od_get k' c
      ∨ (od_get k c = None ∧ (max_size ≤ length c)%nat ∧ ∃ v0 rest, c = (k', v0) :: rest).
Proof.
  intros Hadd.
  assert (od_get k c' = Some (default v (od_get k c))
          ∧ ∀ k', k' ≠ k →
              od_get k' c' = od_get k' c
              ∨ (od_get k c = None ∧ (max_size ≤ length c)%nat
                 ∧ ∃ v0 rest, c = (k', v0) :: rest)) as [Hk Hother].
  { revert Hadd. unfold cache_add, move_to_end. destruct (od_get k c) as [v0|] eqn:Hk.
    - intros [= <-]. split.
      + by rewrite od_get_app_new, od_get_remove.
      + intros k' Hne. left. rewrite od_get_app, od_get_remove_ne by done.
        destruct (od_get k' c); [done|]. simpl. by rewrite decide_False.
    - case_bool_decide as Hfull.
      + destruct c as [|[h vh] rest]; simpl in *; [done|].
        assert (od_get k rest = None) as Hrest by (by case_decide).
        intros [= <-]. rewrite (od_set_new _ _ _ Hrest). split.
        * by rewrite od_get_app_new, Hrest.
        * intros k' Hne. rewrite od_get_app.
          destruct (decide (h = k')) as [->|Hh]; [right; eauto|].
          left. destruct (od_get k' rest); [done|]. simpl. by rewrite decide_False.
      + intros [= <-]. rewrite (od_set_new _ _ _ Hk). split.
        * by rewrite od_get_app_new, Hk.
        * intros k' Hne. left. rewrite od_get_app.
          destruct (od_get k' c); [done|]. simpl. by rewrite decide_False. }
  split_and!; [done | | done].
  by rewrite cache_get_value.
Qed.
End cache_content.

(** How long an item stays: every operation puts at most one more item
    behind it, and only the first item is ever removed. *)
Section cache_survival.
Context {V : Type}.
Implicit Types (c : list (string * V)).

Lemma kept_od_get key (v : V) n c : kept key v n c → od_get key c = Some v.
Proof.
  intros (l1 & l2 & -> & Hl1 & _). rewrite od_get_app, Hl1. simpl. by rewrite decide_True.
Qed.

Lemma kept_mono key (v : V) n m c : (n ≤ m)%nat → kept key v n c → kept key v m c.
Proof. intros Hnm (l1 & l2 & -> & Hl1 & Hl2). exists l1, l2. split_and!; [done | done | lia]. Qed.

Lemma kept_append key (v : V) n c k' v' :
  kept key v n c → kept key v (S n) (c ++ [(k', v')]).
Proof.
  intros (l1 & l2 & -> & Hl1 & Hl2). exists l1, (l2 ++ [(k', v')]).
  rewrite <- app_assoc, length_app. simpl. split_and!; [done | done | lia].
Qed.

Lemma kept_move_to_end key (v : V) n c k' :
  kept key v n c → kept key v (S n) (move_to_end k' c).
Proof.
  intros Hkept. unfold move_to_end. destruct (od_get k' c) as [v'|] eqn:Hk';
    [|eapply kept_mono; [|done]; lia].
  destruct (decide (k' = key)) as [->|Hne].
  - rewrite (kept_od_get _ _ _ _ Hkept) in Hk'. simplify_eq.
    exists (od_remove key c), []. split_and!; [done | apply od_get_remove | simpl; lia].
  - destruct Hkept as (l1 & l2 & -> & Hl1 & Hl2).
    exists (od_remove k' l1), (od_remove k' l2 ++ [(k', v')]). split_and!.
    + unfold od_remove. rewrite filter_app, filter_cons_True by (simpl; congruence).
      by rewrite <- app_assoc.
    + by rewrite od_get_remove_ne.
    + rewrite length_app. simpl. pose proof (od_remove_length k' l2). lia.
Qed.

Lemma kept_cache_get key (v : V) n c k' :
  kept key v n c → kept key v (S n) (cache_get k' c).2.
Proof.
  intros Hkept. unfold cache_get. destruct (od_get k' c) eqn:Hk'; cbn [snd].
  - by apply kept_move_to_end.
  - eapply kept_mono; [|done]; lia.
Qed.

Lemma kept_cache_add key (v : V) n c max_size k' v' c' :
  kept key v n c → (S n < max_size)%nat →
  cache_add max_size k' v' c = Some c' → kept key v (S n) c'.
Proof.
  intros Hkept Hn. unfold cache_add. destruct (od_get k' c) as [v0|] eqn:Hk'.
  - intros [= <-]. by apply kept_move_to_end.
  - case_bool_decide as Hfull.
    + destruct Hkept as (l1 & l2 & -> & Hl1 & Hl2).
      destruct l1 as [|[h vh] l1].
      { simpl in Hfull. lia. }
      simpl. simpl in Hk', Hl1.
      destruct (decide (h = k')); [done|]. destruct (decide (h = key)); [done|].
      intros [= <-]. rewrite (od_set_new _ _ _ Hk').
      apply kept_append. exists l1, l2. done.
    + intros [= <-]. rewrite (od_set_new _ _ _ Hk'). by apply kept_append.
Qed.

(** A put that follows a get of the same key leaves what one of the two
    alone would leave. *)
Lemma cache_add_after_get max_size k (v : V) c c' :
  cache_add max_size k v (cache_get k c).2 = Some c' →
  c' = (cache_get k c).2 ∨ cache_add max_size k v c = Some c'.
Proof.
  destruct (od_get k c) as [v0|] eqn:Hk.
  - rewrite (cache_get_hit _ _ _ Hk). cbn [snd]. intros Hadd. left.
    assert (od_get k (od_remove k c ++ [(k, v0)]) = Some v0) as Hget
      by (by rewrite od_get_app_new, od_get_remove).
    rewrite (cache_add_hit _ _ _ _ _ Hget) in Hadd. simplify_eq.
    unfold od_remove at 1. rewrite filter_app, filter_cons_False, filter_nil by (simpl; auto).
    rewrite app_nil_r. fold (od_remove k (od_remove k c)).
    by rewrite (od_get_None_remove _ _ (od_get_remove k c)).
  - unfold cache_get. rewrite Hk. cbn [snd]. by right.
Qed.
(** A put of a key leaves it the last item. *)
Lemma cache_add_kept max_size k (v : V) c c' :
  cache_add max_size k v c = Some c' → kept k (default v (od_get k c)) 0 c'.
Proof.
  unfold cache_add, move_to_end. destruct (od_get k c) as [v0|] eqn:Hk.
  - intros [= <-]. exists (od_remove k c), []. split_and!; [done | apply od_get_remove | done].
  - case_bool_decide as Hfull.
    + destruct c as [|[h vh] rest]; simpl in *; [done|].
      assert (od_get k rest = None) as Hrest by (by case_decide).
      intros [= <-]. rewrite (od_set_new _ _ _ Hrest). by exists rest, [].
    + intros [= <-]. rewrite (od_set_new _ _ _ Hk). by exists c, [].
Qed.

End cache_survival.

Section proxy_properties.
Variables (upper strip md5_hex : string → string).

Lemma get_from_translation_cache_hit k v (c : list (string * string)) :
  od_get k c = Some v →
  get_from_translation_cache k c = (Some v, od_remove k c ++ [(k, v)]).
Proof. apply cache_get_hit. Qed.

(** X13: [proxy_translate] sends at most one provider request, and only
    for a non-empty text with a target other than German, credentials with
    a non-empty key and a supported provider, and no non-empty cached
    translation; the request carries that key, and the text as sent in. *)
Theorem translate_calls_provider_only_on_miss call_result data now
    (sessions : registry) cache :
  (proxy_translate upper strip md5_hex call_result data now sessions cache).1.2 = []
  ∨ ∃ api_key provider,
      (proxy_translate upper strip md5_hex call_result data now sessions cache).1.2
      = [TextCall provider api_key
           (translate_system_prompt (get_str data "target_language" "de"))
           (get_str data "text" "")]
      ∧ truthy (get_str data "text" "") = true
      ∧ get_str data "target_language" "de" ≠ "de"
      ∧ (translate_credentials upper strip data now sessions).1 = Some (api_key, provider)
      ∧ truthy api_key = true
      ∧ (provider = "openai" ∨ provider = "anthropic" ∨ provider = "google")
      ∧ from_option truthy false
          (od_get (get_translation_cache_key md5_hex (get_str data "text" "")
                     (get_str data "target_language" "de")) cache) = false.
Proof.
  unfold proxy_translate.
  destruct (truthy (get_str data "text" "")) eqn:Htext; cbn [negb]; [|by left].
  case_bool_decide as Hde; [by left|].
  destruct (translate_credentials upper strip data now sessions)
    as [[[api_key provider]|] sessions'] eqn:Hcred; [|by left].
  destruct (truthy api_key) eqn:Hkey; cbn [negb]; [|by left].
  unfold get_from_translation_cache.
  destruct (cache_get _ cache) as [cached cache'] eqn:Hget.
  assert (cached = od_get (get_translation_cache_key md5_hex (get_str data "text" "")
                             (get_str data "target_language" "de")) cache) as Hcached
    by (rewrite <- cache_get_value; by rewrite Hget).
  destruct (from_option truthy false cached) eqn:Hserved; [by left|].
  case_bool_decide as Hprov; [|by left].
  right. exists api_key, provider. rewrite <- Hcached.
  split_and!; try done.
  destruct call_result as [result|e]; [|done].
  by destruct (add_to_translation_cache _ _ _).
Qed.

Lemma proxy_translate_kept key v n call_result data now (sessions : registry) cache :
  kept key v n cache → (S n < MAX_TRANSLATION_CACHE_SIZE)%nat →
  kept key v (S n)
    (proxy_translate upper strip md5_hex call_result data now sessions cache).1.1.2.
Proof.
  intros Hkept Hn.
  assert (kept key v (S n) cache) as Hsame by (eapply kept_mono; [|done]; lia).
  unfold proxy_translate.
  destruct (truthy (get_str data "text" "")); cbn [negb]; [|done].
  case_bool_decide; [done|].
  destruct (translate_credentials upper strip data now sessions)
    as [[[api_key provider]|] sessions']; [|done].
  destruct (truthy api_key); cbn [negb]; [|done].
  unfold get_from_translation_cache, add_to_translation_cache.
  set (cache_key := get_translation_cache_key md5_hex _ _).
  pose proof (kept_cache_get key v n cache cache_key Hkept) as Hget.
  pose proof (λ x c', cache_add_after_get MAX_TRANSLATION_CACHE_SIZE cache_key x cache c')
    as Hadd.
  destruct (cache_get cache_key cache) as [cached cache']. cbn [snd] in Hget, Hadd.
  destruct (from_option truthy false cached); [done|].
  case_bool_decide; [|done].
  destruct call_result as [result|describe]; [|done].
  destruct (cache_add _ _ _ cache') as [cache''|] eqn:Hc; [|done]. cbn [fst snd].
  destruct (Hadd _ _ Hc) as [->|Hc']; [done|]. by eapply kept_cache_add.
Qed.

Lemma proxy_tts_kept key v n reply data now (sessions : registry) cache :
  kept key v n cache → (S n < MAX_CACHE_SIZE)%nat →
  kept key v (S n) (proxy_tts upper strip md5_hex reply data now sessions cache).1.1.2.
Proof.
  intros Hkept Hn.
  assert (kept key v (S n) cache) as Hsame by (eapply kept_mono; [|done]; lia).
  unfold proxy_tts.
  destruct (truthy (get_str data "text" "")); cbn [negb]; [|done].
  destruct (tts_credentials upper strip data now sessions)
    as [[[api_key voice]|] sessions']; [|done].
  destruct (_ && _); [done|].
  unfold get_from_cache, add_to_cache.
  set (cache_key := get_cache_key md5_hex _ _).
  pose proof (kept_cache_get key v n cache cache_key Hkept) as Hget.
  pose proof (λ x c', cache_add_after_get MAX_CACHE_SIZE cache_key x cache c') as Hadd.
  destruct (cache_get cache_key cache) as [cached cache']. cbn [snd] in Hget, Hadd.
  destruct (from_option json_truthy false cached); [done|].
  destruct reply as [response_data| | |]; try done.
  destruct (cache_add _ _ _ cache') as [cache''|] eqn:Hc; [|done]. cbn [fst snd].
  destruct (Hadd _ _ Hc) as [->|Hc']; [done|]. by eapply kept_cache_add.
Qed.

Lemma proxy_step_translation_cache e (w : world) :
  w_translation_cache (proxy_step upper strip md5_hex e w)
  = match e with
    | Translate call_result data now =>
        (proxy_translate upper strip md5_hex call_result data now
           (w_sessions w) (w_translation_cache w)).1.1.2
    | Tts _ _ _ => w_translation_cache w
    end.
Proof.
  destruct e; cbn [proxy_step].
  - by destruct (proxy_translate _ _ _ _ _ _ _ _) as [[[??]?]?].
  - by destruct (proxy_tts _ _ _ _ _ _ _ _) as [[[??]?]?].
Qed.

Lemma proxy_step_tts_cache e (w : world) :
  w_tts_cache (proxy_step upper strip md5_hex e w)
  = match e with
    | Translate _ _ _ => w_tts_cache w
    | Tts reply data now =>
        (proxy_tts upper strip md5_hex reply data now (w_sessions w) (w_tts_cache w)).1.1.2
    end.
Proof.
  destruct e; cbn [proxy_step].
  - by destruct (proxy_translate _ _ _ _ _ _ _ _) as [[[??]?]?].
  - by destruct (proxy_tts _ _ _ _ _ _ _ _) as [[[??]?]?].
Qed.

Lemma proxy_steps_kept_translation key v es n (w : world) :
  kept key v n (w_translation_cache w) →
  (n + length es < MAX_TRANSLATION_CACHE_SIZE)%nat →
  kept key v (n + length es)
    (w_translation_cache (foldl (λ w e, proxy_step upper strip md5_hex e w) w es)).
Proof.
  revert n w. induction es as [|e es IH]; intros n w Hkept Hn; cbn [foldl length] in *.
  - by rewrite Nat.add_0_r.
  - replace (n + S (length es))%nat with (S n + length es)%nat by lia.
    apply IH; [|lia]. rewrite proxy_step_translation_cache. destruct e.
    + apply proxy_translate_kept; [done | lia].
    + eapply kept_mono; [|done]; lia.
Qed.

Lemma proxy_steps_kept_tts key v es n (w : world) :
  kept key v n (w_tts_cache w) →
  (n + length es < MAX_CACHE_SIZE)%nat →
  kept key v (n + length es)
    (w_tts_cache (foldl (λ w e, proxy_step upper strip md5_hex e w) w es)).
Proof.
  revert n w. induction es as [|e es IH]; intros n w Hkept Hn; cbn [foldl length] in *.
  - by rewrite Nat.add_0_r.
  - replace (n + S (length es))%nat with (S n + length es)%nat by lia.
    apply IH; [|lia]. rewrite proxy_step_tts_cache. destruct e.
    + eapply kept_mono; [|done]; lia.
    + apply proxy_tts_kept; [done | lia].
Qed.


(** X15: a failed provider call leaves every key of the translation cache
    with the value it had, and the route answers 500 with the text of the
    failure for the request it sent. *)
Theorem translate_failure_keeps_cache describe data now (sessions : registry) cache :
  let r := proxy_translate upper strip md5_hex (inr describe) data now sessions cache in
  (∀ k, od_get k r.1.1.2 = od_get k cache)
  ∧ (r.1.2 ≠ [] → ∃ call, r.1.2 = [call] ∧ r.2 = (500%nat, err (describe call))).
Proof.
  intros r. subst r. unfold proxy_translate.
  destruct (truthy (get_str data "text" "")); cbn [negb]; [|done].
  case_bool_decide; [done|].
  destruct (translate_credentials upper strip data now sessions)
    as [[[api_key provider]|] sessions']; [|done].
  destruct (truthy api_key); cbn [negb]; [|done].
  unfold get_from_translation_cache.
  pose proof (λ k', cache_get_lookup
                      (get_translation_cache_key md5_hex (get_str data "text" "")
                         (get_str data "target_language" "de")) k' cache) as Hl.
  destruct (cache_get _ cache) as [cached cache']. cbn [snd] in Hl.
  destruct (from_option truthy false cached); [split; [intros; apply Hl | done]|].
  case_bool_decide; (split; [intros; apply Hl | try done]).
  intros _. by eexists.
Qed.

(** X16: an empty translation in the cache is never served and never
    replaced: a request for its text and language goes to the provider, is
    answered with the provider's text, and leaves the empty entry in place. *)
Theorem translate_empty_entry_is_never_served result data now (sessions : registry)
    cache api_key provider :
  let cache_key := get_translation_cache_key md5_hex (get_str data "text" "")
                     (get_str data "target_language" "de") in
  truthy (get_str data "text" "") = true →
  get_str data "target_language" "de" ≠ "de" →
  (translate_credentials upper strip data now sessions).1 = Some (api_key, provider) →
  truthy api_key = true →
  (provider = "openai" ∨ provider = "anthropic" ∨ provider = "google") →
  od_get cache_key cache = Some "" →
  (proxy_translate upper strip md5_hex (inl result) data now sessions cache).1.2
  = [TextCall provider api_key
       (translate_system_prompt (get_str data "target_language" "de"))
       (get_str data "text" "")]
  ∧ (proxy_translate upper strip md5_hex (inl result) data now sessions cache).2
    = (200%nat, JObj [("translated_text", JStr result)])
  ∧ od_get cache_key
      (proxy_translate upper strip md5_hex (inl result) data now sessions cache).1.1.2
    = Some "".
Proof.
  intros cache_key Htext Hde Hcred Hkey Hprov Hempty. unfold proxy_translate.
  rewrite Htext. cbn [negb]. rewrite bool_decide_eq_false_2 by done.
  destruct (translate_credentials upper strip data now sessions) as [cred sessions'].
  cbn [fst] in Hcred. subst cred. rewrite Hkey. cbn [negb].
  unfold get_from_translation_cache. fold cache_key.
  rewrite (cache_get_hit _ _ _ Hempty). cbn [from_option truthy negb String.eqb].
  rewrite bool_decide_eq_true_2 by done.
  unfold add_to_translation_cache.
  assert (od_get cache_key (od_remove cache_key cache ++ [(cache_key, "")]) = Some "")
    as Hget by (by rewrite od_get_app_new, od_get_remove).
  rewrite (cache_add_hit _ _ _ _ _ Hget). cbn [fst snd].
  split_and!; [done | done |]. by rewrite od_get_app_new, od_get_remove.
Qed.

Lemma get_str_insert_eq (data : request) k v default :
  get_str (<[k := JStr v]> data) k default = v.
Proof. unfold get_str. by rewrite lookup_insert_eq. Qed.

Lemma get_str_insert_ne (data : request) k k' j default :
  k ≠ k' → get_str (<[k := j]> data) k' default = get_str data k' default.
Proof. intros Hne. unfold get_str. by rewrite lookup_insert_ne. Qed.

(** X17: for speech synthesis Ukrainian and Bulgarian fall back to
    Russian: requests that differ only in a language code among uk, bg and
    ru get the same answer, send the same provider request and leave the
    same cache. *)
Theorem tts_language_fallback reply data now (sessions : registry) cache lang1 lang2 :
  lang1 ∈ ["uk"; "bg"; "ru"] → lang2 ∈ ["uk"; "bg"; "ru"] →
  proxy_tts upper strip md5_hex reply (<["language_code" := JStr lang1]> data) now
    sessions cache
  = proxy_tts upper strip md5_hex reply (<["language_code" := JStr lang2]> data) now
      sessions cache.
Proof.
  intros H1 H2.
  assert (∀ lang, lang ∈ ["uk"; "bg"; "ru"] →
            proxy_tts upper strip md5_hex reply (<["language_code" := JStr lang]> data) now
              sessions cache
            = proxy_tts upper strip md5_hex reply (<["language_code" := JStr "ru"]> data) now
                sessions cache) as Hru.
  { intros lang Hlang. unfold proxy_tts, tts_credentials.
    rewrite !get_str_insert_eq. rewrite !(get_str_insert_ne _ "language_code") by done.
    assert (default lang (od_get lang LANGUAGE_FALLBACKS)
            = default "ru" (od_get "ru" LANGUAGE_FALLBACKS)) as ->; [|done].
    rewrite !elem_of_cons in Hlang.
    destruct Hlang as [->|[->|[->|[]%elem_of_nil]]]; reflexivity. }
  by rewrite (Hru lang1), (Hru lang2).
Qed.

(** X18: once a synthesis request missed the cache and the provider
    answered 200 with a non-empty body, a request for the same text, voice
    and (fallen-back) language that comes after fewer than 500 further
    requests to the two proxies is answered with exactly that body from the
    cache, without a provider request. *)
Theorem tts_second_request_from_cache response_data data1 now1 es data2 now2 reply2
    (w : world) k1 k2 voice :
  let txt := get_str data1 "text" "" in
  let lang data := default (get_str data "language_code" "de")
                     (od_get (get_str data "language_code" "de") LANGUAGE_FALLBACKS) in
  let given data := truthy (strip (upper (get_str data "session_code" ""))) in
  let r1 := proxy_tts upper strip md5_hex (TtsOk response_data) data1 now1
              (w_sessions w) (w_tts_cache w) in
  let w' := foldl (λ w e, proxy_step upper strip md5_hex e w)
              (proxy_step upper strip md5_hex (Tts (TtsOk response_data) data1 now1) w) es in
  let r2 := proxy_tts upper strip md5_hex reply2 data2 now2 (w_sessions w') (w_tts_cache w') in
  truthy txt = true →
  (tts_credentials upper strip data1 now1 (w_sessions w)).1 = Some (k1, voice) →
  given data1 = true ∨ truthy k1 = true →
  od_get (get_cache_key md5_hex (txt +:+ lang data1) voice) (w_tts_cache w) = None →
  json_truthy response_data = true →
  (length es < MAX_CACHE_SIZE)%nat →
  get_str data2 "text" "" = txt →
  lang data2 = lang data1 →
  (tts_credentials upper strip data2 now2 (w_sessions w')).1 = Some (k2, voice) →
  given data2 = true ∨ truthy k2 = true →
  r1.2 = (200%nat, response_data)
  ∧ r2.1.2 = []
  ∧ r2.2 = (200%nat, response_data).
Proof.
  intros txt lang given r1 w' r2 Htext Hcred1 Hvalid1 Hmiss Htruthy Hes Htext2 Hlang2
    Hcred2 Hvalid2.
  assert (∀ data k, given data = true ∨ truthy k = true →
            negb (given data) && negb (truthy k) = false) as Hvalid.
  { intros data k [->| ->]; [done|]. by rewrite andb_false_r. }
  assert (r1.2 = (200%nat, response_data)
          ∧ kept (get_cache_key md5_hex (txt +:+ lang data1) voice) response_data 0 r1.1.1.2)
    as (Hr1 & Hkept).
  { subst r1. unfold proxy_tts. fold txt (lang data1) (given data1).
    rewrite Htext. cbn [negb].
    destruct (tts_credentials upper strip data1 now1 (w_sessions w)) as [cred1 sessions1].
    cbn [fst] in Hcred1. subst cred1. rewrite (Hvalid _ _ Hvalid1).
    unfold get_from_cache.
    pose proof (cache_get_value (get_cache_key md5_hex (txt +:+ lang data1) voice)
                  (w_tts_cache w)) as Hv.
    pose proof (cache_get_lookup (get_cache_key md5_hex (txt +:+ lang data1) voice)
                  (get_cache_key md5_hex (txt +:+ lang data1) voice) (w_tts_cache w)) as Hl.
    destruct (cache_get _ (w_tts_cache w)) as [cached cache1]. cbn [fst snd] in Hv, Hl.
    rewrite Hmiss in Hv, Hl. subst cached. cbn [from_option].
    destruct (cache_add_is_Some MAX_CACHE_SIZE
                (get_cache_key md5_hex (txt +:+ lang data1) voice) response_data cache1)
      as [cache2 Hadd]; [unfold MAX_CACHE_SIZE; lia|].
    unfold add_to_cache. rewrite Hadd. cbn [fst snd]. split; [done|].
    pose proof (cache_add_kept _ _ _ _ _ Hadd) as Hk. by rewrite Hl in Hk. }
  split_and!; [done | |].
  all: assert (od_get (get_cache_key md5_hex (txt +:+ lang data1) voice) (w_tts_cache w')
               = Some response_data) as Hget.
  1, 3: eapply kept_od_get; subst w';
        apply (proxy_steps_kept_tts _ _ es 0%nat); [|simpl; lia];
        by rewrite proxy_step_tts_cache.
  all: subst r2; unfold proxy_tts; fold (lang data2) (given data2);
       rewrite Htext2, Hlang2; fold txt; rewrite Htext; cbn [negb];
       destruct (tts_credentials upper strip data2 now2 (w_sessions w'))
         as [cred2 sessions2]; cbn [fst] in Hcred2; subst cred2;
       rewrite (Hvalid _ _ Hvalid2); cbn [snd];
       unfold get_from_cache; rewrite (cache_get_hit _ _ _ Hget);
       cbn [from_option default]; by rewrite Htruthy.
Qed.
(** X19: text simplification reaches the provider, and answers 200, only
    for a non-empty text and a level among A1, A2, B1 on a live session for
    which simplification is switched on and which holds an AI key of a
    supported provider. *)
Theorem simplify_needs_owner_opt_in reply data now (sessions : registry) :
  let r := simplify_text upper strip reply data now sessions in
  let code := strip (upper (get_str data "session_code" "")) in
  r.1.2 ≠ [] ∨ r.2.1 = 200%nat →
  ∃ s,
    truthy code = true
    ∧ (get_session code now sessions).1 = Some s
    ∧ simplification_enabled s = true
    ∧ truthy (ai (keys s)) = true
    ∧ (ai_provider (keys s) = "openai" ∨ ai_provider (keys s) = "google"
       ∨ ai_provider (keys s) = "anthropic")
    ∧ truthy (strip (get_str data "text" "")) = true
    ∧ upper (get_str data "level" "A2") ∈ SIMPLIFICATION_LEVELS.
Proof.
  intros r code. subst r. unfold simplify_text. fold code.
  destruct (truthy (strip (get_str data "text" ""))) eqn:Htext; cbn [negb];
    [|intros [?|?]; done].
  case_bool_decide as Hlvl; cbn [negb]; [|intros [?|?]; done].
  destruct (truthy code) eqn:Hcode; [|intros [?|?]; done].
  destruct (get_session code now sessions) as [[s|] sessions'] eqn:Hget;
    [|intros [?|?]; done].
  destruct (simplification_enabled s) eqn:Hen; cbn [negb]; [|intros [?|?]; done].
  destruct (truthy (ai (keys s))) eqn:Hkey; cbn [negb]; [|intros [?|?]; done].
  intros Hr. exists s. split_and!; try done.
  unfold simplify_text_with_ai in Hr. rewrite bool_decide_eq_true_2 in Hr by done.
  case_bool_decide as Hprov; [done|]. destruct Hr as [?|?]; done.
Qed.

(** X20: the two proxies keep the caches within their bounds: from caches
    with at most 500 and 1000 items, after any requests [cache_stats]
    reports sizes of at most 500 and 1000. *)
Theorem proxies_keep_cache_bounds es (w : world) :
  (length (w_tts_cache w) ≤ MAX_CACHE_SIZE)%nat →
  (length (w_translation_cache w) ≤ MAX_TRANSLATION_CACHE_SIZE)%nat →
  let w' := foldl (λ w e, proxy_step upper strip md5_hex e w) w es in
  (length (w_tts_cache w') ≤ 500)%nat
  ∧ (length (w_translation_cache w') ≤ 1000)%nat
  ∧ cache_stats (w_sessions w') (w_tts_cache w') (w_translation_cache w')
    = JObj [("tts_cache", JObj [("size", jnat (length (w_tts_cache w')));
                                ("max", JNum 500)]);
            ("translation_cache", JObj [("size", jnat (length (w_translation_cache w')));
                                        ("max", JNum 1000)]);
            ("active_sessions", jnat (size (w_sessions w')))].
Proof.
  revert w. induction es as [|e es IH]; intros w Htts Htr; cbn [foldl].
  - split_and!; done.
  - apply IH.
    + destruct e as [call_result data now|reply data now]; cbn [proxy_step].
      * by destruct (proxy_translate _ _ _ _ _ _ _ _) as [[[? ?] ?] ?].
      * unfold proxy_tts.
        destruct (truthy (get_str data "text" "")); cbn [negb]; [|done].
        destruct (tts_credentials _ _ _ _ _) as [[[api_key voice]|] sessions']; [|done].
        destruct (_ && _); [done|].
        unfold get_from_cache.
        pose proof (cache_get_length
                      (get_cache_key md5_hex
                         (get_str data "text" ""
                          +:+ default (get_str data "language_code" "de")
                                (od_get (get_str data "language_code" "de")
                                   LANGUAGE_FALLBACKS)) voice) (w_tts_cache w)) as Hlen.
        destruct (cache_get _ (w_tts_cache w)) as [cached cache']. cbn [snd] in Hlen.
        destruct (from_option json_truthy false cached); cbn [w_tts_cache]; [lia|].
        destruct reply; cbn [w_tts_cache]; try lia.
        unfold add_to_cache. destruct (cache_add _ _ _ _) as [cache''|] eqn:Hadd;
          cbn [w_tts_cache]; [|lia].
        eapply cache_add_length; [| |done]; [unfold MAX_CACHE_SIZE; lia | lia].
    + destruct e as [call_result data now|reply data now]; cbn [proxy_step].
      * unfold proxy_translate.
        destruct (truthy (get_str data "text" "")); cbn [negb]; [|done].
        case_bool_decide; [done|].
        destruct (translate_credentials _ _ _ _ _) as [[[api_key provider]|] sessions'];
          [|done].
        destruct (truthy api_key); cbn [negb]; [|done].
        unfold get_from_translation_cache.
        pose proof (cache_get_length
                      (get_translation_cache_key md5_hex (get_str data "text" "")
                         (get_str data "target_language" "de"))
                      (w_translation_cache w)) as Hlen.
        destruct (cache_get _ (w_translation_cache w)) as [cached cache'].
        cbn [snd] in Hlen.
        destruct (from_option truthy false cached); cbn [w_translation_cache]; [lia|].
        case_bool_decide; cbn [w_translation_cache]; [|lia].
        destruct call_result; cbn [w_translation_cache]; [|lia].
        unfold add_to_translation_cache.
        destruct (cache_add _ _ _ _) as [cache''|] eqn:Hadd;
          cbn [w_translation_cache]; [|lia].
        eapply cache_add_length; [| |done]; [unfold MAX_TRANSLATION_CACHE_SIZE; lia | lia].
      * by destruct (proxy_tts _ _ _ _ _ _ _ _) as [[[? ?] ?] ?].
Qed.
End proxy_properties.

(** X21: however often [start_cleanup_if_needed] is called, the sweep
    thread is started exactly once, by the first call. *)
Theorem cleanup_thread_started_once n :
  start_cleanup_calls (S n) false = (true, 1%nat)
  ∧ start_cleanup_calls n true = (true, 0%nat).
Proof.
  assert (∀ m, start_cleanup_calls m true = (true, 0%nat)) as Htrue.
  { induction m as [|m IH]; [done|]. cbn [start_cleanup_calls start_cleanup_if_needed negb].
    by rewrite IH. }
  split; [|apply Htrue].
  cbn [start_cleanup_calls start_cleanup_if_needed negb]. by rewrite Htrue.
Qed.

(** * Further properties of the socket handlers *)

Lemma with_translation_requests_id (s : session) :
  with_translation_requests (λ m, m) s = s.
Proof. by destruct s. Qed.

(** X22: the owner's approval does not reach the provider when the request
    is unknown, the session has no text or no AI key is configured: in the
    first two cases only the owner gets an error and nothing changes; in
    the third the request becomes [approved_no_translation] and the
    requesting connection is told so, with no translated text. *)
Theorem approve_translation_without_provider upper_strip reply data owner now
    (sessions : registry) s :
  sessions !! request_code upper_strip data = Some s →
  now < expires s →
  teacher_sid s = Some owner →
  let student_sid := get_str data "student_sid" "" in
  let r := handle_teacher_approve_translation upper_strip reply data owner now sessions in
  (translation_requests s !! student_sid = None →
   r = (sessions, [Emit "session_error" (err "Anfrage nicht gefunden")]))
  ∧ (∀ tr, translation_requests s !! student_sid = Some tr →
       truthy (text s) = false →
       r = (sessions, [Emit "session_error" (err "Kein Text zum Übersetzen")]))
  ∧ (∀ tr, translation_requests s !! student_sid = Some tr →
       truthy (text s) = true → truthy (ai (keys s)) = false →
       r = (<[request_code upper_strip data :=
                with_translation_requests
                  <[student_sid := with_status "approved_no_translation"
                                     (translated_text tr) tr]> s]> sessions,
            [EmitRoom "translation_approved"
               (JObj [("language", JStr (language tr));
                      ("translated_text", JNull);
                      ("layout", JStr (get_str data "layout" "side-by-side"));
                      ("message", JStr "Übersetzung genehmigt, aber kein AI-Key für automatische Übersetzung konfiguriert.")])
               student_sid])).
Proof.
  intros Hs Hnow Howner student_sid r. subst r.
  unfold handle_teacher_approve_translation. fold student_sid.
  rewrite (get_session_live_eq _ _ _ _ Hs Hnow). rewrite bool_decide_eq_true_2 by done.
  split_and!.
  - by intros ->.
  - intros tr -> ->. done.
  - intros tr Htr -> ->. rewrite Htr. cbn [negb]. f_equal.
    apply map_eq. intros c. rewrite lookup_alter, lookup_insert.
    case_decide; subst; [|done]. rewrite Hs. cbn [fmap option_fmap option_map]. f_equal.
    unfold with_translation_requests. f_equal.
    apply map_eq. intros k. rewrite lookup_alter, lookup_insert.
    case_decide; subst; [|done]. by rewrite Htr.
Qed.

(** X23: a denial by the owner does not require a request: for a
    connection without one the registry is unchanged, yet a
    [translation_denied] is sent to the room of the named connection; for a
    connection with a request the request becomes [denied]. *)
Theorem deny_translation_outcome upper_strip data owner now (sessions : registry) s :
  sessions !! request_code upper_strip data = Some s →
  now < expires s →
  teacher_sid s = Some owner →
  let student_sid := get_str data "student_sid" "" in
  let r := handle_teacher_deny_translation upper_strip data owner now sessions in
  r.2 = [EmitRoom "translation_denied"
           (JObj [("message", JStr "Deine Übersetzungsanfrage wurde abgelehnt.")])
           student_sid;
         Emit "translation_request_removed"
           (JObj [("student_sid", JStr student_sid);
                  ("anonymous_id",
                   JStr (from_option tr_anonymous_id ""
                           (translation_requests s !! student_sid)))])]
  ∧ (translation_requests s !! student_sid = None → r.1 = sessions)
  ∧ (∀ tr, translation_requests s !! student_sid = Some tr →
       r.1 = <[request_code upper_strip data :=
                 with_translation_requests
                   <[student_sid := with_status "denied" (translated_text tr) tr]> s]>
               sessions).
Proof.
  intros Hs Hnow Howner student_sid r. subst r.
  unfold handle_teacher_deny_translation. fold student_sid.
  rewrite (get_session_live_eq _ _ _ _ Hs Hnow). rewrite bool_decide_eq_true_2 by done.
  cbn [fst snd]. split_and!; [done | |].
  - intros Hnone. apply map_eq. intros c. rewrite lookup_alter.
    case_decide; subst; [|done]. rewrite Hs. cbn [fmap option_fmap option_map]. f_equal.
    rewrite <- (with_translation_requests_id s) at 2.
    unfold with_translation_requests. f_equal.
    apply map_eq. intros k. rewrite lookup_alter. case_decide; subst; [|done].
    by rewrite Hnone.
  - intros tr Htr. apply map_eq. intros c. rewrite lookup_alter, lookup_insert.
    case_decide; subst; [|done]. rewrite Hs. cbn [fmap option_fmap option_map]. f_equal.
    unfold with_translation_requests. f_equal.
    apply map_eq. intros k. rewrite lookup_alter, lookup_insert.
    case_decide; subst; [|done]. by rewrite Htr.
Qed.

(** X24: when the owner ends a live session over the socket, the room gets
    one [session_ended], the owner a confirmation, and the session is gone:
    afterwards a join with that code is refused, over the socket and over
    HTTP, and nothing is stored. *)
Theorem ended_session_refuses_joins upper_strip rnd data d_join owner sid now n1 n2 n3
    (sessions : registry) s :
  sessions !! request_code upper_strip data = Some s →
  now < expires s →
  teacher_sid s = Some owner →
  request_code upper_strip d_join = request_code upper_strip data →
  let ended := delete (request_code upper_strip data) sessions in
  handle_teacher_end_session upper_strip data owner now sessions
  = (ended,
     [EmitRoom "session_ended"
        (JObj [("message", JStr "Die Session wurde vom Lehrer beendet.")])
        (request_code upper_strip data);
      Emit "session_ended_confirmed" (JObj [("success", JBool true)])])
  ∧ handle_student_join_session upper_strip rnd d_join sid n1 n2 ended
    = (ended, [Emit "join_error" (err "Session nicht gefunden oder abgelaufen")])
  ∧ api_join_session upper_strip d_join n3 ended
    = (ended, [Respond 404 (err "Session nicht gefunden oder abgelaufen")]).
Proof.
  intros Hs Hnow Howner Hjoin ended. subst ended. split_and!.
  - unfold handle_teacher_end_session. rewrite (get_session_live_eq _ _ _ _ Hs Hnow).
    cbn [is_owner]. rewrite bool_decide_eq_true_2 by done.
    unfold end_session. by rewrite Hs.
  - unfold handle_student_join_session, get_session. rewrite Hjoin.
    by rewrite lookup_delete_eq.
  - unfold api_join_session, get_session. rewrite Hjoin. by rewrite lookup_delete_eq.
Qed.

(** * Instances of the further properties *)

Lemma join_then_leave_restores_registry_witness :
  ∃ sd sessions',
    add_student_to_session 0 "ABC234" "student-7" "Mia" 6 demo_registry = (Some sd, sessions')
    ∧ (∃ s', sessions' !! "ABC234" = Some s' ∧ students s' !! "student-7" = Some sd
             ∧ size (students s') = S (size (students demo_session)))
    ∧ remove_student_from_session "ABC234" "student-7" sessions' = (true, demo_registry).
Proof.
  apply (join_then_leave_restores_registry 0 "ABC234" "student-7" "Mia" 6
           demo_registry demo_session); reflexivity.
Defined.

Lemma join_keeps_identities_distinct_witness :
  (∃ sd s',
     add_student_to_session 30 "ABC234" "student-7" "Mia" 6 (classroom [0; 1; 3]%nat)
     = (Some sd, <["ABC234" := s']> (classroom [0; 1; 3]%nat))
     ∧ students s' = <["student-7" := sd]> (crowd [0; 1; 3]%nat)
     ∧ ANONYMOUS_ANIMALS !! animal_index sd = Some (animal_emoji sd, animal_name sd)
     ∧ anonymous_id sd = animal_emoji sd +:+ " " +:+ animal_name sd
     ∧ (∀ sid' sd', crowd [0; 1; 3]%nat !! sid' = Some sd' → animal_index sd' ≠ animal_index sd)
     ∧ distinct_identities s')
  ∧ (∀ rnd2 sid2 nm2 now2, sid2 ≠ "student-7" →
       get_anonymous_name rnd2 "ABC234" sid2 (classroom [0; 1; 3]%nat)
       = get_anonymous_name 30 "ABC234" "student-7" (classroom [0; 1; 3]%nat)
       ∧ ∃ sd1 sd2 s'',
           store_student (get_anonymous_name rnd2 "ABC234" sid2 (classroom [0; 1; 3]%nat))
             "ABC234" sid2 nm2 now2
             (store_student
                (get_anonymous_name 30 "ABC234" "student-7" (classroom [0; 1; 3]%nat))
                "ABC234" "student-7" "Mia" 6 (classroom [0; 1; 3]%nat)).2
           = (Some sd2, <["ABC234" := s'']> (classroom [0; 1; 3]%nat))
           ∧ students s'' !! "student-7" = Some sd1
           ∧ students s'' !! sid2 = Some sd2
           ∧ animal_index sd1 = animal_index sd2
           ∧ ¬ distinct_identities s'').
Proof.
  apply (join_keeps_identities_distinct 30 "ABC234" "student-7" "Mia" 6
           (classroom [0; 1; 3]%nat) (with_students (λ _, crowd [0; 1; 3]%nat) demo_session)).
  - reflexivity.
  - vm_compute. lia.
  - apply distinct_identities_NoDup. apply (bool_decide_unpack _). vm_compute. exact I.
Defined.

Lemma sweep_agrees_with_lookup_witness :
  get_session "AAAAAA" 10800000500
    (cleanup_expired_sessions (λ _, None) two_stamps 10800000500 two_sessions).1
  = ((get_session "AAAAAA" 10800000500 two_sessions).1,
     (cleanup_expired_sessions (λ _, None) two_stamps 10800000500 two_sessions).1)
  ∧ (∀ c s, (cleanup_expired_sessions (λ _, None) two_stamps 10800000500 two_sessions).1
              !! c = Some s
            ↔ (get_session c 10800000500 two_sessions).1 = Some s)
  ∧ (∀ stamp', cleanup_expired_sessions (λ _, None) stamp' 10800000500
                 (cleanup_expired_sessions (λ _, None) two_stamps 10800000500
                    two_sessions).1
               = ((cleanup_expired_sessions (λ _, None) two_stamps 10800000500
                     two_sessions).1, None)).
Proof.
  apply (sweep_agrees_with_lookup (λ _, None) two_stamps 10800000500 "AAAAAA" two_sessions).
  reflexivity.
Defined.

Lemma late_joiner_gets_snapshot_witness :
  ∃ sessions' out anon emoji label,
    run id
      [ApiSetSessionText (demo_request [("text", JStr "Hallo Welt")]);
       TeacherUpdateSettings (demo_request [("settings", JObj [("font", JStr "large")])])
         "teacher-1" 5;
       TeacherReleaseTasks (demo_request [("tasks", JList [JStr "Aufgabe 1"])])
         "teacher-1" 6;
       StudentJoinSession 0 (demo_request [("name", JStr "Mia")]) "student-7" 7 8]
      demo_registry = Some (sessions', out)
    ∧ Emit "join_success"
        (JObj [("code", JStr "ABC234");
               ("text", JStr (get_str (demo_request [("text", JStr "Hallo Welt")]) "text" ""));
               ("settings",
                get_json (demo_request [("settings", JObj [("font", JStr "large")])])
                  "settings" (JObj []));
               ("tasks_available", JBool true);
               ("tasks",
                get_json (demo_request [("tasks", JList [JStr "Aufgabe 1"])])
                  "tasks" (JList []));
               ("anonymous_id", JStr anon);
               ("animal_emoji", JStr emoji);
               ("animal_name", JStr label);
               ("simplification_enabled", JBool (simplification_enabled demo_session))])
      ∈ out.
Proof.
  apply (late_joiner_gets_snapshot id 0 "ABC234" "teacher-1" "student-7" demo_registry
           demo_session (demo_request [("text", JStr "Hallo Welt")])
           (demo_request [("settings", JObj [("font", JStr "large")])])
           (demo_request [("tasks", JList [JStr "Aufgabe 1"])])
           (demo_request [("name", JStr "Mia")]) 5 6 7 8);
    reflexivity.
Defined.

Lemma approve_translation_outcome_witness :
  handle_teacher_approve_translation id (HttpOk "Merhaba")
    (demo_request [("student_sid", JStr "student-7")]) "teacher-1" 8 requested_registry
  = (<["ABC234" :=
         with_translation_requests
           <["student-7" := with_status "approved" (Some "Merhaba") pending_request]>
           (with_translation_requests <["student-7" := pending_request]>
              (with_text "Hallo Welt" demo_session))]> requested_registry,
     [EmitRoom "translation_approved"
        (JObj [("language", JStr "tr");
               ("language_name", JStr "Türkisch");
               ("translated_text", JStr "Merhaba");
               ("layout", JStr "side-by-side")])
        "student-7";
      Emit "translation_sent"
        (JObj [("student_sid", JStr "student-7");
               ("anonymous_id", JStr "🦊 Fuchs");
               ("success", JBool true)])]).
Proof.
  apply (approve_translation_outcome id (HttpOk "Merhaba")
           (demo_request [("student_sid", JStr "student-7")]) "teacher-1" 8
           requested_registry
           (with_translation_requests <["student-7" := pending_request]>
              (with_text "Hallo Welt" demo_session)) pending_request);
    reflexivity.
Defined.

Lemma translation_request_restarts_pending_witness :
  ∃ s',
    (handle_student_request_translation id (demo_request [("language", JStr "en")])
       "student-7" 9 9 requested_registry).1 !! "ABC234" = Some s'
    ∧ translation_requests s' !! "student-7"
      = Some {| language := "en"; language_name := "Englisch"; status := "pending";
                tr_anonymous_id := "🐾 Gast"; requested_at := 9;
                translated_text := None |}
    ∧ (∀ sid', sid' ≠ "student-7" →
         translation_requests s' !! sid'
         = translation_requests
             (with_translation_requests <["student-7" := pending_request]>
                (with_text "Hallo Welt" demo_session)) !! sid')
    ∧ students s' = students demo_session ∧ text s' = "Hallo Welt"
    ∧ keys s' = demo_keys ∧ teacher_sid s' = Some "teacher-1".
Proof.
  apply (translation_request_restarts_pending id (demo_request [("language", JStr "en")])
           "student-7" 9 9 requested_registry
           (with_translation_requests <["student-7" := pending_request]>
              (with_text "Hallo Welt" demo_session)));
    reflexivity.
Defined.

Lemma http_created_session_has_no_owner_witness :
  ∃ code s,
    [Respond 200 (JObj [("success", JBool true); ("code", JStr "AAAAAA");
                        ("expires", JTime 10800000007)])]
    = [Respond 200 (JObj [("success", JBool true); ("code", JStr code);
                          ("expires", JTime (7 + timedelta_hours SESSION_TIMEOUT_HOURS))])]
    ∧ (∅ : registry) !! code = None
    ∧ <["AAAAAA" := http_created]> ∅ = <[code := s]> (∅ : registry)
    ∧ teacher_sid s = None
    ∧ ∀ e d sid now,
        owner_request e = Some (d, sid, now) →
        request_code id d = code →
        now < expires s →
        ∃ msg, handle id e (<["AAAAAA" := http_created]> ∅)
               = Some (<["AAAAAA" := http_created]> ∅, [Emit "session_error" (err msg)]).
Proof.
  apply (http_created_session_has_no_owner id 1 (λ _, 0%nat) create_request 5 7 ∅
           (<["AAAAAA" := http_created]> ∅)
           [Respond 200 (JObj [("success", JBool true); ("code", JStr "AAAAAA");
                               ("expires", JTime 10800000007)])]).
  - vm_compute. reflexivity.
  - reflexivity.
Defined.

Lemma socket_creator_owns_session_witness :
  ∃ code s,
    [JoinRoom "AAAAAA";
     Emit "session_created"
       (JObj [("code", JStr "AAAAAA"); ("expires", JTime 10800000007);
              ("has_pin", JBool true)])]
    = [JoinRoom code;
       Emit "session_created"
         (JObj [("code", JStr code);
                ("expires", JTime (7 + timedelta_hours SESSION_TIMEOUT_HOURS));
                ("has_pin", JBool (truthy (get_str create_request "pin" "")))])]
    ∧ (∅ : registry) !! code = None
    ∧ <["AAAAAA" := socket_created]> ∅ = <[code := s]> (∅ : registry)
    ∧ teacher_sid s = Some "teacher-1"
    ∧ ∀ d now,
        request_code id d = code →
        now < expires s →
        handle_teacher_update_settings id d "teacher-1" now (<["AAAAAA" := socket_created]> ∅)
        = (<[code := with_settings (get_json d "settings" (JObj [])) s]> ∅,
           [EmitRoom "settings_updated"
              (JObj [("settings", get_json d "settings" (JObj []))]) code]).
Proof.
  apply (socket_creator_owns_session id 1 (λ _, 0%nat) create_request "teacher-1" 5 7 ∅
           (<["AAAAAA" := socket_created]> ∅)
           [JoinRoom "AAAAAA";
            Emit "session_created"
              (JObj [("code", JStr "AAAAAA"); ("expires", JTime 10800000007);
                     ("has_pin", JBool true)])]).
  - vm_compute. reflexivity.
  - reflexivity.
Defined.

Lemma cache_add_then_get_witness :
  od_get "c" [("b", 2%nat); ("c", 3%nat)]
  = Some (default 3%nat (od_get "c" [("a", 1%nat); ("b", 2%nat)]))
  ∧ (cache_get "c" [("b", 2%nat); ("c", 3%nat)]).1
    = Some (default 3%nat (od_get "c" [("a", 1%nat); ("b", 2%nat)]))
  ∧ ∀ k', k' ≠ "c" →
      od_get k' [("b", 2%nat); ("c", 3%nat)] = od_get k' [("a", 1%nat); ("b", 2%nat)]
      ∨ (od_get "c" [("a", 1%nat); ("b", 2%nat)] = None
         ∧ (2 ≤ length [("a", 1%nat); ("b", 2%nat)])%nat
         ∧ ∃ v0 rest, [("a", 1%nat); ("b", 2%nat)] = (k', v0) :: rest).
Proof.
  apply (cache_add_then_get 2 "c" 3%nat [("a", 1%nat); ("b", 2%nat)]
           [("b", 2%nat); ("c", 3%nat)]).
  reflexivity.
Defined.


(** The bound is reached: after 1000 requests for other texts the entry
    has been removed and the request goes to the provider again. *)
Example translation_evicted_after_1000_others :
  (proxy_translate id id id (inl "Merhaba") translate_request_direct 9
     (w_sessions
        (foldl (λ w e, proxy_step id id id e w)
           (proxy_step id id id (Translate (inl "Merhaba") translate_request 5)
              (World demo_registry [] [])) (many_translations 1000)))
     (w_translation_cache
        (foldl (λ w e, proxy_step id id id e w)
           (proxy_step id id id (Translate (inl "Merhaba") translate_request 5)
              (World demo_registry [] [])) (many_translations 1000)))).1.2
  = [TextCall "openai" "X9" (translate_system_prompt "tr") "Guten Tag"].
Proof. vm_compute. reflexivity. Qed.

Lemma translate_empty_entry_is_never_served_witness :
  (proxy_translate id id id (inl "Merhaba") translate_request 5 demo_registry
     [("Guten Tag|tr", "")]).1.2
  = [TextCall "openai" "A1" (translate_system_prompt "tr") "Guten Tag"]
  ∧ (proxy_translate id id id (inl "Merhaba") translate_request 5 demo_registry
       [("Guten Tag|tr", "")]).2
    = (200%nat, JObj [("translated_text", JStr "Merhaba")])
  ∧ od_get "Guten Tag|tr"
      (proxy_translate id id id (inl "Merhaba") translate_request 5 demo_registry
         [("Guten Tag|tr", "")]).1.1.2
    = Some "".
Proof.
  apply (translate_empty_entry_is_never_served id id id "Merhaba" translate_request 5
           demo_registry [("Guten Tag|tr", "")] "A1" "openai");
    try reflexivity; try discriminate; by left.
Defined.

Lemma tts_language_fallback_witness :
  proxy_tts id id id (TtsOk audio) (<["language_code" := JStr "uk"]> tts_request) 5
    demo_registry []
  = proxy_tts id id id (TtsOk audio) (<["language_code" := JStr "bg"]> tts_request) 5
      demo_registry [].
Proof.
  apply (tts_language_fallback id id id (TtsOk audio) tts_request 5 demo_registry []
           "uk" "bg"); repeat constructor.
Defined.

Lemma tts_second_request_from_cache_witness :
  (proxy_tts id id id (TtsOk audio) tts_request 5 demo_registry []).2 = (200%nat, audio)
  ∧ (proxy_tts id id id TtsTimeout tts_request_direct 9
       (w_sessions
          (foldl (λ w e, proxy_step id id id e w)
             (proxy_step id id id (Tts (TtsOk audio) tts_request 5)
                (World demo_registry [] [])) requests_between))
       (w_tts_cache
          (foldl (λ w e, proxy_step id id id e w)
             (proxy_step id id id (Tts (TtsOk audio) tts_request 5)
                (World demo_registry [] [])) requests_between))).1.2 = []
  ∧ (proxy_tts id id id TtsTimeout tts_request_direct 9
       (w_sessions
          (foldl (λ w e, proxy_step id id id e w)
             (proxy_step id id id (Tts (TtsOk audio) tts_request 5)
                (World demo_registry [] [])) requests_between))
       (w_tts_cache
          (foldl (λ w e, proxy_step id id id e w)
             (proxy_step id id id (Tts (TtsOk audio) tts_request 5)
                (World demo_registry [] [])) requests_between))).2
    = (200%nat, audio).
Proof.
  apply (tts_second_request_from_cache id id id audio tts_request 5 requests_between
           tts_request_direct 9 TtsTimeout (World demo_registry [] []) "K1" "X9" "V1");
    try reflexivity; try ((by left) || (by right)); vm_compute; lia.
Defined.

Example synthesis_evicted_after_500_others :
  (proxy_tts id id id (TtsOk audio) tts_request_direct 9
     (w_sessions
        (foldl (λ w e, proxy_step id id id e w)
           (proxy_step id id id (Tts (TtsOk audio) tts_request 5)
              (World demo_registry [] [])) (many_syntheses 500)))
     (w_tts_cache
        (foldl (λ w e, proxy_step id id id e w)
           (proxy_step id id id (Tts (TtsOk audio) tts_request 5)
              (World demo_registry [] [])) (many_syntheses 500)))).1.2
  = [TtsCall "V1" "X9" "Guten Tag" "eleven_multilingual_v2" "de"].
Proof. vm_compute. reflexivity. Qed.

Lemma simplify_needs_owner_opt_in_witness :
  ∃ s,
    truthy "ABC234" = true
    ∧ (get_session "ABC234" 5 simplifying_registry).1 = Some s
    ∧ simplification_enabled s = true
    ∧ truthy (ai (keys s)) = true
    ∧ (ai_provider (keys s) = "openai" ∨ ai_provider (keys s) = "google"
       ∨ ai_provider (keys s) = "anthropic")
    ∧ truthy "Guten Tag" = true
    ∧ "A1" ∈ SIMPLIFICATION_LEVELS.
Proof.
  apply (simplify_needs_owner_opt_in id id (HttpOk "Hallo") simplify_request 5
           simplifying_registry).
  right. reflexivity.
Defined.

Lemma proxies_keep_cache_bounds_witness :
  (length (w_tts_cache
             (foldl (λ w e, proxy_step id id id e w) (World demo_registry [] [])
                [Tts (TtsOk audio) tts_request 5;
                 Translate (inl "Merhaba") translate_request 6])) ≤ 500)%nat
  ∧ (length (w_translation_cache
               (foldl (λ w e, proxy_step id id id e w) (World demo_registry [] [])
                  [Tts (TtsOk audio) tts_request 5;
                   Translate (inl "Merhaba") translate_request 6])) ≤ 1000)%nat
  ∧ cache_stats
      (w_sessions (foldl (λ w e, proxy_step id id id e w) (World demo_registry [] [])
                     [Tts (TtsOk audio) tts_request 5;
                      Translate (inl "Merhaba") translate_request 6]))
      (w_tts_cache (foldl (λ w e, proxy_step id id id e w) (World demo_registry [] [])
                      [Tts (TtsOk audio) tts_request 5;
                       Translate (inl "Merhaba") translate_request 6]))
      (w_translation_cache
         (foldl (λ w e, proxy_step id id id e w) (World demo_registry [] [])
            [Tts (TtsOk audio) tts_request 5;
             Translate (inl "Merhaba") translate_request 6]))
    = JObj [("tts_cache",
             JObj [("size",
                    jnat (length (w_tts_cache
                            (foldl (λ w e, proxy_step id id id e w)
                               (World demo_registry [] [])
                               [Tts (TtsOk audio) tts_request 5;
                                Translate (inl "Merhaba") translate_request 6]))));
                   ("max", JNum 500)]);
            ("translation_cache",
             JObj [("size",
                    jnat (length (w_translation_cache
                            (foldl (λ w e, proxy_step id id id e w)
                               (World demo_registry [] [])
                               [Tts (TtsOk audio) tts_request 5;
                                Translate (inl "Merhaba") translate_request 6]))));
                   ("max", JNum 1000)]);
            ("active_sessions",
             jnat (size (w_sessions
                     (foldl (λ w e, proxy_step id id id e w) (World demo_registry [] [])
                        [Tts (TtsOk audio) tts_request 5;
                         Translate (inl "Merhaba") translate_request 6]))))].
Proof.
  apply (proxies_keep_cache_bounds id id id
           [Tts (TtsOk audio) tts_request 5; Translate (inl "Merhaba") translate_request 6]
           (World demo_registry [] [])); simpl; lia.
Defined.

Lemma approve_translation_without_provider_witness :
  (translation_requests (with_text "Hallo Welt" demo_session) !! "student-7" = None →
   handle_teacher_approve_translation id (HttpOk "Merhaba")
     (demo_request [("student_sid", JStr "student-7")]) "teacher-1" 8 reading_registry
   = (reading_registry, [Emit "session_error" (err "Anfrage nicht gefunden")]))
  ∧ (∀ tr, translation_requests (with_text "Hallo Welt" demo_session) !! "student-7"
           = Some tr →
       truthy (text (with_text "Hallo Welt" demo_session)) = false →
       handle_teacher_approve_translation id (HttpOk "Merhaba")
         (demo_request [("student_sid", JStr "student-7")]) "teacher-1" 8 reading_registry
       = (reading_registry, [Emit "session_error" (err "Kein Text zum Übersetzen")]))
  ∧ (∀ tr, translation_requests (with_text "Hallo Welt" demo_session) !! "student-7"
           = Some tr →
       truthy (text (with_text "Hallo Welt" demo_session)) = true →
       truthy (ai (keys (with_text "Hallo Welt" demo_session))) = false →
       handle_teacher_approve_translation id (HttpOk "Merhaba")
         (demo_request [("student_sid", JStr "student-7")]) "teacher-1" 8 reading_registry
       = (<["ABC234" :=
              with_translation_requests
                <["student-7" := with_status "approved_no_translation"
                                   (translated_text tr) tr]>
                (with_text "Hallo Welt" demo_session)]> reading_registry,
          [EmitRoom "translation_approved"
             (JObj [("language", JStr (language tr));
                    ("translated_text", JNull);
                    ("layout", JStr "side-by-side");
                    ("message", JStr "Übersetzung genehmigt, aber kein AI-Key für automatische Übersetzung konfiguriert.")])
             "student-7"])).
Proof.
  apply (approve_translation_without_provider id (HttpOk "Merhaba")
           (demo_request [("student_sid", JStr "student-7")]) "teacher-1" 8
           reading_registry (with_text "Hallo Welt" demo_session)); reflexivity.
Defined.

Lemma deny_translation_outcome_witness :
  (handle_teacher_deny_translation id (demo_request [("student_sid", JStr "student-7")])
     "teacher-1" 8 requested_registry).2
  = [EmitRoom "translation_denied"
       (JObj [("message", JStr "Deine Übersetzungsanfrage wurde abgelehnt.")])
       "student-7";
     Emit "translation_request_removed"
       (JObj [("student_sid", JStr "student-7"); ("anonymous_id", JStr "🦊 Fuchs")])]
  ∧ (translation_requests
       (with_translation_requests <["student-7" := pending_request]>
          (with_text "Hallo Welt" demo_session)) !! "student-7" = None →
     (handle_teacher_deny_translation id (demo_request [("student_sid", JStr "student-7")])
        "teacher-1" 8 requested_registry).1 = requested_registry)
  ∧ (∀ tr, translation_requests
             (with_translation_requests <["student-7" := pending_request]>
                (with_text "Hallo Welt" demo_session)) !! "student-7" = Some tr →
       (handle_teacher_deny_translation id (demo_request [("student_sid", JStr "student-7")])
          "teacher-1" 8 requested_registry).1
       = <["ABC234" :=
             with_translation_requests
               <["student-7" := with_status "denied" (translated_text tr) tr]>
               (with_translation_requests <["student-7" := pending_request]>
                  (with_text "Hallo Welt" demo_session))]> requested_registry).
Proof.
  exact (deny_translation_outcome id (demo_request [("student_sid", JStr "student-7")])
           "teacher-1" 8 requested_registry
           (with_translation_requests <["student-7" := pending_request]>
              (with_text "Hallo Welt" demo_session)) eq_refl eq_refl eq_refl).
Defined.

Lemma ended_session_refuses_joins_witness :
  handle_teacher_end_session id (demo_request []) "teacher-1" 5 demo_registry
  = (delete "ABC234" demo_registry,
     [EmitRoom "session_ended"
        (JObj [("message", JStr "Die Session wurde vom Lehrer beendet.")]) "ABC234";
      Emit "session_ended_confirmed" (JObj [("success", JBool true)])])
  ∧ handle_student_join_session id 0 (demo_request [("name", JStr "Mia")]) "student-7" 6 6
      (delete "ABC234" demo_registry)
    = (delete "ABC234" demo_registry,
       [Emit "join_error" (err "Session nicht gefunden oder abgelaufen")])
  ∧ api_join_session id (demo_request [("name", JStr "Mia")]) 7
      (delete "ABC234" demo_registry)
    = (delete "ABC234" demo_registry,
       [Respond 404 (err "Session nicht gefunden oder abgelaufen")]).
Proof.
  apply (ended_session_refuses_joins id 0 (demo_request [])
           (demo_request [("name", JStr "Mia")]) "teacher-1" "student-7" 5 6 6 7
           demo_registry demo_session); reflexivity.
Defined.
